(** * fsdb: the file sync manager (FileSyncManager.ts)

    A shallow embedding of the reconciliation engine of fsdb: the class
    [FileSyncManager] that keeps the SQLite table [files] in step with a
    directory tree.  Every method of the class that touches the file
    system, the table, the event emitter or [console.error] is a
    computation in the monad [M] below; [try]/[catch] of the source is
    [try_catch].

    What stands outside the class is modelled as its interface:
    - the file system ([fs.readdir], [fs.stat], [fs.readFile]) is a
      read-only environment [FileSystem]: a directory tree for [readdir]
      and two partial functions for [stat] and [readFile];
    - SQLite is the list of rows of the table [files] in rowid order with
      the four statements the class issues; a statement, and [open] and
      [close], can be made to fail through the oracle [db_fault];
    - [new Date().toISOString()] reads a clock that may return a new
      value at every call;
    - SHA-256 is a parameter ([sha256_hex]);
    - chokidar delivers an event unless its path matches [ignored];
      [watcher.close()] can be made to reject through
      [watcher_close_fault].
    The state also keeps, in [fs_calls] and [db_calls], the list of the
    file system calls and of the statements issued so far, so that what
    a method did not do can be stated.  The status lines written with
    [console.log] have no effect on the state and are left out; the
    100 ms pause of [#handleFileAddOrChange] changes nothing but the
    order in which handlers run, which is the order of the list given to
    [watch_loop].  A string is the UTF-8
    encoding of the JavaScript string: one byte for an ASCII character,
    the three bytes E2 80 A8 and E2 80 A9 for U+2028 and U+2029. *)

From Stdlib Require Import String Ascii List ZArith Bool Lia.
Import ListNotations.

Local Open Scope string_scope.
Local Open Scope list_scope.

(** ** Data model *)

(** [FileRecord] of the source; [id] is the optional field [id?]. *)
Record FileRecord : Type := mkFileRecord {
  id : option Z;
  file_path : string;
  size : Z;
  modified_time : Z;
  checksum : string;
  created_at : string;
  updated_at : string
}.

(** The two fields of [fs.Stats] the class reads: [stats.size] and
    [stats.mtime.getTime()] (milliseconds). *)
Record Stats : Type := mkStats {
  st_size : Z;
  st_mtime_ms : Z
}.

Set Warnings "-register-all".

(** A directory entry as [readdir(..., { withFileTypes: true })] shows
    it, together with what a recursive descent finds below it. *)
Inductive Entry : Type :=
| IsFile                                        (* entry.isFile() *)
| IsDirectory (entries : list (string * Entry)) (* entry.isDirectory(), readable *)
| IsUnreadableDirectory                         (* entry.isDirectory(), readdir rejects *)
| IsOther.                                      (* symbolic link, socket, fifo, ... *)

Inductive FsCall : Type :=
| Readdir (p : string)
| Stat (p : string)
| ReadFile (p : string).

Inductive Stmt : Type :=
| OpenDatabase
| CreateTables
| InsertInto (p : string)
| UpdateWhere (p : string)
| DeleteWhere (p : string)
| SelectAll
| CloseDatabase.

Inductive Exn : Type :=
| FsError (c : FsCall)
| DatabaseNotInitialized
| SqliteConstraintUnique (p : string)
| SqliteError (s : Stmt)
| WatcherCloseError.

(** The events of the [EventEmitter]. *)
Inductive Event : Type :=
| file_added (r : FileRecord)
| file_updated (r : FileRecord)
| file_removed (p : string).

(** The lines written with [console.error], by the message they carry. *)
Inductive Failure : Type :=
| FailedChecksum (p : string)
| FailedCreateRecord (p : string)
| FailedScan (dir : string)
| FailedInsert (p : string)
| FailedUpdate (p : string)
| FailedRemove (p : string)
| FailedFetch
| FailedCheckChanged (p : string)
| InitialSyncFailed
| FailedAddOrChange (p : string)
| WatcherError
| FailedInitializeDatabase
| FailedStart
| UnhandledRejection
| ErrorDuringShutdown.

(** The options of [chokidar.watch] the class sets; an absent key is
    [None].  [ignored] is a test on the path of an event. *)
Record ChokidarOptions : Type := mkChokidarOptions {
  ignored : option (string -> bool);
  ignoreInitial : option bool;
  persistent : option bool
}.

Record FileSystem : Type := mkFileSystem {
  root : Entry;                       (* what lies at the watch folder *)
  stat : string -> option Stats;
  readFile : string -> option string
}.

Record World : Type := mkWorld {
  watchFolder : string;
  watchOptions : ChokidarOptions;
  filesystem : FileSystem;
  clock : nat -> string;              (* the n-th reading of the clock *)
  db_fault : Stmt -> bool;            (* statements SQLite rejects *)
  watcher_close_fault : bool          (* watcher.close() rejects *)
}.

Record State : Type := mkState {
  db : bool;                          (* this.#db is not null *)
  watcher : option ChokidarOptions;   (* this.#watcher and its options *)
  files : list FileRecord;            (* the table, in rowid order *)
  sqlite_sequence : Z;                (* last AUTOINCREMENT id handed out *)
  db_calls : list Stmt;               (* statements handed to SQLite *)
  emitted : list Event;
  console_error : list (Failure * Exn);
  fs_calls : list FsCall;
  ticks : nat                         (* readings of the clock so far *)
}.

Definition set_db (b : bool) (s : State) : State :=
  mkState b (watcher s) (files s) (sqlite_sequence s) (db_calls s) (emitted s) (console_error s)
          (fs_calls s) (ticks s).

Definition set_watcher (o : option ChokidarOptions) (s : State) : State :=
  mkState (db s) o (files s) (sqlite_sequence s) (db_calls s) (emitted s) (console_error s)
          (fs_calls s) (ticks s).

Definition set_table (t : list FileRecord) (n : Z) (s : State) : State :=
  mkState (db s) (watcher s) t n (db_calls s) (emitted s) (console_error s) (fs_calls s) (ticks s).

Definition add_emitted (e : Event) (s : State) : State :=
  mkState (db s) (watcher s) (files s) (sqlite_sequence s) (db_calls s) (emitted s ++ [e])
          (console_error s) (fs_calls s) (ticks s).

Definition add_console_error (l : Failure * Exn) (s : State) : State :=
  mkState (db s) (watcher s) (files s) (sqlite_sequence s) (db_calls s) (emitted s)
          (console_error s ++ [l]) (fs_calls s) (ticks s).

Definition add_fs_call (c : FsCall) (s : State) : State :=
  mkState (db s) (watcher s) (files s) (sqlite_sequence s) (db_calls s) (emitted s) (console_error s)
          (fs_calls s ++ [c]) (ticks s).

Definition add_db_call (c : Stmt) (s : State) : State :=
  mkState (db s) (watcher s) (files s) (sqlite_sequence s) (db_calls s ++ [c])
          (emitted s) (console_error s) (fs_calls s) (ticks s).

Definition tick (s : State) : State :=
  mkState (db s) (watcher s) (files s) (sqlite_sequence s) (db_calls s) (emitted s) (console_error s)
          (fs_calls s) (S (ticks s)).

(** ** The monad: state and exceptions *)

Inductive Result (A : Type) : Type :=
| Ok (a : A)
| Throw (e : Exn).
Arguments Ok {A} a.
Arguments Throw {A} e.

Definition M (A : Type) : Type := State -> Result A * State.

Definition ret {A} (a : A) : M A := fun s => (Ok a, s).

Definition throw {A} (e : Exn) : M A := fun s => (Throw e, s).

Definition bind {A B} (m : M A) (k : A -> M B) : M B :=
  fun s => match m s with
           | (Ok a, s') => k a s'
           | (Throw e, s') => (Throw e, s')
           end.

Definition try_catch {A} (m : M A) (handler : Exn -> M A) : M A :=
  fun s => match m s with
           | (Ok a, s') => (Ok a, s')
           | (Throw e, s') => handler e s'
           end.

Declare Scope fsdb_scope.
Delimit Scope fsdb_scope with fsdb.
Notation "x <- m ;; k" := (bind m (fun x => k))
  (at level 61, m at next level, right associativity) : fsdb_scope.
Notation "m ;;; k" := (bind m (fun _ => k))
  (at level 61, right associativity) : fsdb_scope.
Local Open Scope fsdb_scope.

Definition modify (f : State -> State) : M unit := fun s => (Ok tt, f s).

Definition emit (e : Event) : M unit := modify (add_emitted e).

Definition log_error (f : Failure) (e : Exn) : M unit :=
  modify (add_console_error (f, e)).

(** [try { m } catch (error) { console.error(f, error); throw error }] *)
Definition logged {A} (f : Failure) (m : M A) : M A :=
  try_catch m (fun e => log_error f e ;;; throw e).

(** [if (!this.#db) throw new Error('Database not initialized')] *)
Definition require_db : M unit :=
  fun s => if db s then (Ok tt, s) else (Throw DatabaseNotInitialized, s).

(** ** JavaScript's [Map] and [Set] of strings

    A [Map] iterates in insertion order, so it is an association list;
    [set] on a key already there replaces the value in place. *)

Definition JsMap (V : Type) : Type := list (string * V).

Fixpoint map_get {V} (m : JsMap V) (k : string) : option V :=
  match m with
  | [] => None
  | (k', v) :: rest => if String.eqb k' k then Some v else map_get rest k
  end.

Fixpoint map_set {V} (m : JsMap V) (k : string) (v : V) : JsMap V :=
  match m with
  | [] => [(k, v)]
  | (k', v') :: rest =>
      if String.eqb k' k then (k', v) :: rest else (k', v') :: map_set rest k v
  end.

Definition JsSet : Type := list string.

Definition set_has (s : JsSet) (k : string) : bool :=
  existsb (String.eqb k) s.

Definition set_add (s : JsSet) (k : string) : JsSet :=
  if set_has s k then s else s ++ [k].

(** ** [path.join(dirPath, entry.name)]

    For a directory path that is already normalised (the watch folder is
    the result of [path.resolve]) and the name of one entry as [readdir]
    gives it (one segment, neither ["."] nor [".."]), POSIX [path.join]
    puts one separator between the two, and none when the directory is
    the root ["/"]. *)

Fixpoint ends_with_slash (s : string) : bool :=
  match s with
  | EmptyString => false
  | String c EmptyString => Ascii.eqb c "/"
  | String _ rest => ends_with_slash rest
  end.

Definition path_join (dirPath name : string) : string :=
  match dirPath with
  | EmptyString => name
  | _ => if ends_with_slash dirPath then dirPath ++ name
         else dirPath ++ "/" ++ name
  end.

(** ** The methods of [FileSyncManager] *)

Section FileSyncManager.

(** [createHash('sha256').update(data).digest('hex')] *)
Variable sha256_hex : string -> string.

Variable w : World.

(** *** The file system, the clock and SQLite, as the class calls them *)

Definition fs_call (c : FsCall) : M unit := modify (add_fs_call c).

Definition fs_stat (p : string) : M Stats :=
  fs_call (Stat p) ;;;
  match stat (filesystem w) p with
  | Some stats => ret stats
  | None => throw (FsError (Stat p))
  end.

Definition fs_readFile (p : string) : M string :=
  fs_call (ReadFile p) ;;;
  match readFile (filesystem w) p with
  | Some data => ret data
  | None => throw (FsError (ReadFile p))
  end.

(** [new Date().toISOString()] *)
Definition new_Date : M string :=
  fun s => (Ok (clock w (ticks s)), tick s).

Definition has_path (p : string) (r : FileRecord) : bool :=
  String.eqb (file_path r) p.

Definition db_call (c : Stmt) : M unit := modify (add_db_call c).

(** [INSERT INTO files (file_path, size, modified_time, checksum,
    created_at, updated_at) VALUES (...)]: the column [file_path] is
    UNIQUE; [id] is AUTOINCREMENT, one more than the last id handed
    out; the result is [lastID]. *)
Definition sql_insert (r : FileRecord) : M Z :=
  db_call (InsertInto (file_path r)) ;;;
  fun s =>
    if db_fault w (InsertInto (file_path r)) then
      (Throw (SqliteError (InsertInto (file_path r))), s)
    else if existsb (has_path (file_path r)) (files s) then
      (Throw (SqliteConstraintUnique (file_path r)), s)
    else
      let lastID := (sqlite_sequence s + 1)%Z in
      (Ok lastID,
       set_table (files s ++ [mkFileRecord (Some lastID) (file_path r) (size r)
                                (modified_time r) (checksum r) (created_at r)
                                (updated_at r)])
                 lastID s).

(** [UPDATE files SET size = ?, modified_time = ?, checksum = ?,
    updated_at = ? WHERE file_path = ?]: a statement that matches no row
    changes nothing and succeeds. *)
Definition sql_update_row (r row : FileRecord) : FileRecord :=
  if has_path (file_path r) row then
    mkFileRecord (id row) (file_path row) (size r) (modified_time r)
                 (checksum r) (created_at row) (updated_at r)
  else row.

Definition sql_update (r : FileRecord) : M unit :=
  db_call (UpdateWhere (file_path r)) ;;;
  fun s =>
    if db_fault w (UpdateWhere (file_path r)) then
      (Throw (SqliteError (UpdateWhere (file_path r))), s)
    else
      (Ok tt, set_table (map (sql_update_row r) (files s)) (sqlite_sequence s) s).

(** [DELETE FROM files WHERE file_path = ?]: likewise a success when no
    row matches. *)
Definition sql_delete (p : string) : M unit :=
  db_call (DeleteWhere p) ;;;
  fun s =>
    if db_fault w (DeleteWhere p) then (Throw (SqliteError (DeleteWhere p)), s)
    else
      (Ok tt,
       set_table (filter (fun row => negb (has_path p row)) (files s))
                 (sqlite_sequence s) s).

(** [SELECT * FROM files] *)
Definition sql_select_all : M (list FileRecord) :=
  db_call SelectAll ;;;
  fun s =>
    if db_fault w SelectAll then (Throw (SqliteError SelectAll), s)
    else (Ok (files s), s).

(** *** [#calculateChecksum] *)
Definition calculateChecksum (filePath : string) : M string :=
  logged (FailedChecksum filePath)
    (data <- fs_readFile filePath ;;
     ret (sha256_hex data)).

(** *** [#createFileRecord]

    [Math.floor(stats.mtime.getTime() / 1000)] is the floor division of
    [Z]. *)
Definition createFileRecord (filePath : string) : M FileRecord :=
  logged (FailedCreateRecord filePath)
    (stats <- fs_stat filePath ;;
     checksum <- calculateChecksum filePath ;;
     now <- new_Date ;;
     ret (mkFileRecord None filePath (st_size stats)
            (st_mtime_ms stats / 1000)%Z checksum now now)).

(** *** [#scanDirectory]

    [fs.readdir(dirPath, { withFileTypes: true })] resolves with the
    entries of a readable directory and rejects on anything else.
    [for_entries] is the loop [for (const entry of entries)]; its first
    argument is the method itself, for the recursive call. *)
Definition for_entries (scanDirectory : string -> Entry -> M (list string))
    (dirPath : string) : list (string * Entry) -> list string -> M (list string) :=
  fix loop (entries : list (string * Entry)) (files : list string) :=
    match entries with
    | [] => ret files
    | (name, entry) :: rest =>
        let fullPath := path_join dirPath name in
        match entry with
        | IsDirectory _ | IsUnreadableDirectory =>
            subFiles <- scanDirectory fullPath entry ;;
            loop rest (files ++ subFiles)
        | IsFile => loop rest (files ++ [fullPath])
        | IsOther => loop rest files
        end
    end.

Fixpoint scanDirectory (dirPath : string) (dir : Entry) {struct dir}
  : M (list string) :=
  logged (FailedScan dirPath)
    (fs_call (Readdir dirPath) ;;;
     match dir with
     | IsDirectory entries => for_entries scanDirectory dirPath entries []
     | _ => throw (FsError (Readdir dirPath))
     end).

(** *** [#insertFileRecord] *)
Definition insertFileRecord (record : FileRecord) : M unit :=
  require_db ;;;
  logged (FailedInsert (file_path record))
    (lastID <- sql_insert record ;;
     emit (file_added
             (mkFileRecord (Some lastID) (file_path record) (size record)
                (modified_time record) (checksum record) (created_at record)
                (updated_at record)))).

(** *** [#updateFileRecord] *)
Definition updateFileRecord (record : FileRecord) : M FileRecord :=
  require_db ;;;
  logged (FailedUpdate (file_path record))
    (sql_update record ;;;
     emit (file_updated record) ;;;
     ret record).

(** *** [#removeFileRecord] *)
Definition removeFileRecord (filePath : string) : M unit :=
  require_db ;;;
  logged (FailedRemove filePath)
    (sql_delete filePath ;;;
     emit (file_removed filePath)).

(** *** [#getAllFileRecords] *)
Definition getAllFileRecords : M (JsMap FileRecord) :=
  require_db ;;;
  logged FailedFetch
    (rows <- sql_select_all ;;
     ret (fold_left (fun recordMap row => map_set recordMap (file_path row) row)
                    rows [])).

(** *** [#hasFileChanged] *)
Definition hasFileChanged (filePath : string) (dbRecord : FileRecord) : M bool :=
  try_catch
    (stats <- fs_stat filePath ;;
     let modifiedTime := (st_mtime_ms stats / 1000)%Z in
     if negb (st_size stats =? size dbRecord)%Z
        || negb (modifiedTime =? modified_time dbRecord)%Z
     then ret true
     else
       currentChecksum <- calculateChecksum filePath ;;
       ret (negb (String.eqb currentChecksum (checksum dbRecord))))
    (fun error =>
       log_error (FailedCheckChanged filePath) error ;;;
       ret true).

(** *** [performInitialSync] *)

(** The body of the loop [for (const filePath of currentFiles)], after
    [processedFiles.add(filePath)]. *)
Definition syncFile (dbRecords : JsMap FileRecord) (filePath : string) : M unit :=
  match map_get dbRecords filePath with
  | None =>
      fileRecord <- createFileRecord filePath ;;
      insertFileRecord fileRecord
  | Some dbRecord =>
      hasChanged <- hasFileChanged filePath dbRecord ;;
      if hasChanged then
        updatedRecord <- createFileRecord filePath ;;
        _ <- updateFileRecord
               (mkFileRecord (id dbRecord) (file_path updatedRecord)
                  (size updatedRecord) (modified_time updatedRecord)
                  (checksum updatedRecord) (created_at updatedRecord)
                  (updated_at updatedRecord)) ;;
        ret tt
      else ret tt
  end.

Fixpoint syncFiles (currentFiles : list string) (dbRecords : JsMap FileRecord)
    (processedFiles : JsSet) : M JsSet :=
  match currentFiles with
  | [] => ret processedFiles
  | filePath :: rest =>
      let processedFiles := set_add processedFiles filePath in
      syncFile dbRecords filePath ;;;
      syncFiles rest dbRecords processedFiles
  end.

(** The loop [for (const [filePath] of dbRecords)]. *)
Fixpoint removeStale (dbRecords : JsMap FileRecord) (processedFiles : JsSet)
  : M unit :=
  match dbRecords with
  | [] => ret tt
  | (filePath, _) :: rest =>
      (if negb (set_has processedFiles filePath)
       then removeFileRecord filePath
       else ret tt) ;;;
      removeStale rest processedFiles
  end.

Definition performInitialSync : M unit :=
  logged InitialSyncFailed
    (currentFiles <- scanDirectory (watchFolder w) (root (filesystem w)) ;;
     dbRecords <- getAllFileRecords ;;
     processedFiles <- syncFiles currentFiles dbRecords [] ;;
     removeStale dbRecords processedFiles).

(** *** [#handleFileAddOrChange] *)
Definition handleFileAddOrChange (filePath : string) : M unit :=
  try_catch
    (fileRecord <- createFileRecord filePath ;;
     require_db ;;;
     try_catch
       (_ <- updateFileRecord fileRecord ;; ret tt)
       (fun _ => insertFileRecord fileRecord))
    (fun error => log_error (FailedAddOrChange filePath) error).

(** *** [startWatching], [stopWatching], [closeDatabase], [shutdown] *)

(** The regular expression [/(^|[\/\\])\../] of [defaultOptions]: a dot
    at the start of the path or after a separator, followed by one more
    character.  The pattern has no [s] flag, so that character is not
    one of the four line terminators of JavaScript: line feed, carriage
    return, U+2028 and U+2029.  The last two are the byte sequences
    E2 80 A8 and E2 80 A9. *)
Definition is_separator (c : ascii) : bool :=
  Ascii.eqb c "/" || Ascii.eqb c "\".

(** The string starts with a line terminator: LF, CR, U+2028 or
    U+2029. *)
Definition starts_with_line_terminator (s : string) : bool :=
  match s with
  | String c rest =>
      Ascii.eqb c "010" || Ascii.eqb c "013"
      || (Ascii.eqb c "226"
          && match rest with
             | String c2 (String c3 _) =>
                 Ascii.eqb c2 "128"
                 && (Ascii.eqb c3 "168" || Ascii.eqb c3 "169")
             | _ => false
             end)
  | EmptyString => false
  end.

(** [\..] at the start of [s]. *)
Definition dot_and_one_more (s : string) : bool :=
  match s with
  | String c (String c' rest) =>
      Ascii.eqb c "." && negb (starts_with_line_terminator (String c' rest))
  | _ => false
  end.

Fixpoint separator_dot_and_one_more (s : string) : bool :=
  match s with
  | EmptyString => false
  | String c rest =>
      (is_separator c && dot_and_one_more rest)
      || separator_dot_and_one_more rest
  end.

Definition ignore_dotfiles (path : string) : bool :=
  dot_and_one_more path || separator_dot_and_one_more path.

Definition defaultOptions : ChokidarOptions :=
  mkChokidarOptions (Some ignore_dotfiles) None None.

(** Object spread [{ ...a, ...b }]: a key of [b] wins. *)
Definition or_else {A} (b a : option A) : option A :=
  match b with
  | Some x => Some x
  | None => a
  end.

Definition spread (a b : ChokidarOptions) : ChokidarOptions :=
  mkChokidarOptions (or_else (ignored b) (ignored a))
                    (or_else (ignoreInitial b) (ignoreInitial a))
                    (or_else (persistent b) (persistent a)).

Definition startWatching : M unit :=
  modify (set_watcher
            (Some (spread (spread defaultOptions (watchOptions w))
                          (mkChokidarOptions None (Some true) (Some true))))).

(** [stopWatching]: [await this.#watcher.close()] may reject; the
    field is cleared only after it. *)
Definition stopWatching : M unit :=
  fun s => match watcher s with
           | Some _ =>
               if watcher_close_fault w
               then (Throw WatcherCloseError, s)
               else (Ok tt, set_watcher None s)
           | None => (Ok tt, s)
           end.

(** [closeDatabase]: [await this.#db.close()] may reject; the field is
    cleared only after it. *)
Definition closeDatabase : M unit :=
  fun s =>
    if db s
    then (db_call CloseDatabase ;;;
          (fun s' => if db_fault w CloseDatabase
                     then (Throw (SqliteError CloseDatabase), s')
                     else (Ok tt, set_db false s'))) s
    else (Ok tt, s).

Definition shutdown : M unit :=
  stopWatching ;;; closeDatabase.

(** *** The listeners of the watcher *)

Inductive WatchEvent : Type :=
| on_add (filePath : string)
| on_change (filePath : string)
| on_unlink (filePath : string)
| on_error (error : Exn).

(** What the callback given to [.on(...)] starts.  The promise it
    creates is not awaited: a [Throw] here is a rejection nobody
    handles. *)
Definition listener (ev : WatchEvent) : M unit :=
  match ev with
  | on_add filePath => handleFileAddOrChange filePath
  | on_change filePath => handleFileAddOrChange filePath
  | on_unlink filePath => removeFileRecord filePath
  | on_error error => log_error WatcherError error
  end.

(** chokidar: an event on a path that [ignored] matches is not
    delivered, and a closed watcher delivers nothing. *)
Definition is_ignored (o : ChokidarOptions) (path : string) : bool :=
  match ignored o with
  | Some matcher => matcher path
  | None => false
  end.

Definition deliver (ev : WatchEvent) : M unit :=
  fun s =>
    match watcher s with
    | None => (Ok tt, s)
    | Some o =>
        match ev with
        | on_add p | on_change p | on_unlink p =>
            if is_ignored o p then (Ok tt, s) else listener ev s
        | on_error _ => listener ev s
        end
    end.

(** *** [start] *)

(** [#initializeDatabase]: [open] sets [this.#db]; the script that
    follows creates the table and its indexes if they are not there, and
    leaves the rows of an earlier run. *)
Definition initializeDatabase : M unit :=
  logged FailedInitializeDatabase
    (db_call OpenDatabase ;;;
     (fun s => if db_fault w OpenDatabase
               then (Throw (SqliteError OpenDatabase), s)
               else (Ok tt, set_db true s)) ;;;
     db_call CreateTables ;;;
     (fun s => if db_fault w CreateTables
               then (Throw (SqliteError CreateTables), s)
               else (Ok tt, s))).

Definition start : M unit :=
  logged FailedStart
    (initializeDatabase ;;;
     performInitialSync ;;;
     startWatching).

End FileSyncManager.

(** ** The process (main.ts)

    [process.on('unhandledRejection', ...)] logs the reason and calls
    [gracefulShutdown], which awaits [shutdown()] and exits with code 0,
    or logs the error and exits with code 1 when [shutdown()] throws. *)

Inductive Process : Type :=
| Running
| Exited (code : Z).

Definition gracefulShutdown (w : World) (s : State) : Process * State :=
  match shutdown w s with
  | (Ok _, s') => (Exited 0, s')
  | (Throw error, s') =>
      (Exited 1, add_console_error (ErrorDuringShutdown, error) s')
  end.

(** [events] lists the watch events in the order in which their
    handlers run, each handler taken as one step.  The source starts a
    handler without awaiting it and [#handleFileAddOrChange] begins
    with a pause of 100 ms, so this is the order of arrival only for
    events that lie further apart than that: an add or change event
    that an unlink event follows at once stands after it in the list.
    The process is taken to exit as soon as a rejection is left
    unhandled. *)
Fixpoint watch_loop (sha256_hex : string -> string) (w : World)
    (events : list WatchEvent) (s : State) : Process * State :=
  match events with
  | [] => (Running, s)
  | ev :: rest =>
      match deliver sha256_hex w ev s with
      | (Ok _, s') => watch_loop sha256_hex w rest s'
      | (Throw reason, s') =>
          gracefulShutdown w (add_console_error (UnhandledRejection, reason) s')
      end
  end.

(** ** Notions used in the statements *)

(** The column [file_path] is UNIQUE. *)
Definition table_wf (rows : list FileRecord) : Prop :=
  NoDup (map file_path rows).

Definition is_file_removed (e : Event) : bool :=
  match e with
  | file_removed _ => true
  | _ => false
  end.

Definition is_delete (c : Stmt) : bool :=
  match c with
  | DeleteWhere _ => true
  | _ => false
  end.

Definition paths (s : State) : list string := map file_path (files s).

(** A record agrees with the file at a path: the file can be inspected
    and has the record's size, whole-second modification time and
    checksum. *)
Definition file_matches (sha256_hex : string -> string) (w : World)
    (p : string) (r : FileRecord) : Prop :=
  exists stats data,
    stat (filesystem w) p = Some stats
    /\ readFile (filesystem w) p = Some data
    /\ size r = st_size stats
    /\ modified_time r = (st_mtime_ms stats / 1000)%Z
    /\ checksum r = sha256_hex data.

Definition in_sync (sha256_hex : string -> string) (w : World)
    (row : FileRecord) : Prop :=
  file_matches sha256_hex w (file_path row) row.

(** Nothing was deleted between [s] and [s']: every path of [s] still
    has a row, no [file.removed] was emitted and no DELETE was issued;
    the handles are the same. *)
Definition no_delete (s s' : State) : Prop :=
  db s' = db s /\ watcher s' = watcher s
  /\ (forall q, In q (paths s) -> In q (paths s'))
  /\ filter is_file_removed (emitted s') = filter is_file_removed (emitted s)
  /\ filter is_delete (db_calls s') = filter is_delete (db_calls s).

(** The state of the table while [performInitialSync] walks through
    the scanned files: [rows] is the table at the start of the pass and
    [done] the files handled so far. *)
Definition sync_invariant (sha256_hex : string -> string) (w : World)
    (rows : list FileRecord) (done : list string) (s : State) : Prop :=
  NoDup (paths s)
  /\ (forall q, In q (paths s) <-> In q (map file_path rows) \/ In q done)
  /\ (forall row, In row (files s) -> In (file_path row) done ->
                  in_sync sha256_hex w row)
  /\ (forall row, In row (files s) -> ~ In (file_path row) done -> In row rows).

(** Every row of [s] whose path was among [rows0] has the id and the
    creation time that path had in [rows0]. *)
Definition keeps_identity (rows0 : list FileRecord) (s : State) : Prop :=
  forall row', In row' (files s) ->
    In (file_path row') (map file_path rows0) ->
    exists row, In row rows0 /\ file_path row = file_path row'
                /\ id row = id row' /\ created_at row = created_at row'.

(** The path a watch event is about. *)
Definition event_path (ev : WatchEvent) : option string :=
  match ev with
  | on_add p | on_change p | on_unlink p => Some p
  | on_error _ => None
  end.

(** [dbRecords] holds the rows of the table [rows], by path. *)
Definition snapshot_of (dbRecords : JsMap FileRecord) (rows : list FileRecord)
  : Prop :=
  (forall p, map_get dbRecords p = None -> ~ In p (map file_path rows))
  /\ (forall p r, map_get dbRecords p = Some r -> In r rows /\ file_path r = p)
  /\ (forall p, In p (map fst dbRecords) <-> In p (map file_path rows)).

(** The file system calls and the console leave the store alone. *)
Definition same_store (s s' : State) : Prop :=
  db s' = db s /\ watcher s' = watcher s /\ files s' = files s
  /\ sqlite_sequence s' = sqlite_sequence s /\ db_calls s' = db_calls s
  /\ emitted s' = emitted s.

(** Between [s] and [s'] the table, the id counter, the emitted events
    and the handles are unchanged, the statements issued are [stmts],
    and the only file that was inspected is the one at [p]. *)
Definition only_attempted (p : string) (stmts : list Stmt) (s s' : State)
  : Prop :=
  db s' = db s /\ watcher s' = watcher s /\ files s' = files s
  /\ sqlite_sequence s' = sqlite_sequence s /\ emitted s' = emitted s
  /\ db_calls s' = db_calls s ++ stmts
  /\ exists calls,
       fs_calls s' = fs_calls s ++ calls
       /\ forall c, In c calls -> c = Stat p \/ c = ReadFile p.

(** [file_failure dbRecords p e stmts]: what goes wrong with the scanned
    file [p] in the first loop of [performInitialSync], the error [e]
    it is reported with, and the statement that was issued for it.  The
    file cannot be inspected; or it has no row yet and SQLite rejects
    the INSERT; or its row disagrees with it and SQLite rejects the
    UPDATE. *)
Inductive file_failure (sha256_hex : string -> string) (w : World)
    (dbRecords : JsMap FileRecord) (p : string) : Exn -> list Stmt -> Prop :=
| stat_rejects :
    stat (filesystem w) p = None ->
    file_failure sha256_hex w dbRecords p (FsError (Stat p)) []
| read_rejects stats :
    stat (filesystem w) p = Some stats ->
    readFile (filesystem w) p = None ->
    file_failure sha256_hex w dbRecords p (FsError (ReadFile p)) []
| insert_rejected stats data :
    stat (filesystem w) p = Some stats ->
    readFile (filesystem w) p = Some data ->
    map_get dbRecords p = None ->
    db_fault w (InsertInto p) = true ->
    file_failure sha256_hex w dbRecords p (SqliteError (InsertInto p))
      [InsertInto p]
| update_rejected stats data dbRecord :
    stat (filesystem w) p = Some stats ->
    readFile (filesystem w) p = Some data ->
    map_get dbRecords p = Some dbRecord ->
    ~ file_matches sha256_hex w p dbRecord ->
    db_fault w (UpdateWhere p) = true ->
    file_failure sha256_hex w dbRecords p (SqliteError (UpdateWhere p))
      [UpdateWhere p].

(** [file_in dirPath dir name p]: below the directory [dir] at
    [dirPath], through readable directories only, lies a regular file
    called [name], and [p] is its full path. *)
Inductive file_in : string -> Entry -> string -> string -> Prop :=
| file_here dirPath entries name :
    In (name, IsFile) entries ->
    file_in dirPath (IsDirectory entries) name (path_join dirPath name)
| file_below dirPath entries sub subdir name p :
    In (sub, subdir) entries ->
    file_in (path_join dirPath sub) subdir name p ->
    file_in dirPath (IsDirectory entries) name p.

(** [entry.isDirectory()] *)
Definition is_dir_like (e : Entry) : Prop :=
  (exists l, e = IsDirectory l) \/ e = IsUnreadableDirectory.

(** [unreadable_below dir]: [readdir] rejects on [dir] or on a
    directory that the descent from [dir] reaches. *)
Inductive unreadable_below : Entry -> Prop :=
| unreadable_file : unreadable_below IsFile
| unreadable_other : unreadable_below IsOther
| unreadable_here : unreadable_below IsUnreadableDirectory
| unreadable_sub entries name subdir :
    In (name, subdir) entries ->
    is_dir_like subdir ->
    unreadable_below subdir ->
    unreadable_below (IsDirectory entries).

(** What [#scanDirectory] returns, as a function of the tree alone
    ([scanDirectory_result] below shows that it is). *)
Definition entries_result (scan_result : string -> Entry -> Result (list string))
    (dirPath : string) : list (string * Entry) -> list string -> Result (list string) :=
  fix loop (entries : list (string * Entry)) (files : list string) :=
    match entries with
    | [] => Ok files
    | (name, entry) :: rest =>
        let fullPath := path_join dirPath name in
        match entry with
        | IsDirectory _ | IsUnreadableDirectory =>
            match scan_result fullPath entry with
            | Ok subFiles => loop rest (files ++ subFiles)
            | Throw e => Throw e
            end
        | IsFile => loop rest (files ++ [fullPath])
        | IsOther => loop rest files
        end
    end.

Fixpoint scan_result (dirPath : string) (dir : Entry) {struct dir}
  : Result (list string) :=
  match dir with
  | IsDirectory entries => entries_result scan_result dirPath entries []
  | _ => Throw (FsError (Readdir dirPath))
  end.


(** ** A small world to run the model on *)

(** A stand-in for SHA-256. *)
Definition demo_digest (data : string) : string := "sha256(" ++ data ++ ")".

(** A dot-file whose second character is a line feed. *)
Definition newline_dotfile : string := String "." (String "010" "rc").

Definition demo_tree : Entry :=
  IsDirectory
    [("a.txt", IsFile);
     (".env", IsFile);
     (newline_dotfile, IsFile);
     ("sub", IsDirectory [("nested.txt", IsFile)]);
     ("link", IsOther)].

Definition demo_content (p : string) : option string :=
  if String.eqb p "/w/a.txt" then Some "AAAAA"
  else if String.eqb p "/w/.env" then Some "KEY=1"
  else if String.eqb p (path_join "/w" newline_dotfile) then Some "rc"
  else if String.eqb p "/w/sub/nested.txt" then Some "Nested file"
  else None.

Definition demo_stat (p : string) : option Stats :=
  match demo_content p with
  | Some data => Some (mkStats (Z.of_nat (String.length data)) 1700000000123)
  | None => None
  end.

Definition demo_clock (n : nat) : string :=
  "2025-06-15T10:00:0" ++ String (ascii_of_nat (48 + n)) "Z".

Definition no_options : ChokidarOptions := mkChokidarOptions None None None.

Definition demo_world_with (tree : Entry) (fault : Stmt -> bool) : World :=
  mkWorld "/w" no_options (mkFileSystem tree demo_stat demo_content)
          demo_clock fault false.

Definition demo_world : World := demo_world_with demo_tree (fun _ => false).

(** The same, with a watcher that is told to ignore nothing. *)
Definition demo_world_watch_all : World :=
  mkWorld "/w" (mkChokidarOptions (Some (fun _ => false)) None None)
          (mkFileSystem demo_tree demo_stat demo_content) demo_clock
          (fun _ => false) false.

(** The same, with every DELETE rejected by SQLite. *)
Definition demo_world_delete_fails : World :=
  demo_world_with demo_tree
    (fun c => match c with
              | DeleteWhere _ => true
              | _ => false
              end).

(** A tree with a sub-directory that cannot be read. *)
Definition demo_world_locked : World :=
  demo_world_with
    (IsDirectory [("a.txt", IsFile); ("private", IsUnreadableDirectory)])
    (fun _ => false).

(** Before [start()], and with the database open and an empty table. *)
Definition initial_state : State := mkState false None [] 0 [] [] [] [] 0.

Definition empty_store : State := mkState true None [] 0 [] [] [] [] 0.

(** After [start()] in [demo_world]. *)
Definition demo_started : State := snd (start demo_digest demo_world initial_state).

(** A row for ["/w/a.txt"] as an earlier run left it: the file had
    another content of the same length and the same modification time. *)
Definition demo_old_row : FileRecord :=
  mkFileRecord (Some 1%Z) "/w/a.txt" 5 1700000000 "sha256(BBBBB)"
               "2025-06-01T08:00:00Z" "2025-06-01T08:00:00Z".

Definition demo_other_row : FileRecord :=
  mkFileRecord (Some 2%Z) "/w/gone.txt" 9 1600000000 "sha256(long gone)"
               "2025-06-01T08:00:00Z" "2025-06-01T08:00:00Z".

(** What [#createFileRecord] builds for ["/w/a.txt"] at the first
    reading of the clock. *)
Definition demo_fresh_record : FileRecord :=
  mkFileRecord None "/w/a.txt" 5 1700000000 "sha256(AAAAA)"
               "2025-06-15T10:00:00Z" "2025-06-15T10:00:00Z".

Definition demo_store : State :=
  mkState true None [demo_old_row; demo_other_row] 2 [] [] [] [] 0.

(** What [#createFileRecord] builds for ["/w/.env"]. *)
Definition demo_env_record : FileRecord :=
  mkFileRecord None "/w/.env" 5 1700000000 "sha256(KEY=1)"
               "2025-06-15T10:00:00Z" "2025-06-15T10:00:00Z".

(** [demo_world] with every UPDATE rejected by SQLite. *)
Definition demo_world_update_fails : World :=
  demo_world_with demo_tree
    (fun c => match c with
              | UpdateWhere _ => true
              | _ => false
              end).

(** A watch folder below a dot-directory, holding one file. *)
Definition demo_world_dot_folder : World :=
  mkWorld "/home/u/.sync/w" no_options
          (mkFileSystem (IsDirectory [("a.txt", IsFile)])
             (fun _ => Some (mkStats 5 1700000000123))
             (fun _ => Some "AAAAA"))
          demo_clock (fun _ => false) false.

(** [demo_world] with every INSERT rejected by SQLite. *)
Definition demo_world_insert_fails : World :=
  demo_world_with demo_tree
    (fun c => match c with
              | InsertInto _ => true
              | _ => false
              end).

(** A tree with a file that is gone by the time it is inspected. *)
Definition demo_world_ghost : World :=
  demo_world_with
    (IsDirectory [("a.txt", IsFile); ("ghost.txt", IsFile); (".env", IsFile)])
    (fun _ => false).

(** The line separator U+2028, and a dot-file whose second character it
    is. *)
Definition line_separator : string :=
  String "226" (String "128" (String "168" EmptyString)).

Definition separator_dotfile : string := "." ++ line_separator ++ "rc".

(** [demo_world] with a watcher that cannot be closed, and with a
    database that cannot be closed. *)
Definition demo_world_watcher_stuck : World :=
  mkWorld "/w" no_options (mkFileSystem demo_tree demo_stat demo_content)
          demo_clock (fun _ => false) true.

Definition demo_world_close_fails : World :=
  demo_world_with demo_tree
    (fun c => match c with
              | CloseDatabase => true
              | _ => false
              end).

(** [demo_store] once [startWatching()] has run. *)
Definition demo_watching : State :=
  snd (startWatching demo_world_delete_fails demo_store).

Definition demo_watch_options : ChokidarOptions :=
  spread (spread defaultOptions no_options)
         (mkChokidarOptions None (Some true) (Some true)).

(** * Properties *)

(** Unfolds the monad so that a computation applied to a state reduces. *)
Ltac run :=
  unfold logged, try_catch, bind, ret, throw, emit, log_error, require_db,
    fs_call, db_call, modify; cbn.

(** ** The change detector *)

Section ChangeDetector.

Variable sha256_hex : string -> string.
Variable w : World.

Lemma calculateChecksum_ok filePath data s :
  readFile (filesystem w) filePath = Some data ->
  calculateChecksum sha256_hex w filePath s
  = (Ok (sha256_hex data), add_fs_call (ReadFile filePath) s).
Proof.
  intros Hread. unfold calculateChecksum, fs_readFile. run.
  rewrite Hread. reflexivity.
Qed.

Lemma calculateChecksum_fails filePath s :
  readFile (filesystem w) filePath = None ->
  calculateChecksum sha256_hex w filePath s
  = (Throw (FsError (ReadFile filePath)),
     add_console_error (FailedChecksum filePath, FsError (ReadFile filePath))
       (add_fs_call (ReadFile filePath) s)).
Proof.
  intros Hread. unfold calculateChecksum, fs_readFile. run.
  rewrite Hread. reflexivity.
Qed.

(** The three ways [#hasFileChanged] can run, as equations. *)
Lemma hasFileChanged_stat_fails filePath dbRecord s :
  stat (filesystem w) filePath = None ->
  hasFileChanged sha256_hex w filePath dbRecord s
  = (Ok true,
     add_console_error (FailedCheckChanged filePath, FsError (Stat filePath))
       (add_fs_call (Stat filePath) s)).
Proof.
  intros Hstat. unfold hasFileChanged, fs_stat. run.
  rewrite Hstat. reflexivity.
Qed.

Lemma hasFileChanged_quick filePath dbRecord stats s :
  stat (filesystem w) filePath = Some stats ->
  st_size stats <> size dbRecord
  \/ (st_mtime_ms stats / 1000)%Z <> modified_time dbRecord ->
  hasFileChanged sha256_hex w filePath dbRecord s
  = (Ok true, add_fs_call (Stat filePath) s).
Proof.
  intros Hstat Hdiff. unfold hasFileChanged, fs_stat. run.
  rewrite Hstat. cbn.
  destruct (Z.eqb_spec (st_size stats) (size dbRecord)) as [Hs | Hs];
    destruct (Z.eqb_spec (st_mtime_ms stats / 1000) (modified_time dbRecord))
      as [Hm | Hm]; cbn; try reflexivity.
  destruct Hdiff; contradiction.
Qed.

Lemma hasFileChanged_same_stats filePath dbRecord stats s :
  stat (filesystem w) filePath = Some stats ->
  st_size stats = size dbRecord ->
  (st_mtime_ms stats / 1000)%Z = modified_time dbRecord ->
  hasFileChanged sha256_hex w filePath dbRecord s
  = match readFile (filesystem w) filePath with
    | Some data =>
        (Ok (negb (String.eqb (sha256_hex data) (checksum dbRecord))),
         add_fs_call (ReadFile filePath) (add_fs_call (Stat filePath) s))
    | None =>
        (Ok true,
         add_console_error
           (FailedCheckChanged filePath, FsError (ReadFile filePath))
           (add_console_error
              (FailedChecksum filePath, FsError (ReadFile filePath))
              (add_fs_call (ReadFile filePath)
                 (add_fs_call (Stat filePath) s))))
    end.
Proof.
  intros Hstat Hs Hm. unfold hasFileChanged, fs_stat. run.
  rewrite Hstat. cbn. rewrite Hs, Hm, !Z.eqb_refl. cbn.
  destruct (readFile (filesystem w) filePath) as [data |] eqn:Hread.
  - rewrite (calculateChecksum_ok _ _ _ Hread). reflexivity.
  - rewrite (calculateChecksum_fails _ _ Hread). reflexivity.
Qed.

(** C3.  When [stat] succeeds, a size or whole-second modification time
    that differs from the stored record gives [changed = true] with the
    [stat] as the only file system call: the content is not read and no
    checksum is computed.  When both agree and the content can be read,
    it is read once and the answer is [true] exactly when its checksum
    differs from the stored one. *)
Theorem hasFileChanged_cheap_first filePath dbRecord stats s :
  stat (filesystem w) filePath = Some stats ->
  (st_size stats <> size dbRecord
   \/ (st_mtime_ms stats / 1000)%Z <> modified_time dbRecord ->
   exists s',
     hasFileChanged sha256_hex w filePath dbRecord s = (Ok true, s')
     /\ fs_calls s' = fs_calls s ++ [Stat filePath]
     /\ console_error s' = console_error s)
  /\
  (st_size stats = size dbRecord ->
   (st_mtime_ms stats / 1000)%Z = modified_time dbRecord ->
   forall data, readFile (filesystem w) filePath = Some data ->
   exists changed s',
     hasFileChanged sha256_hex w filePath dbRecord s = (Ok changed, s')
     /\ fs_calls s' = fs_calls s ++ [Stat filePath; ReadFile filePath]
     /\ (changed = true <-> sha256_hex data <> checksum dbRecord)).
Proof.
  intros Hstat. split.
  - intros Hdiff. rewrite (hasFileChanged_quick _ _ _ _ Hstat Hdiff).
    eexists. split; [reflexivity |]. split; reflexivity.
  - intros Hs Hm data Hread.
    rewrite (hasFileChanged_same_stats _ _ _ _ Hstat Hs Hm), Hread.
    do 2 eexists. split; [reflexivity |].
    split; [cbn; rewrite <- app_assoc; reflexivity |].
    destruct (String.eqb_spec (sha256_hex data) (checksum dbRecord)); cbn.
    + split; [discriminate | contradiction].
    + split; [intros _; assumption | reflexivity].
Qed.

(** C5.  A [stat] or a read that fails never leaves the change detector
    as an error: the answer is [changed = true], and the store is not
    touched. *)
Theorem hasFileChanged_conservative filePath dbRecord s :
  stat (filesystem w) filePath = None
  \/ readFile (filesystem w) filePath = None ->
  exists s',
    hasFileChanged sha256_hex w filePath dbRecord s = (Ok true, s')
    /\ files s' = files s /\ emitted s' = emitted s.
Proof.
  intros Hfail.
  destruct (stat (filesystem w) filePath) as [stats |] eqn:Hstat.
  - destruct Hfail as [Hfail | Hread]; [discriminate |].
    destruct (Z.eq_dec (st_size stats) (size dbRecord)) as [Hs | Hs].
    + destruct (Z.eq_dec (st_mtime_ms stats / 1000) (modified_time dbRecord))
        as [Hm | Hm].
      * rewrite (hasFileChanged_same_stats _ _ _ _ Hstat Hs Hm), Hread.
        eexists. split; [reflexivity |]. split; reflexivity.
      * rewrite (hasFileChanged_quick _ _ _ _ Hstat (or_intror Hm)).
        eexists. split; [reflexivity |]. split; reflexivity.
    + rewrite (hasFileChanged_quick _ _ _ _ Hstat (or_introl Hs)).
      eexists. split; [reflexivity |]. split; reflexivity.
  - rewrite (hasFileChanged_stat_fails _ _ _ Hstat).
    eexists. split; [reflexivity |]. split; reflexivity.
Qed.

End ChangeDetector.

(** ** The statements on the table *)

Section Store.

Variable w : World.

Lemma sql_update_row_other record row :
  file_path row <> file_path record -> sql_update_row record row = row.
Proof.
  intros Hne. unfold sql_update_row, has_path.
  destruct (String.eqb_spec (file_path row) (file_path record)); congruence.
Qed.

Lemma sql_update_row_path record row :
  file_path (sql_update_row record row) = file_path row.
Proof.
  unfold sql_update_row. destruct (has_path _ _); reflexivity.
Qed.

Lemma update_untracked record rows :
  ~ In (file_path record) (map file_path rows) ->
  map (sql_update_row record) rows = rows.
Proof.
  induction rows as [| row rows IH]; cbn; intros Hnot; [reflexivity |].
  rewrite IH by tauto. rewrite sql_update_row_other; [reflexivity |].
  intros Heq. apply Hnot. left. assumption.
Qed.

Lemma delete_untracked filePath rows :
  ~ In filePath (map file_path rows) ->
  filter (fun row => negb (has_path filePath row)) rows = rows.
Proof.
  induction rows as [| row rows IH]; cbn; intros Hnot; [reflexivity |].
  unfold has_path at 1.
  destruct (String.eqb_spec (file_path row) filePath) as [Heq | Hne]; cbn.
  - exfalso. apply Hnot. left. assumption.
  - rewrite IH by tauto. reflexivity.
Qed.

Lemma removeFileRecord_ok filePath s :
  db s = true ->
  db_fault w (DeleteWhere filePath) = false ->
  removeFileRecord w filePath s
  = (Ok tt,
     add_emitted (file_removed filePath)
       (set_table (filter (fun row => negb (has_path filePath row)) (files s))
          (sqlite_sequence s) (add_db_call (DeleteWhere filePath) s))).
Proof.
  intros Hdb Hfault. unfold removeFileRecord, sql_delete. run.
  rewrite Hdb, Hfault. reflexivity.
Qed.

Lemma removeFileRecord_fault filePath s :
  db s = true ->
  db_fault w (DeleteWhere filePath) = true ->
  removeFileRecord w filePath s
  = (Throw (SqliteError (DeleteWhere filePath)),
     add_console_error
       (FailedRemove filePath, SqliteError (DeleteWhere filePath))
       (add_db_call (DeleteWhere filePath) s)).
Proof.
  intros Hdb Hfault. unfold removeFileRecord, sql_delete. run.
  rewrite Hdb, Hfault. reflexivity.
Qed.

Lemma updateFileRecord_ok record s :
  db s = true ->
  db_fault w (UpdateWhere (file_path record)) = false ->
  updateFileRecord w record s
  = (Ok record,
     add_emitted (file_updated record)
       (set_table (map (sql_update_row record) (files s))
          (sqlite_sequence s) (add_db_call (UpdateWhere (file_path record)) s))).
Proof.
  intros Hdb Hfault. unfold updateFileRecord, sql_update. run.
  rewrite Hdb, Hfault. reflexivity.
Qed.

Lemma updateFileRecord_fault record s :
  db s = true ->
  db_fault w (UpdateWhere (file_path record)) = true ->
  updateFileRecord w record s
  = (Throw (SqliteError (UpdateWhere (file_path record))),
     add_console_error
       (FailedUpdate (file_path record),
        SqliteError (UpdateWhere (file_path record)))
       (add_db_call (UpdateWhere (file_path record)) s)).
Proof.
  intros Hdb Hfault. unfold updateFileRecord, sql_update. run.
  rewrite Hdb, Hfault. reflexivity.
Qed.

Lemma insertFileRecord_fault record s :
  db s = true ->
  db_fault w (InsertInto (file_path record)) = true ->
  insertFileRecord w record s
  = (Throw (SqliteError (InsertInto (file_path record))),
     add_console_error
       (FailedInsert (file_path record),
        SqliteError (InsertInto (file_path record)))
       (add_db_call (InsertInto (file_path record)) s)).
Proof.
  intros Hdb Hfault. unfold insertFileRecord, sql_insert. run.
  rewrite Hdb, Hfault. reflexivity.
Qed.

(** C8.  With the database open and the DELETE accepted, removing a
    path succeeds whether or not a row for it exists: the rows of that
    path are gone and all other rows stay; with no row for the path the
    table is unchanged, and a second removal changes nothing more. *)
Theorem removeFileRecord_idempotent filePath s :
  db s = true ->
  db_fault w (DeleteWhere filePath) = false ->
  exists s1 s2,
    removeFileRecord w filePath s = (Ok tt, s1)
    /\ (forall row,
          In row (files s1) <-> In row (files s) /\ file_path row <> filePath)
    /\ (~ In filePath (map file_path (files s)) -> files s1 = files s)
    /\ removeFileRecord w filePath s1 = (Ok tt, s2)
    /\ files s2 = files s1.
Proof.
  intros Hdb Hfault.
  rewrite (removeFileRecord_ok _ _ Hdb Hfault).
  do 2 eexists. split; [reflexivity |]. cbn.
  assert (Hgone : forall rows,
             ~ In filePath
                 (map file_path
                    (filter (fun row => negb (has_path filePath row)) rows))).
  { intros rows Hin. apply in_map_iff in Hin as [row [Hp Hin]].
    apply filter_In in Hin as [_ Hkeep]. unfold has_path in Hkeep.
    rewrite Hp, String.eqb_refl in Hkeep. discriminate. }
  split; [| split; [| split]].
  - intros row. rewrite filter_In. unfold has_path.
    destruct (String.eqb_spec (file_path row) filePath); cbn;
      intuition congruence.
  - apply delete_untracked.
  - rewrite removeFileRecord_ok by assumption. reflexivity.
  - cbn. apply delete_untracked, Hgone.
Qed.

(** C9.  A successful update keeps the number and order of the rows;
    every row keeps its id, its path and its creation time; a row of
    another path is unchanged, and a row of the record's path takes the
    record's size, modification time, checksum and update time. *)
Theorem updateFileRecord_frame record s result s' :
  updateFileRecord w record s = (Ok result, s') ->
  length (files s') = length (files s)
  /\ forall i row,
       nth_error (files s) i = Some row ->
       exists row',
         nth_error (files s') i = Some row'
         /\ id row' = id row
         /\ file_path row' = file_path row
         /\ created_at row' = created_at row
         /\ (file_path row <> file_path record -> row' = row)
         /\ (file_path row = file_path record ->
             size row' = size record
             /\ modified_time row' = modified_time record
             /\ checksum row' = checksum record
             /\ updated_at row' = updated_at record).
Proof.
  unfold updateFileRecord, sql_update. run.
  destruct (db s); [| discriminate].
  destruct (db_fault w (UpdateWhere (file_path record))); [discriminate |].
  intros Heq. injection Heq as _ Hs'. subst s'. cbn.
  split; [apply length_map |].
  intros i row Hnth. exists (sql_update_row record row).
  split; [rewrite nth_error_map, Hnth; reflexivity |].
  unfold sql_update_row, has_path.
  destruct (String.eqb_spec (file_path row) (file_path record)) as [Heq | Hne];
    cbn; intuition congruence.
Qed.

End Store.

(** ** The listeners of the watcher *)

Section Listeners.

Variable sha256_hex : string -> string.
Variable w : World.

Lemma createFileRecord_ok filePath stats data s :
  stat (filesystem w) filePath = Some stats ->
  readFile (filesystem w) filePath = Some data ->
  createFileRecord sha256_hex w filePath s
  = (Ok (mkFileRecord None filePath (st_size stats)
           (st_mtime_ms stats / 1000)%Z (sha256_hex data)
           (clock w (ticks s)) (clock w (ticks s))),
     tick (add_fs_call (ReadFile filePath) (add_fs_call (Stat filePath) s))).
Proof.
  intros Hstat Hread. unfold createFileRecord, fs_stat, new_Date. run.
  rewrite Hstat. cbn. rewrite (calculateChecksum_ok _ _ _ _ _ Hread).
  reflexivity.
Qed.

Lemma createFileRecord_fails filePath s :
  stat (filesystem w) filePath = None
  \/ readFile (filesystem w) filePath = None ->
  exists e s',
    createFileRecord sha256_hex w filePath s = (Throw e, s')
    /\ same_store s s'
    /\ In (FailedCreateRecord filePath, e) (console_error s').
Proof.
  intros Hfail. unfold createFileRecord, fs_stat, new_Date. run.
  destruct (stat (filesystem w) filePath) as [stats |] eqn:Hstat; cbn.
  - destruct Hfail as [Hfail | Hread]; [discriminate |].
    rewrite (calculateChecksum_fails _ _ _ _ Hread).
    do 2 eexists. split; [reflexivity |]. cbn.
    split; [repeat split |]. apply in_or_app. right. left. reflexivity.
  - do 2 eexists. split; [reflexivity |]. cbn.
    split; [repeat split |]. apply in_or_app. right. left. reflexivity.
Qed.

Lemma createFileRecord_stat_fails filePath s :
  stat (filesystem w) filePath = None ->
  createFileRecord sha256_hex w filePath s
  = (Throw (FsError (Stat filePath)),
     add_console_error (FailedCreateRecord filePath, FsError (Stat filePath))
       (add_fs_call (Stat filePath) s)).
Proof.
  intros Hstat. unfold createFileRecord, fs_stat. run. rewrite Hstat.
  reflexivity.
Qed.

Lemma createFileRecord_read_fails filePath stats s :
  stat (filesystem w) filePath = Some stats ->
  readFile (filesystem w) filePath = None ->
  createFileRecord sha256_hex w filePath s
  = (Throw (FsError (ReadFile filePath)),
     add_console_error (FailedCreateRecord filePath, FsError (ReadFile filePath))
       (add_console_error (FailedChecksum filePath, FsError (ReadFile filePath))
          (add_fs_call (ReadFile filePath) (add_fs_call (Stat filePath) s)))).
Proof.
  intros Hstat Hread. unfold createFileRecord, fs_stat. run. rewrite Hstat. cbn.
  rewrite (calculateChecksum_fails _ _ _ _ Hread). reflexivity.
Qed.

(** [#handleFileAddOrChange] catches everything: it never rejects. *)
Lemma handleFileAddOrChange_never_rejects filePath s :
  fst (handleFileAddOrChange sha256_hex w filePath s) = Ok tt.
Proof.
  unfold handleFileAddOrChange. unfold try_catch at 1. unfold bind at 1.
  destruct (createFileRecord sha256_hex w filePath s) as [[rec | e] s1];
    [| reflexivity].
  unfold bind at 1, require_db.
  destruct (db s1); [| reflexivity].
  unfold try_catch at 1, bind at 1.
  destruct (updateFileRecord w rec s1) as [[r | e] s2]; [reflexivity |].
  destruct (insertFileRecord w rec s2) as [[[] | e'] s3]; reflexivity.
Qed.

(** A file that cannot be inspected: the failure is written to the
    console, the listener returns normally and the store is as before. *)
Lemma handleFileAddOrChange_reports_failure filePath s :
  stat (filesystem w) filePath = None
  \/ readFile (filesystem w) filePath = None ->
  exists e s',
    handleFileAddOrChange sha256_hex w filePath s = (Ok tt, s')
    /\ In (FailedAddOrChange filePath, e) (console_error s')
    /\ same_store s s'.
Proof.
  intros Hfail.
  unfold handleFileAddOrChange. unfold try_catch at 1. unfold bind at 1.
  destruct (createFileRecord_fails filePath s Hfail) as (e & s1 & -> & Hsame & _).
  exists e. eexists. split; [reflexivity |].
  split; [cbn; apply in_or_app; right; left; reflexivity | exact Hsame].
Qed.

(** C1 (as the code behaves).  For a path that has no row, with the
    file readable, the database open and the UPDATE accepted, the
    handler of an add or change event runs the UPDATE, which matches no
    row and succeeds: the table is left as it was, [file.updated] is
    emitted and no INSERT is ever issued. *)
Theorem add_event_for_untracked_path_inserts_nothing filePath stats data s :
  db s = true ->
  stat (filesystem w) filePath = Some stats ->
  readFile (filesystem w) filePath = Some data ->
  db_fault w (UpdateWhere filePath) = false ->
  ~ In filePath (map file_path (files s)) ->
  exists s',
    handleFileAddOrChange sha256_hex w filePath s = (Ok tt, s')
    /\ db_calls s' = db_calls s ++ [UpdateWhere filePath]
    /\ files s' = files s
    /\ sqlite_sequence s' = sqlite_sequence s
    /\ emitted s'
       = emitted s
         ++ [file_updated
               (mkFileRecord None filePath (st_size stats)
                  (st_mtime_ms stats / 1000)%Z (sha256_hex data)
                  (clock w (ticks s)) (clock w (ticks s)))]
    /\ console_error s' = console_error s.
Proof.
  intros Hdb Hstat Hread Hfault Hnew.
  unfold handleFileAddOrChange. unfold try_catch at 1. unfold bind at 1.
  rewrite (createFileRecord_ok _ _ _ _ Hstat Hread).
  unfold bind at 1, require_db. cbn [db tick add_fs_call]. rewrite Hdb.
  unfold try_catch at 1, bind at 1.
  rewrite updateFileRecord_ok by (cbn; assumption).
  eexists. split; [reflexivity |]. cbn.
  rewrite update_untracked by (cbn; assumption).
  repeat split.
Qed.

(** C7 (as the code behaves).  When the DELETE for an unlink event
    fails, [#removeFileRecord] logs and rethrows, and the listener
    passes the rejection on: it reaches the process, which shuts down
    and exits; the events that follow are not handled.  The exit code
    is 0, with the watcher stopped and the database closed, unless
    closing the watcher or the database fails as well, and 1 then. *)
Theorem unlink_failure_escapes_listener filePath rest o s :
  watcher s = Some o ->
  is_ignored o filePath = false ->
  db s = true ->
  db_fault w (DeleteWhere filePath) = true ->
  listener sha256_hex w (on_unlink filePath) s
  = (Throw (SqliteError (DeleteWhere filePath)),
     add_console_error
       (FailedRemove filePath, SqliteError (DeleteWhere filePath))
       (add_db_call (DeleteWhere filePath) s))
  /\ exists code s',
       watch_loop sha256_hex w (on_unlink filePath :: rest) s = (Exited code, s')
       /\ files s' = files s /\ emitted s' = emitted s
       /\ (watcher_close_fault w = false -> db_fault w CloseDatabase = false ->
           code = 0%Z /\ watcher s' = None /\ db s' = false)
       /\ (watcher_close_fault w = true \/ db_fault w CloseDatabase = true ->
           code = 1%Z).
Proof.
  intros Hwatch Hign Hdb Hfault. cbn [listener].
  split; [apply removeFileRecord_fault; assumption |].
  cbn [watch_loop]. unfold deliver. rewrite Hwatch, Hign. cbn [listener].
  rewrite removeFileRecord_fault by assumption.
  unfold gracefulShutdown, shutdown, stopWatching, closeDatabase, bind, db_call,
    modify.
  cbn. rewrite Hwatch.
  destruct (watcher_close_fault w) eqn:Hclose; cbn.
  - do 2 eexists. split; [reflexivity |]. cbn. repeat split; try discriminate.
  - rewrite Hdb. cbn.
    destruct (db_fault w CloseDatabase) eqn:Hdbclose; cbn;
      do 2 eexists; (split; [reflexivity |]); cbn; repeat split;
      try discriminate; intros [H | H]; discriminate.
Qed.

End Listeners.

(** ** The directory scanner *)

Lemma Entry_induction (P : Entry -> Prop) :
  P IsFile ->
  (forall entries, Forall (fun ne => P (snd ne)) entries ->
                   P (IsDirectory entries)) ->
  P IsUnreadableDirectory ->
  P IsOther ->
  forall e, P e.
Proof.
  intros HF HD HU HO. fix IH 1.
  intros [| entries | |]; [exact HF | | exact HU | exact HO].
  apply HD. revert entries. fix IHl 1. intros [| [name e] rest].
  - constructor.
  - constructor; [apply IH | apply IHl].
Qed.

Lemma same_store_refl s : same_store s s.
Proof. repeat split. Qed.

Lemma same_store_trans s1 s2 s3 :
  same_store s1 s2 -> same_store s2 s3 -> same_store s1 s3.
Proof.
  unfold same_store. intros (A1 & A2 & A3 & A4 & A5 & A6)
    (B1 & B2 & B3 & B4 & B5 & B6).
  repeat split; congruence.
Qed.

Lemma scanDirectory_unfold dirPath dir s :
  scanDirectory dirPath dir s
  = logged (FailedScan dirPath)
      (fs_call (Readdir dirPath) ;;;
       match dir with
       | IsDirectory entries => for_entries scanDirectory dirPath entries []
       | _ => throw (FsError (Readdir dirPath))
       end) s.
Proof. destruct dir; reflexivity. Qed.

Lemma for_entries_result dirPath entries :
  Forall (fun ne => forall p s,
            fst (scanDirectory p (snd ne) s) = scan_result p (snd ne)
            /\ same_store s (snd (scanDirectory p (snd ne) s))) entries ->
  forall files s,
    fst (for_entries scanDirectory dirPath entries files s)
    = entries_result scan_result dirPath entries files
    /\ same_store s (snd (for_entries scanDirectory dirPath entries files s)).
Proof.
  induction 1 as [| [name entry] rest Hentry _ IH]; intros files s.
  - split; [reflexivity | apply same_store_refl].
  - cbn [snd] in Hentry.
    assert (Hdir :
      fst (bind (scanDirectory (path_join dirPath name) entry)
             (fun subFiles =>
                for_entries scanDirectory dirPath rest (files ++ subFiles)) s)
      = match scan_result (path_join dirPath name) entry with
        | Ok subFiles =>
            entries_result scan_result dirPath rest (files ++ subFiles)
        | Throw e => Throw e
        end
      /\ same_store s
           (snd (bind (scanDirectory (path_join dirPath name) entry)
                   (fun subFiles =>
                      for_entries scanDirectory dirPath rest
                        (files ++ subFiles)) s))).
    { unfold bind. destruct (Hentry (path_join dirPath name) s) as [Hr Hs].
      destruct (scanDirectory (path_join dirPath name) entry s)
        as [[subFiles | e] s1]; cbn [fst snd] in *; rewrite <- Hr.
      - destruct (IH (files ++ subFiles) s1) as [Hr' Hs'].
        split; [assumption | eapply same_store_trans; eassumption].
      - split; [reflexivity | assumption]. }
    destruct entry; cbn [for_entries entries_result]; try apply Hdir; apply IH.
Qed.

Lemma scanDirectory_result dir :
  forall dirPath s,
    fst (scanDirectory dirPath dir s) = scan_result dirPath dir
    /\ same_store s (snd (scanDirectory dirPath dir s)).
Proof.
  induction dir as [| entries IH | |] using Entry_induction; intros dirPath s;
    rewrite scanDirectory_unfold; try solve [run; repeat split].
  unfold logged, try_catch, bind, fs_call, log_error, throw, modify.
  destruct (for_entries_result dirPath entries IH []
              (add_fs_call (Readdir dirPath) s)) as [Hr Hs].
  cbn [scan_result]. rewrite <- Hr.
  destruct (for_entries scanDirectory dirPath entries []
              (add_fs_call (Readdir dirPath) s)) as [[files | e] s1];
    cbn [fst snd] in *; (split; [reflexivity | exact Hs]).
Qed.

Lemma entries_result_ok dirPath entries :
  forall files found,
    entries_result scan_result dirPath entries files = Ok found ->
    (forall p, In p files -> In p found)
    /\ (forall name, In (name, IsFile) entries ->
                     In (path_join dirPath name) found)
    /\ (forall name sub,
          In (name, sub) entries -> is_dir_like sub ->
          exists below,
            scan_result (path_join dirPath name) sub = Ok below
            /\ forall p, In p below -> In p found).
Proof.
  induction entries as [| [name entry] rest IH]; intros files found Hres.
  - cbn in Hres. injection Hres as <-.
    split; [auto |]. split; [intros ? [] | intros ? ? []].
  - cbn [entries_result] in Hres.
    assert (Hskip : forall files',
              entries_result scan_result dirPath rest files' = Ok found ->
              (forall p, In p files -> In p files') ->
              (forall p, In p files -> In p found)
              /\ (forall name', In (name', IsFile) rest ->
                                In (path_join dirPath name') found)
              /\ (forall name' sub,
                    In (name', sub) rest -> is_dir_like sub ->
                    exists below,
                      scan_result (path_join dirPath name') sub = Ok below
                      /\ forall p, In p below -> In p found)).
    { intros files' Hrest Hincl.
      destruct (IH files' found Hrest) as (H1 & H2 & H3). auto. }
    assert (Hdir : is_dir_like entry ->
              match scan_result (path_join dirPath name) entry with
              | Ok subFiles =>
                  entries_result scan_result dirPath rest (files ++ subFiles)
              | Throw e => Throw e
              end = Ok found ->
              (forall p, In p files -> In p found)
              /\ (forall name0, In (name0, IsFile) ((name, entry) :: rest) ->
                                In (path_join dirPath name0) found)
              /\ (forall name0 sub,
                    In (name0, sub) ((name, entry) :: rest) ->
                    is_dir_like sub ->
                    exists below,
                      scan_result (path_join dirPath name0) sub = Ok below
                      /\ forall p, In p below -> In p found)).
    { intros Hlike Hres'.
      destruct (scan_result (path_join dirPath name) entry)
        as [subFiles | e] eqn:Hsub; [| discriminate].
      destruct (IH _ _ Hres') as (H1 & H2 & H3).
      split; [intros p Hp; apply H1, in_or_app; auto |].
      split.
      - intros name0 [Heq | Hin]; [| auto].
        injection Heq as -> ->. destruct Hlike as [[l Hl] | Hl]; discriminate.
      - intros name0 sub [Heq | Hin] Hsublike; [| eauto].
        injection Heq as -> ->. exists subFiles. split; [assumption |].
        intros p Hp. apply H1, in_or_app. auto. }
    destruct entry as [| l | |].
    + destruct (IH _ _ Hres) as (H1 & H2 & H3).
      split; [intros p Hp; apply H1, in_or_app; auto |].
      split.
      * intros name0 [Heq | Hin]; [| auto].
        injection Heq as ->. apply H1, in_or_app. right. left. reflexivity.
      * intros name0 sub [Heq | Hin] Hlike; [| eauto].
        injection Heq as -> <-. destruct Hlike as [[l Hl] | Hl]; discriminate.
    + apply Hdir; [left; eauto | assumption].
    + apply Hdir; [right; reflexivity | assumption].
    + destruct (IH _ _ Hres) as (H1 & H2 & H3).
      split; [assumption |]. split.
      * intros name0 [Heq | Hin]; [discriminate | auto].
      * intros name0 sub [Heq | Hin] Hlike; [| eauto].
        injection Heq as -> <-. destruct Hlike as [[l Hl] | Hl]; discriminate.
Qed.

(** Every regular file reachable through readable directories is
    enumerated, whatever its name. *)
Lemma scan_result_complete dirPath dir name p :
  file_in dirPath dir name p ->
  forall found, scan_result dirPath dir = Ok found -> In p found.
Proof.
  induction 1 as [dirPath entries name Hin
                 | dirPath entries sub subdir name p Hin Hfile IH];
    intros found Hres; cbn [scan_result] in Hres;
    destruct (entries_result_ok _ _ _ _ Hres) as (_ & Hfiles & Hdirs).
  - apply Hfiles. assumption.
  - assert (Hlike : is_dir_like subdir).
    { inversion Hfile; left; eauto. }
    destruct (Hdirs _ _ Hin Hlike) as (below & Hbelow & Hincl).
    apply Hincl, IH. assumption.
Qed.

Lemma entries_result_throws dirPath entries name sub :
  In (name, sub) entries -> is_dir_like sub ->
  (exists e, scan_result (path_join dirPath name) sub = Throw e) ->
  forall files, exists e,
    entries_result scan_result dirPath entries files = Throw e.
Proof.
  intros Hin Hlike [e He].
  induction entries as [| [name' entry] rest IH]; [destruct Hin |].
  intros files. cbn [entries_result].
  destruct Hin as [Heq | Hin].
  - injection Heq as -> ->.
    destruct Hlike as [[l ->] | ->]; rewrite He; eauto.
  - specialize (IH Hin).
    destruct entry as [| l | |]; try apply IH;
      destruct (scan_result (path_join dirPath name') _); eauto.
Qed.

(** One directory that cannot be read makes the whole scan fail. *)
Lemma scan_result_unreadable dir :
  unreadable_below dir ->
  forall dirPath, exists e, scan_result dirPath dir = Throw e.
Proof.
  induction 1 as [| | | entries name subdir Hin Hlike _ IH]; intros dirPath;
    try (cbn; eauto; fail).
  cbn [scan_result].
  apply (entries_result_throws dirPath entries name subdir Hin Hlike).
  apply IH.
Qed.

(** The error of a scan that fails is the one of a [readdir]. *)
Lemma entries_result_readdir dirPath entries :
  Forall (fun ne => forall d e, scan_result d (snd ne) = Throw e ->
                                exists q, e = FsError (Readdir q)) entries ->
  forall files e,
    entries_result scan_result dirPath entries files = Throw e ->
    exists q, e = FsError (Readdir q).
Proof.
  induction 1 as [| [name entry] rest Hentry _ IH]; intros files e;
    cbn [entries_result]; [discriminate |].
  cbn [snd] in Hentry.
  destruct entry as [| l | |]; try apply IH.
  - destruct (scan_result (path_join dirPath name) (IsDirectory l))
      as [subFiles | e'] eqn:Hsub; [apply IH |].
    intros Heq. injection Heq as <-. apply (Hentry _ _ Hsub).
  - destruct (scan_result (path_join dirPath name) IsUnreadableDirectory)
      as [subFiles | e'] eqn:Hsub; [apply IH |].
    intros Heq. injection Heq as <-. apply (Hentry _ _ Hsub).
Qed.

Lemma scan_result_readdir dir :
  forall dirPath e,
    scan_result dirPath dir = Throw e -> exists q, e = FsError (Readdir q).
Proof.
  induction dir as [| entries IH | |] using Entry_induction;
    intros dirPath e; cbn [scan_result];
    try (intros Heq; injection Heq as <-; eauto; fail).
  apply entries_result_readdir. exact IH.
Qed.

(** ** The default [ignored] pattern and dot-files *)

Lemma separator_dot_after_slash dir name :
  dot_and_one_more name = true ->
  separator_dot_and_one_more (dir ++ "/" ++ name) = true.
Proof.
  intros Hname. induction dir as [| c dir IH].
  - cbn. rewrite Hname. reflexivity.
  - change (separator_dot_and_one_more (String c (dir ++ "/" ++ name)) = true).
    cbn [separator_dot_and_one_more]. rewrite IH. apply orb_true_r.
Qed.

Lemma separator_dot_after_trailing_slash dir name :
  ends_with_slash dir = true ->
  dot_and_one_more name = true ->
  separator_dot_and_one_more (dir ++ name) = true.
Proof.
  intros Hdir Hname. induction dir as [| c dir IH]; [discriminate |].
  destruct dir as [| c' dir'].
  - cbn in Hdir. apply Ascii.eqb_eq in Hdir. subst c. cbn.
    rewrite Hname. reflexivity.
  - change (separator_dot_and_one_more
              (String c (String c' dir' ++ name)) = true).
    cbn [separator_dot_and_one_more]. rewrite IH; [apply orb_true_r |].
    exact Hdir.
Qed.

Lemma ignore_dotfiles_path_join dirPath name :
  dot_and_one_more name = true ->
  ignore_dotfiles (path_join dirPath name) = true.
Proof.
  intros Hname. unfold ignore_dotfiles, path_join.
  destruct dirPath as [| c dir]; [rewrite Hname; reflexivity |].
  destruct (ends_with_slash (String c dir)) eqn:Hslash.
  - rewrite separator_dot_after_trailing_slash by assumption.
    apply orb_true_r.
  - rewrite (separator_dot_after_slash (String c dir) name Hname).
    apply orb_true_r.
Qed.

Lemma file_in_path_join dirPath dir name p :
  file_in dirPath dir name p -> exists d, p = path_join d name.
Proof. induction 1; eauto. Qed.

(** ** The reconciliation pass *)

Section Reconciliation.

Variable sha256_hex : string -> string.
Variable w : World.

Lemma same_store_no_delete s s' : same_store s s' -> no_delete s s'.
Proof.
  unfold same_store, no_delete, paths.
  intros (A1 & A2 & A3 & A4 & A5 & A6).
  rewrite A1, A2, A3, A5, A6. repeat split. auto.
Qed.

Lemma no_delete_refl s : no_delete s s.
Proof. apply same_store_no_delete, same_store_refl. Qed.

Lemma no_delete_trans s1 s2 s3 :
  no_delete s1 s2 -> no_delete s2 s3 -> no_delete s1 s3.
Proof.
  unfold no_delete. intros (A1 & A2 & A3 & A4 & A5) (B1 & B2 & B3 & B4 & B5).
  repeat split; try congruence. auto.
Qed.

Lemma existsb_has_path p rows :
  existsb (has_path p) rows = false <-> ~ In p (map file_path rows).
Proof.
  induction rows as [| row rows IH]; cbn.
  - split; [intros _ [] | reflexivity].
  - unfold has_path at 1.
    destruct (String.eqb_spec (file_path row) p) as [Heq | Hne]; cbn.
    + split; [discriminate | intros H; exfalso; apply H; auto].
    + rewrite IH. tauto.
Qed.

Lemma hasFileChanged_spec filePath dbRecord s :
  exists changed s1,
    hasFileChanged sha256_hex w filePath dbRecord s = (Ok changed, s1)
    /\ same_store s s1
    /\ (changed = false <-> file_matches sha256_hex w filePath dbRecord).
Proof.
  destruct (stat (filesystem w) filePath) as [stats |] eqn:Hstat.
  - assert (Hquick :
      st_size stats <> size dbRecord
      \/ (st_mtime_ms stats / 1000)%Z <> modified_time dbRecord ->
      exists changed s1,
        hasFileChanged sha256_hex w filePath dbRecord s = (Ok changed, s1)
        /\ same_store s s1
        /\ (changed = false <-> file_matches sha256_hex w filePath dbRecord)).
    { intros Hdiff. rewrite (hasFileChanged_quick _ _ _ _ _ _ Hstat Hdiff).
      do 2 eexists. split; [reflexivity |]. split; [repeat split |].
      split; [discriminate |].
      intros (stats' & data & Hs & _ & Hsize & Hmtime & _).
      rewrite Hstat in Hs. injection Hs as <-.
      destruct Hdiff as [Hd | Hd]; exfalso; apply Hd; congruence. }
    destruct (Z.eq_dec (st_size stats) (size dbRecord)) as [Hs | Hs];
      [| apply Hquick; left; assumption].
    destruct (Z.eq_dec (st_mtime_ms stats / 1000) (modified_time dbRecord))
      as [Hm | Hm]; [| apply Hquick; right; assumption].
    rewrite (hasFileChanged_same_stats _ _ _ _ _ _ Hstat Hs Hm).
    destruct (readFile (filesystem w) filePath) as [data |] eqn:Hread.
    + do 2 eexists. split; [reflexivity |]. split; [repeat split |].
      destruct (String.eqb_spec (sha256_hex data) (checksum dbRecord))
        as [Hc | Hc]; cbn.
      * split; [| reflexivity]. intros _.
        exists stats, data. repeat split; congruence.
      * split; [discriminate |].
        intros (stats' & data' & _ & Hr & _ & _ & Hsum).
        rewrite Hread in Hr. injection Hr as <-. congruence.
    + do 2 eexists. split; [reflexivity |]. split; [repeat split |].
      split; [discriminate |].
      intros (stats' & data' & _ & Hr & _). rewrite Hread in Hr. discriminate.
  - rewrite (hasFileChanged_stat_fails _ _ _ _ _ Hstat).
    do 2 eexists. split; [reflexivity |]. split; [repeat split |].
    split; [discriminate |].
    intros (stats' & data' & Hs & _). rewrite Hstat in Hs. discriminate.
Qed.

Lemma createFileRecord_spec filePath s :
  match createFileRecord sha256_hex w filePath s with
  | (Ok record, s1) =>
      same_store s s1 /\ file_path record = filePath
      /\ file_matches sha256_hex w filePath record
  | (Throw _, s1) =>
      same_store s s1
      /\ (stat (filesystem w) filePath = None
          \/ readFile (filesystem w) filePath = None)
  end.
Proof.
  destruct (stat (filesystem w) filePath) as [stats |] eqn:Hstat.
  - destruct (readFile (filesystem w) filePath) as [data |] eqn:Hread.
    + rewrite (createFileRecord_ok _ _ _ _ _ _ Hstat Hread).
      split; [repeat split |]. split; [reflexivity |].
      exists stats, data. repeat split; assumption.
    + destruct (createFileRecord_fails sha256_hex w filePath s (or_intror Hread))
        as (e & s1 & -> & Hsame & _).
      split; [assumption | right; reflexivity].
  - destruct (createFileRecord_fails sha256_hex w filePath s (or_introl Hstat))
      as (e & s1 & -> & Hsame & _).
    split; [assumption | left; reflexivity].
Qed.

Lemma insertFileRecord_spec record s :
  match insertFileRecord w record s with
  | (Ok _, s1) =>
      db s = true
      /\ db_fault w (InsertInto (file_path record)) = false
      /\ ~ In (file_path record) (paths s)
      /\ (exists row,
            files s1 = files s ++ [row]
            /\ file_path row = file_path record /\ size row = size record
            /\ modified_time row = modified_time record
            /\ checksum row = checksum record)
      /\ no_delete s s1
  | (Throw _, s1) =>
      files s1 = files s /\ no_delete s s1
      /\ (db s = false \/ db_fault w (InsertInto (file_path record)) = true
          \/ In (file_path record) (paths s))
  end.
Proof.
  unfold insertFileRecord, sql_insert. run.
  destruct (db s) eqn:Hdb; cbn.
  - destruct (db_fault w (InsertInto (file_path record))) eqn:Hfault; cbn.
    + split; [reflexivity |]. split; [| auto].
      unfold no_delete, paths; cbn. rewrite Hdb. repeat split; auto.
      rewrite filter_app; cbn. apply app_nil_r.
    + destruct (existsb (has_path (file_path record)) (files s)) eqn:Hex; cbn.
      * split; [reflexivity |]. split.
        -- unfold no_delete, paths; cbn. rewrite Hdb. repeat split; auto.
           rewrite filter_app; cbn. apply app_nil_r.
        -- right. right.
           destruct (in_dec string_dec (file_path record) (paths s)) as [Hin | Hn];
             [assumption |].
           apply existsb_has_path in Hn. unfold paths in Hn. congruence.
      * split; [reflexivity |]. split; [reflexivity |].
        split; [apply existsb_has_path; assumption |].
        split; [eexists; split; [reflexivity |]; repeat split |].
        unfold no_delete, paths; cbn. rewrite Hdb. repeat split.
        -- intros q Hq. rewrite map_app. apply in_or_app. auto.
        -- rewrite filter_app; cbn. apply app_nil_r.
        -- rewrite filter_app; cbn. apply app_nil_r.
  - split; [reflexivity |]. split; [| auto].
    unfold no_delete; cbn. rewrite Hdb. repeat split; auto.
Qed.

Lemma updateFileRecord_spec record s :
  match updateFileRecord w record s with
  | (Ok _, s1) =>
      db s = true
      /\ db_fault w (UpdateWhere (file_path record)) = false
      /\ files s1 = map (sql_update_row record) (files s)
      /\ no_delete s s1
  | (Throw _, s1) =>
      files s1 = files s /\ no_delete s s1
      /\ (db s = false \/ db_fault w (UpdateWhere (file_path record)) = true)
  end.
Proof.
  unfold updateFileRecord, sql_update. run.
  destruct (db s) eqn:Hdb; cbn.
  - destruct (db_fault w (UpdateWhere (file_path record))) eqn:Hfault; cbn.
    + split; [reflexivity |]. split; [| auto].
      unfold no_delete, paths; cbn. rewrite Hdb. repeat split; auto.
      rewrite filter_app; cbn. apply app_nil_r.
    + split; [reflexivity |]. split; [reflexivity |]. split; [reflexivity |].
      unfold no_delete, paths; cbn. rewrite Hdb. repeat split.
      * intros q Hq. rewrite map_map.
        erewrite map_ext; [exact Hq |]. intros row. apply sql_update_row_path.
      * rewrite filter_app; cbn. apply app_nil_r.
      * rewrite filter_app; cbn. apply app_nil_r.
  - split; [reflexivity |]. split; [| auto].
    unfold no_delete; cbn. rewrite Hdb. repeat split; auto.
Qed.

Lemma map_get_set {V} (m : JsMap V) k v k' :
  map_get (map_set m k v) k'
  = if String.eqb k k' then Some v else map_get m k'.
Proof.
  induction m as [| [k0 v0] rest IH]; cbn; [reflexivity |].
  destruct (String.eqb_spec k0 k) as [-> | Hne]; cbn.
  - destruct (String.eqb k k'); reflexivity.
  - rewrite IH.
    destruct (String.eqb_spec k0 k') as [-> | Hne'];
      destruct (String.eqb_spec k k'); congruence.
Qed.

Lemma map_set_keys {V} (m : JsMap V) k v q :
  In q (map fst (map_set m k v)) <-> q = k \/ In q (map fst m).
Proof.
  induction m as [| [k0 v0] rest IH]; cbn; [intuition |].
  destruct (String.eqb_spec k0 k) as [-> | Hne]; cbn; [intuition |].
  rewrite IH. intuition.
Qed.

Lemma records_snapshot_from rows :
  forall acc : JsMap FileRecord,
    let recordMap :=
      fold_left (fun m row => map_set m (file_path row) row) rows acc in
    (forall p, map_get recordMap p = None ->
               map_get acc p = None /\ ~ In p (map file_path rows))
    /\ (forall p r, map_get recordMap p = Some r ->
                    (In r rows /\ file_path r = p) \/ map_get acc p = Some r)
    /\ (forall p, In p (map fst recordMap)
                  <-> In p (map fst acc) \/ In p (map file_path rows)).
Proof.
  induction rows as [| row rows IH]; intros acc; cbn.
  - split; [auto |]. split; [auto | intuition].
  - destruct (IH (map_set acc (file_path row) row)) as (H1 & H2 & H3).
    split; [| split].
    + intros p Hp. apply H1 in Hp as [Hacc Hrows].
      rewrite map_get_set in Hacc.
      destruct (String.eqb_spec (file_path row) p); [discriminate |].
      intuition.
    + intros p r Hp. apply H2 in Hp as [[Hin Hpath] | Hacc]; [auto |].
      rewrite map_get_set in Hacc.
      destruct (String.eqb_spec (file_path row) p); [| auto].
      injection Hacc as <-. auto.
    + intros p. rewrite H3, map_set_keys. intuition.
Qed.

Lemma records_snapshot rows :
  snapshot_of (fold_left (fun m row => map_set m (file_path row) row) rows [])
              rows.
Proof.
  destruct (records_snapshot_from rows []) as (H1 & H2 & H3).
  split; [| split].
  - intros p Hp. apply H1. assumption.
  - intros p r Hp. destruct (H2 p r Hp) as [H | H]; [assumption | discriminate].
  - intros p. rewrite H3. cbn. intuition.
Qed.

Lemma getAllFileRecords_spec s :
  match getAllFileRecords w s with
  | (Ok dbRecords, s1) =>
      db s = true /\ db_fault w SelectAll = false
      /\ snapshot_of dbRecords (files s)
      /\ s1 = add_db_call SelectAll s
  | (Throw _, s1) =>
      files s1 = files s /\ no_delete s s1
      /\ (db s = false \/ db_fault w SelectAll = true)
  end.
Proof.
  unfold getAllFileRecords, sql_select_all. run.
  destruct (db s) eqn:Hdb; cbn.
  - destruct (db_fault w SelectAll) eqn:Hfault; cbn.
    + split; [reflexivity |]. split; [| auto].
      unfold no_delete, paths; cbn. rewrite Hdb. repeat split; auto.
      rewrite filter_app; cbn. apply app_nil_r.
    + split; [reflexivity |]. split; [reflexivity |].
      split; [apply records_snapshot | reflexivity].
  - split; [reflexivity |]. split; [| auto].
    unfold no_delete; cbn. rewrite Hdb. repeat split; auto.
Qed.

(** *** One file of the scan *)

Lemma syncFile_no_delete dbRecords filePath s :
  no_delete s (snd (syncFile sha256_hex w dbRecords filePath s)).
Proof.
  unfold syncFile.
  destruct (map_get dbRecords filePath) as [dbRecord |].
  - unfold bind at 1.
    destruct (hasFileChanged_spec filePath dbRecord s)
      as (changed & s1 & -> & Hsame & _).
    destruct changed; [| apply same_store_no_delete; assumption].
    unfold bind at 1.
    pose proof (createFileRecord_spec filePath s1) as Hcreate.
    destruct (createFileRecord sha256_hex w filePath s1) as [[rec | e] s2].
    + destruct Hcreate as (Hsame2 & _). unfold bind at 1.
      match goal with
      | |- context [updateFileRecord w ?r s2] =>
          pose proof (updateFileRecord_spec r s2) as Hupd;
          destruct (updateFileRecord w r s2) as [[r' | e] s3]
      end; cbn [snd];
        (eapply no_delete_trans; [apply same_store_no_delete; eassumption |]);
        (eapply no_delete_trans; [apply same_store_no_delete; eassumption |]);
        apply Hupd.
    + destruct Hcreate as (Hsame2 & _). cbn [snd].
      apply same_store_no_delete. eapply same_store_trans; eassumption.
  - unfold bind at 1.
    pose proof (createFileRecord_spec filePath s) as Hcreate.
    destruct (createFileRecord sha256_hex w filePath s) as [[rec | e] s1].
    + destruct Hcreate as (Hsame & _).
      pose proof (insertFileRecord_spec rec s1) as Hins.
      destruct (insertFileRecord w rec s1) as [[u | e] s2]; cbn [snd];
        (eapply no_delete_trans; [apply same_store_no_delete; eassumption |]);
        apply Hins.
    + destruct Hcreate as (Hsame & _). cbn [snd].
      apply same_store_no_delete. assumption.
Qed.

Lemma unique_row rows (a b : FileRecord) :
  NoDup (map file_path rows) -> In a rows -> In b rows ->
  file_path a = file_path b -> a = b.
Proof.
  induction rows as [| row rows IH]; cbn; intros Hnd Ha Hb Heq; [destruct Ha |].
  apply NoDup_cons_iff in Hnd as [Hnot Hnd].
  destruct Ha as [-> | Ha], Hb as [-> | Hb]; auto.
  - exfalso. apply Hnot. rewrite Heq. apply in_map. assumption.
  - exfalso. apply Hnot. rewrite <- Heq. apply in_map. assumption.
Qed.

Lemma paths_update record rows :
  map file_path (map (sql_update_row record) rows) = map file_path rows.
Proof.
  rewrite map_map. apply map_ext. intros row. apply sql_update_row_path.
Qed.

Section OnePass.

(** The table at the start of the pass and the map read from it. *)
Variable rows0 : list FileRecord.
Variable dbRecords : JsMap FileRecord.
Hypothesis rows0_wf : table_wf rows0.
Hypothesis dbRecords_snapshot : snapshot_of dbRecords rows0.

Lemma syncFile_invariant filePath done s s' :
  sync_invariant sha256_hex w rows0 done s ->
  syncFile sha256_hex w dbRecords filePath s = (Ok tt, s') ->
  sync_invariant sha256_hex w rows0 (filePath :: done) s'.
Proof.
  intros (I1 & I2 & I3 & I4). unfold syncFile.
  destruct dbRecords_snapshot as (Hnone & Hsome & _).
  destruct (map_get dbRecords filePath) as [dbRecord |] eqn:Hget.
  - destruct (Hsome _ _ Hget) as [Hin0 Hpath0].
    unfold bind at 1.
    destruct (hasFileChanged_spec filePath dbRecord s)
      as (changed & s1 & -> & Hsame & Hchanged).
    destruct Hsame as (_ & _ & Hfiles1 & _).
    assert (Htracked : In filePath (map file_path rows0)).
    { rewrite <- Hpath0. apply in_map. assumption. }
    destruct changed.
    + unfold bind at 1.
      pose proof (createFileRecord_spec filePath s1) as Hcreate.
      destruct (createFileRecord sha256_hex w filePath s1) as [[rec | e] s2];
        [| discriminate].
      destruct Hcreate as ((_ & _ & Hfiles2 & _) & Hrecpath & Hmatch).
      unfold bind at 1.
      match goal with
      | |- context [updateFileRecord w ?r s2] =>
          pose proof (updateFileRecord_spec r s2) as Hupd;
          destruct (updateFileRecord w r s2) as [[r' | e] s3]
      end; [| discriminate].
      cbn [file_path] in Hupd. destruct Hupd as (_ & _ & Hfiles3 & _).
      intros Heq. injection Heq as <-.
      rewrite Hfiles2, Hfiles1 in Hfiles3.
      unfold sync_invariant, paths. rewrite Hfiles3, paths_update.
      split; [exact I1 |]. split; [| split].
      * intros q. unfold paths in I2. rewrite I2. cbn.
        intuition (subst; auto).
      * intros row' Hin' Hdone.
        apply in_map_iff in Hin' as (row & <- & Hin).
        rewrite sql_update_row_path in Hdone.
        unfold sql_update_row, has_path. cbn [file_path].
        destruct (String.eqb_spec (file_path row) (file_path rec)) as [Heq | Hne].
        -- destruct Hmatch as (stats & data & Hst & Hrd & Hsz & Hmt & Hck).
           exists stats, data. cbn. rewrite Heq, Hrecpath. auto.
        -- apply I3; [assumption |]. destruct Hdone as [Hd | Hd]; [| assumption].
           congruence.
      * intros row' Hin' Hdone.
        apply in_map_iff in Hin' as (row & <- & Hin).
        rewrite sql_update_row_path in Hdone.
        rewrite sql_update_row_other.
        -- apply I4; [assumption |]. intros Hd. apply Hdone. right. assumption.
        -- cbn [file_path]. intros Heq. apply Hdone. left. congruence.
    + intros Heq. injection Heq as <-.
      unfold sync_invariant, paths. rewrite Hfiles1.
      split; [exact I1 |]. split; [| split].
      * intros q. unfold paths in I2. rewrite I2. cbn.
        intuition (subst; auto).
      * intros row Hin Hdone.
        destruct (in_dec string_dec (file_path row) done) as [Hd | Hd];
          [apply I3; assumption |].
        destruct Hdone as [Hp | Hp]; [| contradiction].
        assert (row = dbRecord) as ->.
        { apply (unique_row rows0); auto. congruence. }
        unfold in_sync. rewrite Hpath0. apply Hchanged. reflexivity.
      * intros row Hin Hdone. apply I4; [assumption |].
        intros Hd. apply Hdone. right. assumption.
  - pose proof (Hnone _ Hget) as Hnew.
    unfold bind at 1.
    pose proof (createFileRecord_spec filePath s) as Hcreate.
    destruct (createFileRecord sha256_hex w filePath s) as [[rec | e] s1];
      [| discriminate].
    destruct Hcreate as ((_ & _ & Hfiles1 & _) & Hrecpath & Hmatch).
    pose proof (insertFileRecord_spec rec s1) as Hins.
    destruct (insertFileRecord w rec s1) as [[u | e] s2]; [| discriminate].
    destruct Hins as (_ & _ & Hfresh & (row & Hfiles2 & Hp & Hsz & Hmt & Hck) & _).
    intros Heq. injection Heq as _ <-.
    unfold paths in Hfresh. rewrite Hfiles1, Hrecpath in Hfresh.
    rewrite Hfiles1 in Hfiles2. rewrite Hrecpath in Hp.
    unfold sync_invariant, paths. rewrite Hfiles2, map_app. cbn [map].
    rewrite Hp.
    split; [| split; [| split]].
    + apply NoDup_app; [exact I1 | constructor; [intros [] | constructor] |].
      intros a Ha [<- | []]. contradiction.
    + intros q. rewrite in_app_iff. unfold paths in I2. rewrite I2. cbn.
      intuition.
    + intros row' Hin' Hdone. apply in_app_iff in Hin' as [Hin | [<- | []]].
      * apply I3; [assumption |]. destruct Hdone as [Hd | Hd]; [| assumption].
        exfalso. apply Hfresh. rewrite Hd. apply in_map. assumption.
      * destruct Hmatch as (stats & data & Hst & Hrd & Hsz' & Hmt' & Hck').
        exists stats, data. rewrite Hp. repeat split; congruence.
    + intros row' Hin' Hdone. apply in_app_iff in Hin' as [Hin | [<- | []]].
      * apply I4; [assumption |]. intros Hd. apply Hdone. right. assumption.
      * exfalso. apply Hdone. left. symmetry. assumption.
Qed.

Lemma syncFiles_invariant currentFiles :
  forall processedFiles done s processed' s',
    sync_invariant sha256_hex w rows0 done s ->
    syncFiles sha256_hex w currentFiles dbRecords processedFiles s
    = (Ok processed', s') ->
    exists done',
      sync_invariant sha256_hex w rows0 done' s'
      /\ (forall q, In q done' <-> In q currentFiles \/ In q done).
Proof.
  induction currentFiles as [| filePath rest IH];
    intros processedFiles done s processed' s' Hinv; cbn [syncFiles].
  - intros Heq. injection Heq as _ <-. exists done. split; [assumption |].
    intros q. cbn. intuition.
  - unfold bind at 1.
    destruct (syncFile sha256_hex w dbRecords filePath s) as [[[] | e] s1] eqn:Hstep;
      [| discriminate].
    intros Hrest.
    pose proof (syncFile_invariant _ _ _ _ Hinv Hstep) as Hinv1.
    destruct (IH _ _ _ _ _ Hinv1 Hrest) as (done' & Hinv' & Hdone').
    exists done'. split; [assumption |].
    intros q. rewrite Hdone'. cbn. intuition.
Qed.

End OnePass.

(** *** The two loops *)

Lemma set_has_add processedFiles k q :
  set_has (set_add processedFiles k) q = true
  <-> set_has processedFiles q = true \/ q = k.
Proof.
  unfold set_add.
  destruct (set_has processedFiles k) eqn:Hk.
  - split; [auto |]. intros [H | ->]; assumption.
  - unfold set_has. rewrite existsb_app, orb_true_iff. cbn.
    rewrite orb_false_r, String.eqb_eq. reflexivity.
Qed.

Lemma syncFiles_processed dbRecords currentFiles :
  forall processedFiles s processed' s',
    syncFiles sha256_hex w currentFiles dbRecords processedFiles s
    = (Ok processed', s') ->
    forall q, set_has processed' q = true
              <-> set_has processedFiles q = true \/ In q currentFiles.
Proof.
  induction currentFiles as [| filePath rest IH];
    intros processedFiles s processed' s'; cbn [syncFiles].
  - intros Heq. injection Heq as <- _. intros q. cbn. intuition.
  - unfold bind at 1.
    destruct (syncFile sha256_hex w dbRecords filePath s) as [[[] | e] s1];
      [| discriminate].
    intros Hrest q. rewrite (IH _ _ _ _ Hrest q), set_has_add. cbn.
    intuition.
Qed.

Lemma syncFiles_no_delete dbRecords currentFiles :
  forall processedFiles s,
    no_delete s
      (snd (syncFiles sha256_hex w currentFiles dbRecords processedFiles s)).
Proof.
  induction currentFiles as [| filePath rest IH]; intros processedFiles s;
    cbn [syncFiles].
  - apply no_delete_refl.
  - unfold bind at 1.
    pose proof (syncFile_no_delete dbRecords filePath s) as Hstep.
    destruct (syncFile sha256_hex w dbRecords filePath s) as [[[] | e] s1];
      cbn [snd] in *; [| assumption].
    eapply no_delete_trans; [eassumption | apply IH].
Qed.

(** A file of the scan on which [syncFile] throws makes the loop throw. *)
Lemma syncFiles_throws dbRecords (bad : string -> Prop) :
  (forall p s, bad p ->
     exists e s', syncFile sha256_hex w dbRecords p s = (Throw e, s')) ->
  forall currentFiles p, In p currentFiles -> bad p ->
  forall processedFiles s, exists e s',
    syncFiles sha256_hex w currentFiles dbRecords processedFiles s
    = (Throw e, s').
Proof.
  intros Hbad currentFiles p Hin Hp.
  induction currentFiles as [| filePath rest IH]; [destruct Hin |].
  intros processedFiles s. cbn [syncFiles]. unfold bind at 1.
  destruct (syncFile sha256_hex w dbRecords filePath s) as [[[] | e] s1] eqn:Hstep;
    [| eauto].
  destruct Hin as [-> | Hin]; [| apply IH; assumption].
  destruct (Hbad p s Hp) as (e & s' & Hthrow). congruence.
Qed.

Lemma syncFile_throws_unreadable dbRecords filePath s :
  stat (filesystem w) filePath = None
  \/ readFile (filesystem w) filePath = None ->
  exists e s', syncFile sha256_hex w dbRecords filePath s = (Throw e, s').
Proof.
  intros Hfail. unfold syncFile.
  destruct (map_get dbRecords filePath) as [dbRecord |].
  - unfold bind at 1.
    destruct (hasFileChanged_spec filePath dbRecord s)
      as (changed & s1 & -> & _ & Hchanged).
    destruct changed.
    + unfold bind at 1.
      destruct (createFileRecord_fails sha256_hex w filePath s1 Hfail)
        as (e & s2 & -> & _). eauto.
    + exfalso. destruct Hchanged as [Hm _].
      destruct (Hm eq_refl) as (stats & data & Hst & Hrd & _).
      destruct Hfail; congruence.
  - unfold bind at 1.
    destruct (createFileRecord_fails sha256_hex w filePath s Hfail)
      as (e & s1 & -> & _). eauto.
Qed.

Lemma syncFile_throws_insert dbRecords filePath s :
  map_get dbRecords filePath = None ->
  db_fault w (InsertInto filePath) = true ->
  exists e s', syncFile sha256_hex w dbRecords filePath s = (Throw e, s').
Proof.
  intros Hget Hfault. unfold syncFile. rewrite Hget. unfold bind at 1.
  pose proof (createFileRecord_spec filePath s) as Hcreate.
  destruct (createFileRecord sha256_hex w filePath s) as [[rec | e] s1];
    [| eauto].
  destruct Hcreate as (_ & Hpath & _).
  pose proof (insertFileRecord_spec rec s1) as Hins.
  destruct (insertFileRecord w rec s1) as [[u | e] s2]; [| eauto].
  destruct Hins as (_ & Hok & _). congruence.
Qed.

Lemma syncFile_throws_update dbRecords filePath dbRecord s :
  map_get dbRecords filePath = Some dbRecord ->
  ~ file_matches sha256_hex w filePath dbRecord ->
  db_fault w (UpdateWhere filePath) = true ->
  exists e s', syncFile sha256_hex w dbRecords filePath s = (Throw e, s').
Proof.
  intros Hget Hstale Hfault. unfold syncFile. rewrite Hget. unfold bind at 1.
  destruct (hasFileChanged_spec filePath dbRecord s)
    as (changed & s1 & -> & _ & Hchanged).
  destruct changed; [| exfalso; apply Hstale, Hchanged; reflexivity].
  unfold bind at 1.
  pose proof (createFileRecord_spec filePath s1) as Hcreate.
  destruct (createFileRecord sha256_hex w filePath s1) as [[rec | e] s2];
    [| eauto].
  destruct Hcreate as (_ & Hpath & _). unfold bind at 1.
  match goal with
  | |- context [updateFileRecord w ?r s2] =>
      pose proof (updateFileRecord_spec r s2) as Hupd;
      destruct (updateFileRecord w r s2) as [[r' | e] s3]
  end; [| eauto].
  cbn [file_path] in Hupd. destruct Hupd as (_ & Hok & _). congruence.
Qed.

(** With every scanned file tracked and in step with its row, the first
    loop changes nothing in the store. *)
Lemma syncFiles_unchanged dbRecords currentFiles :
  (forall p, In p currentFiles ->
     exists r, map_get dbRecords p = Some r
               /\ file_matches sha256_hex w p r) ->
  forall processedFiles s, exists processed' s',
    syncFiles sha256_hex w currentFiles dbRecords processedFiles s
    = (Ok processed', s')
    /\ same_store s s'.
Proof.
  induction currentFiles as [| filePath rest IH]; intros Hall processedFiles s;
    cbn [syncFiles].
  - do 2 eexists. split; [reflexivity | apply same_store_refl].
  - destruct (Hall filePath (or_introl eq_refl)) as (r & Hget & Hmatch).
    unfold bind at 1, syncFile. rewrite Hget. unfold bind at 1.
    destruct (hasFileChanged_spec filePath r s)
      as (changed & s1 & -> & Hsame & Hchanged).
    destruct changed;
      [apply Hchanged in Hmatch; discriminate |].
    cbn.
    destruct (IH (fun p Hp => Hall p (or_intror Hp))
                (set_add processedFiles filePath) s1)
      as (processed' & s' & -> & Hsame').
    do 2 eexists. split; [reflexivity |].
    eapply same_store_trans; eassumption.
Qed.

Lemma removeFileRecord_spec filePath s :
  match removeFileRecord w filePath s with
  | (Ok _, s1) =>
      db s = true /\ db_fault w (DeleteWhere filePath) = false
      /\ files s1 = filter (fun row => negb (has_path filePath row)) (files s)
      /\ db s1 = db s
  | (Throw _, s1) =>
      files s1 = files s /\ emitted s1 = emitted s /\ db s1 = db s
      /\ (db s = false
          \/ (db_fault w (DeleteWhere filePath) = true
              /\ db_calls s1 = db_calls s ++ [DeleteWhere filePath]))
  end.
Proof.
  unfold removeFileRecord, sql_delete. run.
  destruct (db s) eqn:Hdb; cbn.
  - destruct (db_fault w (DeleteWhere filePath)) eqn:Hfault; cbn;
      repeat split; auto.
  - repeat split; auto.
Qed.

Lemma NoDup_paths_filter (keep : FileRecord -> bool) rows :
  NoDup (map file_path rows) -> NoDup (map file_path (filter keep rows)).
Proof.
  induction rows as [| row rows IH]; cbn; intros Hnd; [constructor |].
  apply NoDup_cons_iff in Hnd as [Hnot Hnd].
  destruct (keep row); cbn; [| auto].
  constructor; [| auto].
  intros Hin. apply Hnot. apply in_map_iff in Hin as (r & Hp & Hin).
  apply filter_In in Hin as [Hin _]. rewrite <- Hp. apply in_map. assumption.
Qed.

Lemma removeStale_ok (dbRecords : JsMap FileRecord) processedFiles :
  forall s s',
    removeStale w dbRecords processedFiles s = (Ok tt, s') ->
    (forall row,
       In row (files s')
       <-> In row (files s)
           /\ (In (file_path row) (map fst dbRecords) ->
               set_has processedFiles (file_path row) = true))
    /\ (NoDup (paths s) -> NoDup (paths s'))
    /\ db s' = db s.
Proof.
  induction dbRecords as [| [k v] rest IH]; intros s s'; cbn [removeStale].
  - intros Heq. injection Heq as <-. cbn. intuition.
  - unfold bind at 1.
    destruct (set_has processedFiles k) eqn:Hk; cbn [negb].
    + cbn. intros Hrest. destruct (IH _ _ Hrest) as (Hrows & Hnd & Hdb).
      split; [| auto].
      intros row. rewrite Hrows. cbn. intuition (subst; auto).
    + pose proof (removeFileRecord_spec k s) as Hrm.
      destruct (removeFileRecord w k s) as [[[] | e] s1]; [| discriminate].
      destruct Hrm as (_ & _ & Hfiles1 & Hdb1).
      intros Hrest. destruct (IH _ _ Hrest) as (Hrows & Hnd & Hdb).
      split; [| split].
      * intros row. rewrite Hrows, Hfiles1, filter_In. cbn. unfold has_path.
        destruct (String.eqb_spec (file_path row) k) as [Heq | Hne]; cbn.
        -- split; [intros [[_ H] _]; discriminate |].
           intros [_ H]. rewrite Heq, Hk in H.
           discriminate H. left. reflexivity.
        -- intuition congruence.
      * intros Hs. apply Hnd. unfold paths. rewrite Hfiles1.
        apply NoDup_paths_filter. assumption.
      * congruence.
Qed.

Lemma removeStale_unchanged (dbRecords : JsMap FileRecord) processedFiles s :
  (forall q, In q (map fst dbRecords) -> set_has processedFiles q = true) ->
  removeStale w dbRecords processedFiles s = (Ok tt, s).
Proof.
  induction dbRecords as [| [k v] rest IH]; intros Hall; cbn [removeStale];
    [reflexivity |].
  unfold bind at 1. rewrite (Hall k (or_introl eq_refl)). cbn.
  apply IH. intros q Hq. apply Hall. right. assumption.
Qed.

Lemma removeStale_throws (dbRecords : JsMap FileRecord) processedFiles q :
  In q (map fst dbRecords) ->
  set_has processedFiles q = false ->
  db_fault w (DeleteWhere q) = true ->
  forall s, exists e s',
    removeStale w dbRecords processedFiles s = (Throw e, s').
Proof.
  intros Hin Hq Hfault.
  induction dbRecords as [| [k v] rest IH]; [destruct Hin |].
  intros s. cbn [removeStale]. unfold bind at 1.
  destruct Hin as [Hk | Hin].
  - cbn in Hk. subst k. rewrite Hq. cbn [negb].
    pose proof (removeFileRecord_spec q s) as Hrm.
    destruct (removeFileRecord w q s) as [[[] | e] s1]; [| eauto].
    destruct Hrm as (_ & Hok & _). congruence.
  - destruct ((if negb (set_has processedFiles k)
               then removeFileRecord w k else ret tt) s) as [[[] | e] s1].
    + apply IH. assumption.
    + eauto.
Qed.

Lemma removeStale_throw_last (dbRecords : JsMap FileRecord) processedFiles :
  forall s e s',
    removeStale w dbRecords processedFiles s = (Throw e, s') ->
    db s = true ->
    exists q before,
      db_calls s' = before ++ [DeleteWhere q]
      /\ db_fault w (DeleteWhere q) = true.
Proof.
  induction dbRecords as [| [k v] rest IH]; intros s e s'; cbn [removeStale];
    [discriminate |].
  unfold bind at 1.
  destruct (set_has processedFiles k); cbn [negb].
  - cbn. apply IH.
  - pose proof (removeFileRecord_spec k s) as Hrm.
    destruct (removeFileRecord w k s) as [[[] | e1] s1].
    + destruct Hrm as (_ & _ & _ & Hdb1). intros Hrest Hdb.
      apply (IH _ _ _ Hrest). congruence.
    + destruct Hrm as (_ & _ & _ & [Hclosed | [Hfault Hcalls]]);
        intros Heq Hdb; [congruence |].
      injection Heq as _ <-. eauto.
Qed.

(** *** The whole pass *)

Lemma no_delete_select s : no_delete s (add_db_call SelectAll s).
Proof.
  unfold no_delete, paths; cbn. repeat split; auto.
  rewrite filter_app; cbn. apply app_nil_r.
Qed.

Lemma no_delete_console l s : no_delete s (add_console_error l s).
Proof. unfold no_delete, paths; cbn. repeat split; auto. Qed.

Lemma performInitialSync_stages s :
  performInitialSync sha256_hex w s
  = match scanDirectory (watchFolder w) (root (filesystem w)) s with
    | (Ok currentFiles, s1) =>
        match getAllFileRecords w s1 with
        | (Ok dbRecords, s2) =>
            match syncFiles sha256_hex w currentFiles dbRecords [] s2 with
            | (Ok processedFiles, s3) =>
                match removeStale w dbRecords processedFiles s3 with
                | (Ok u, s4) => (Ok u, s4)
                | (Throw e, s4) =>
                    (Throw e, add_console_error (InitialSyncFailed, e) s4)
                end
            | (Throw e, s3) =>
                (Throw e, add_console_error (InitialSyncFailed, e) s3)
            end
        | (Throw e, s2) => (Throw e, add_console_error (InitialSyncFailed, e) s2)
        end
    | (Throw e, s1) => (Throw e, add_console_error (InitialSyncFailed, e) s1)
    end.
Proof.
  unfold performInitialSync, logged, try_catch. unfold bind at 1.
  destruct (scanDirectory (watchFolder w) (root (filesystem w)) s)
    as [[currentFiles | e] s1]; [| reflexivity].
  unfold bind at 1.
  destruct (getAllFileRecords w s1) as [[dbRecords | e] s2]; [| reflexivity].
  unfold bind at 1.
  destruct (syncFiles sha256_hex w currentFiles dbRecords [] s2)
    as [[processedFiles | e] s3]; [| reflexivity].
  destruct (removeStale w dbRecords processedFiles s3) as [[u | e] s4];
    reflexivity.
Qed.

Lemma performInitialSync_ok s s' :
  performInitialSync sha256_hex w s = (Ok tt, s') ->
  exists currentFiles s1 dbRecords processedFiles s3,
    scanDirectory (watchFolder w) (root (filesystem w)) s = (Ok currentFiles, s1)
    /\ db s1 = true /\ db_fault w SelectAll = false
    /\ snapshot_of dbRecords (files s1)
    /\ syncFiles sha256_hex w currentFiles dbRecords []
         (add_db_call SelectAll s1) = (Ok processedFiles, s3)
    /\ removeStale w dbRecords processedFiles s3 = (Ok tt, s').
Proof.
  unfold performInitialSync, logged, try_catch. unfold bind at 1.
  destruct (scanDirectory (watchFolder w) (root (filesystem w)) s)
    as [[currentFiles | e] s1]; [| discriminate].
  unfold bind at 1.
  pose proof (getAllFileRecords_spec s1) as Hget.
  destruct (getAllFileRecords w s1) as [[dbRecords | e] s2]; [| discriminate].
  destruct Hget as (Hdb & Hsel & Hsnap & ->).
  unfold bind at 1.
  destruct (syncFiles sha256_hex w currentFiles dbRecords []
              (add_db_call SelectAll s1)) as [[processedFiles | e] s3] eqn:Hsync;
    [| discriminate].
  destruct (removeStale w dbRecords processedFiles s3) as [[[] | e] s4] eqn:Hrm;
    [| discriminate].
  intros Heq. injection Heq as <-.
  exists currentFiles, s1, dbRecords, processedFiles, s3. auto 10.
Qed.

(** What a successful pass leaves behind. *)
Lemma performInitialSync_result s s' :
  table_wf (files s) ->
  performInitialSync sha256_hex w s = (Ok tt, s') ->
  exists currentFiles,
    scan_result (watchFolder w) (root (filesystem w)) = Ok currentFiles
    /\ NoDup (paths s')
    /\ (forall q, In q (paths s') <-> In q currentFiles)
    /\ (forall row, In row (files s') -> in_sync sha256_hex w row)
    /\ db s' = true /\ db_fault w SelectAll = false.
Proof.
  intros Hwf Hrun.
  destruct (performInitialSync_ok _ _ Hrun)
    as (currentFiles & s1 & dbRecords & processedFiles & s3
        & Hscan & Hdb & Hsel & Hsnap & Hsync & Hrm).
  destruct (scanDirectory_result (root (filesystem w)) (watchFolder w) s)
    as [Hres Hsame].
  rewrite Hscan in Hres, Hsame. cbn [fst snd] in Hres, Hsame.
  destruct Hsame as (_ & _ & Hfiles1 & _).
  rewrite Hfiles1 in Hsnap.
  assert (Hinv0 : sync_invariant sha256_hex w (files s) []
                    (add_db_call SelectAll s1)).
  { unfold sync_invariant, paths. cbn [files add_db_call]. rewrite Hfiles1.
    split; [exact Hwf |]. split; [cbn; intuition |].
    split; [intros ? ? [] | auto]. }
  destruct (syncFiles_invariant (files s) dbRecords Hwf Hsnap _ _ _ _ _ _
              Hinv0 Hsync) as (done & (I1 & I2 & I3 & I4) & Hdone).
  pose proof (syncFiles_processed _ _ _ _ _ _ Hsync) as Hproc.
  pose proof (syncFiles_no_delete dbRecords currentFiles []
                (add_db_call SelectAll s1)) as Hnd.
  rewrite Hsync in Hnd. cbn [snd] in Hnd. destruct Hnd as (Hdb3 & _).
  destruct (removeStale_ok _ _ _ _ Hrm) as (Hrows & Hnodup & Hdb').
  destruct Hsnap as (_ & _ & Hkeys).
  assert (Hkept : forall row, In row (files s') ->
                              In row (files s3) /\ In (file_path row) currentFiles).
  { intros row Hin. apply Hrows in Hin as [Hin Hstale].
    split; [assumption |].
    assert (Hq : In (file_path row) (paths s3)) by (apply in_map; assumption).
    apply I2 in Hq as [Hq | Hq].
    - apply Hkeys, Hstale, Hproc in Hq as [Hq | Hq]; [discriminate | assumption].
    - apply Hdone in Hq as [Hq | []]. assumption. }
  exists currentFiles. split; [symmetry; assumption |].
  split; [auto |]. split; [| split; [| split]].
  - intros q. split.
    + intros Hq. apply in_map_iff in Hq as (row & <- & Hin).
      apply Hkept. assumption.
    + intros Hq.
      assert (Hq3 : In q (paths s3)).
      { apply I2. right. apply Hdone. left. assumption. }
      apply in_map_iff in Hq3 as (row & <- & Hin).
      apply in_map. apply Hrows. split; [assumption |].
      intros _. apply Hproc. right. assumption.
  - intros row Hin. destruct (Hkept row Hin) as [Hin3 Hq].
    apply I3; [assumption |]. apply Hdone. left. assumption.
  - cbn in Hdb3. congruence.
  - assumption.
Qed.

Lemma filter_has_path_unique p rows :
  NoDup (map file_path rows) -> In p (map file_path rows) ->
  exists row, filter (has_path p) rows = [row] /\ file_path row = p.
Proof.
  induction rows as [| row rows IH]; cbn; intros Hnd Hin; [destruct Hin |].
  apply NoDup_cons_iff in Hnd as [Hnot Hnd]. unfold has_path at 1.
  destruct (String.eqb_spec (file_path row) p) as [Heq | Hne].
  - exists row. split; [| assumption]. f_equal.
    assert (Hnone : existsb (has_path p) rows = false).
    { apply existsb_has_path. congruence. }
    clear - Hnone. induction rows as [| r rows IH]; [reflexivity |].
    cbn in *. apply orb_false_iff in Hnone as [-> Hrest]. auto.
  - destruct Hin as [Hin | Hin]; [contradiction |]. auto.
Qed.

Lemma filter_has_path_none p rows :
  ~ In p (map file_path rows) -> filter (has_path p) rows = [].
Proof.
  intros Hnot. apply existsb_has_path in Hnot.
  induction rows as [| r rows IH]; [reflexivity |].
  cbn in *. apply orb_false_iff in Hnot as [-> Hrest]. auto.
Qed.

(** C2.  When [performInitialSync] completes on a table whose paths are
    unique, the scan has returned a list of files, the table holds
    exactly one row for every path of that list and no row for any
    other path. *)
Theorem performInitialSync_complete s s' :
  table_wf (files s) ->
  performInitialSync sha256_hex w s = (Ok tt, s') ->
  exists currentFiles,
    fst (scanDirectory (watchFolder w) (root (filesystem w)) s) = Ok currentFiles
    /\ (forall p, In p currentFiles ->
          exists row, filter (has_path p) (files s') = [row]
                      /\ file_path row = p)
    /\ (forall p, ~ In p currentFiles -> filter (has_path p) (files s') = []).
Proof.
  intros Hwf Hrun.
  destruct (performInitialSync_result _ _ Hwf Hrun)
    as (currentFiles & Hscan & Hnodup & Hpaths & _).
  exists currentFiles. split; [| split].
  - rewrite <- Hscan. apply scanDirectory_result.
  - intros p Hp. apply filter_has_path_unique; [exact Hnodup |].
    apply Hpaths. assumption.
  - intros p Hp. apply filter_has_path_none. intros Hin. apply Hp, Hpaths.
    assumption.
Qed.

(** C4.  After a pass that completed, a second pass over the same file
    system completes as well and issues a single statement, the SELECT:
    no INSERT, UPDATE or DELETE; the table, the id counter and the
    emitted events are as the first pass left them. *)
Theorem performInitialSync_twice s s1 :
  table_wf (files s) ->
  performInitialSync sha256_hex w s = (Ok tt, s1) ->
  exists s2,
    performInitialSync sha256_hex w s1 = (Ok tt, s2)
    /\ db_calls s2 = db_calls s1 ++ [SelectAll]
    /\ files s2 = files s1
    /\ sqlite_sequence s2 = sqlite_sequence s1
    /\ emitted s2 = emitted s1.
Proof.
  intros Hwf Hrun.
  destruct (performInitialSync_result _ _ Hwf Hrun)
    as (currentFiles & Hscan & Hnodup & Hpaths & Hsync & Hdb & Hsel).
  unfold performInitialSync, logged, try_catch. unfold bind at 1.
  destruct (scanDirectory_result (root (filesystem w)) (watchFolder w) s1)
    as [Hres Hsame].
  destruct (scanDirectory (watchFolder w) (root (filesystem w)) s1)
    as [[found | e] sA]; cbn [fst snd] in Hres, Hsame;
    rewrite Hscan in Hres; [| discriminate].
  injection Hres as ->.
  destruct Hsame as (HdbA & _ & HfilesA & HseqA & HcallsA & HemitA).
  unfold bind at 1.
  pose proof (getAllFileRecords_spec sA) as Hget.
  destruct (getAllFileRecords w sA) as [[dbRecords | e] sB].
  - destruct Hget as (_ & _ & (Hnone & Hsome & Hkeys) & ->).
    rewrite HfilesA in Hnone, Hsome, Hkeys.
    unfold bind at 1.
    assert (Hall : forall p, In p currentFiles ->
                     exists r, map_get dbRecords p = Some r
                               /\ file_matches sha256_hex w p r).
    { intros p Hp. apply Hpaths in Hp.
      destruct (map_get dbRecords p) as [r |] eqn:Hg;
        [| exfalso; exact (Hnone _ Hg Hp)].
      exists r. split; [reflexivity |].
      destruct (Hsome _ _ Hg) as [Hin <-]. apply Hsync. assumption. }
    destruct (syncFiles_unchanged dbRecords currentFiles Hall []
                (add_db_call SelectAll sA))
      as (processedFiles & sC & Hloop & HsameC).
    rewrite Hloop.
    pose proof (syncFiles_processed _ _ _ _ _ _ Hloop) as Hproc.
    rewrite removeStale_unchanged.
    + exists sC. split; [reflexivity |].
      destruct HsameC as (_ & _ & HfilesC & HseqC & HcallsC & HemitC).
      cbn in HfilesC, HseqC, HcallsC, HemitC.
      repeat split; congruence.
    + intros q Hq. apply Hproc. right. apply Hpaths, Hkeys. assumption.
  - destruct Hget as (_ & _ & [Hclosed | Hfault]); congruence.
Qed.

(** Any one failure makes the pass throw, and a pass that throws has
    deleted nothing unless its last statement is a rejected DELETE. *)
Lemma performInitialSync_throws s :
  (unreadable_below (root (filesystem w)) ->
   exists e s1,
     scanDirectory (watchFolder w) (root (filesystem w)) s = (Throw e, s1)
     /\ performInitialSync sha256_hex w s
        = (Throw e, add_console_error (InitialSyncFailed, e) s1)
     /\ same_store s s1)
  /\
  (forall currentFiles,
     fst (scanDirectory (watchFolder w) (root (filesystem w)) s) = Ok currentFiles ->
     table_wf (files s) ->
     (forall p,
        In p currentFiles ->
        (stat (filesystem w) p = None \/ readFile (filesystem w) p = None)
        \/ (~ In p (paths s) /\ db_fault w (InsertInto p) = true)
        \/ (exists row, In row (files s) /\ file_path row = p
                        /\ ~ in_sync sha256_hex w row
                        /\ db_fault w (UpdateWhere p) = true) ->
        exists e s',
          performInitialSync sha256_hex w s = (Throw e, s')
          /\ no_delete s s')
     /\
     (forall q,
        In q (paths s) -> ~ In q currentFiles ->
        db_fault w (DeleteWhere q) = true ->
        exists e s', performInitialSync sha256_hex w s = (Throw e, s')))
  /\
  (forall e s',
     performInitialSync sha256_hex w s = (Throw e, s') ->
     In (InitialSyncFailed, e) (console_error s')
     /\ (no_delete s s'
         \/ exists q before,
              db_calls s' = before ++ [DeleteWhere q]
              /\ db_fault w (DeleteWhere q) = true)).
Proof.
  destruct (scanDirectory_result (root (filesystem w)) (watchFolder w) s)
    as [Hres Hsame].
  split; [| split].
  - intros Hbad.
    destruct (scan_result_unreadable _ Hbad (watchFolder w)) as [e He].
    rewrite performInitialSync_stages.
    destruct (scanDirectory (watchFolder w) (root (filesystem w)) s)
      as [[found | e'] s1]; cbn [fst snd] in Hres, Hsame;
      rewrite He in Hres; [discriminate |].
    injection Hres as ->. exists e, s1. auto.
  - intros currentFiles Hscan Hwf. rewrite performInitialSync_stages.
    destruct (scanDirectory (watchFolder w) (root (filesystem w)) s)
      as [[found | e'] s1]; cbn [fst snd] in Hres, Hsame, Hscan;
      [| discriminate].
    injection Hscan as ->.
    pose proof Hsame as (_ & _ & Hfiles1 & _).
    pose proof (getAllFileRecords_spec s1) as Hget.
    destruct (getAllFileRecords w s1) as [[dbRecords | e] s2].
    + destruct Hget as (Hdb1 & _ & Hsnap & ->). rewrite Hfiles1 in Hsnap.
      pose proof Hsnap as (Hnone & Hsome & Hkeys).
      pose proof (syncFiles_no_delete dbRecords currentFiles []
                    (add_db_call SelectAll s1)) as Hnd.
      pose proof (syncFiles_processed dbRecords currentFiles []
                    (add_db_call SelectAll s1)) as Hproc.
      split.
      * intros p Hp Hbad.
        destruct (syncFiles_throws dbRecords
                    (fun p =>
                       (stat (filesystem w) p = None
                        \/ readFile (filesystem w) p = None)
                       \/ (~ In p (paths s) /\ db_fault w (InsertInto p) = true)
                       \/ (exists row, In row (files s) /\ file_path row = p
                                       /\ ~ in_sync sha256_hex w row
                                       /\ db_fault w (UpdateWhere p) = true)))
          with (currentFiles := currentFiles) (p := p)
               (processedFiles := @nil string) (s := add_db_call SelectAll s1)
          as (e & s3 & Hthrow); [| assumption | assumption |].
        -- clear p Hp Hbad. intros p s0 [Hio | [[Hnew Hfault] | Hupd]].
           ++ apply syncFile_throws_unreadable. assumption.
           ++ apply syncFile_throws_insert; [| assumption].
              destruct (map_get dbRecords p) as [r |] eqn:Hg; [| reflexivity].
              exfalso. apply Hnew. destruct (Hsome _ _ Hg) as [Hin <-].
              apply in_map. assumption.
           ++ destruct Hupd as (row & Hin & Hpath & Hstale & Hfault).
              destruct (map_get dbRecords p) as [r |] eqn:Hg.
              ** apply (syncFile_throws_update _ _ r); [assumption | | assumption].
                 destruct (Hsome _ _ Hg) as [Hin' Hpath'].
                 assert (r = row) as ->
                   by (apply (unique_row (files s)); auto; congruence).
                 unfold in_sync in Hstale. rewrite Hpath in Hstale. assumption.
              ** exfalso. apply (Hnone _ Hg). rewrite <- Hpath.
                 apply in_map. assumption.
        -- rewrite Hthrow in *. cbn [snd] in Hnd.
           do 2 eexists. split; [reflexivity |].
           eapply no_delete_trans; [apply same_store_no_delete; eassumption |].
           eapply no_delete_trans; [apply no_delete_select |].
           eapply no_delete_trans; [eassumption | apply no_delete_console].
      * intros q Hq Hnot Hfault.
        destruct (syncFiles sha256_hex w currentFiles dbRecords []
                    (add_db_call SelectAll s1)) as [[processedFiles | e] s3];
          [| eauto].
        destruct (removeStale_throws dbRecords processedFiles q) with (s := s3)
          as (e & s4 & ->); [apply Hkeys; assumption | | assumption | eauto].
        destruct (set_has processedFiles q) eqn:Hhas; [| reflexivity].
        apply (Hproc _ _ eq_refl) in Hhas as [Hhas | Hhas];
          [discriminate | contradiction].
    + split; [intros p Hp Hbad | intros q Hq Hnot Hfault]; [| eauto].
      do 2 eexists. split; [reflexivity |].
      destruct Hget as (_ & Hnd & _).
      eapply no_delete_trans; [apply same_store_no_delete; eassumption |].
      eapply no_delete_trans; [eassumption | apply no_delete_console].
  - intros e s'. rewrite performInitialSync_stages.
    destruct (scanDirectory (watchFolder w) (root (filesystem w)) s)
      as [[found | e'] s1]; cbn [fst snd] in Hres, Hsame.
    + pose proof (getAllFileRecords_spec s1) as Hget.
      destruct (getAllFileRecords w s1) as [[dbRecords | e1] s2].
      * destruct Hget as (Hdb1 & _ & _ & ->).
        pose proof (syncFiles_no_delete dbRecords found []
                      (add_db_call SelectAll s1)) as Hnd.
        destruct (syncFiles sha256_hex w found dbRecords []
                    (add_db_call SelectAll s1)) as [[processedFiles | e2] s3];
          cbn [snd] in Hnd.
        -- destruct (removeStale w dbRecords processedFiles s3)
             as [[[] | e3] s4] eqn:Hrm; [discriminate |].
           intros Heq. injection Heq as <- <-. cbn.
           split; [apply in_or_app; right; left; reflexivity |].
           right.
           destruct (removeStale_throw_last _ _ _ _ _ Hrm)
             as (q & before & Hcalls & Hfault);
             [destruct Hnd as (Hdb3 & _); cbn in Hdb3; congruence |].
           exists q, before. auto.
        -- intros Heq. injection Heq as <- <-. cbn.
           split; [apply in_or_app; right; left; reflexivity |].
           left.
           eapply no_delete_trans; [apply same_store_no_delete; eassumption |].
           eapply no_delete_trans; [apply no_delete_select |].
           eapply no_delete_trans; [eassumption | apply no_delete_console].
      * intros Heq. injection Heq as <- <-. cbn.
        split; [apply in_or_app; right; left; reflexivity |].
        left. destruct Hget as (_ & Hnd & _).
        eapply no_delete_trans; [apply same_store_no_delete; eassumption |].
        eapply no_delete_trans; [eassumption | apply no_delete_console].
    + intros Heq. injection Heq as <- <-. cbn.
      split; [apply in_or_app; right; left; reflexivity |].
      left. apply same_store_no_delete. assumption.
Qed.

(** *** Where a pass that fails stops *)

Lemma only_attempted_trans p l1 l2 s1 s2 s3 :
  only_attempted p l1 s1 s2 -> only_attempted p l2 s2 s3 ->
  only_attempted p (l1 ++ l2) s1 s3.
Proof.
  unfold only_attempted.
  intros (A1 & A2 & A3 & A4 & A5 & A6 & ca & A7 & A8)
         (B1 & B2 & B3 & B4 & B5 & B6 & cb & B7 & B8).
  repeat (split; [congruence |]).
  split; [rewrite B6, A6, app_assoc; reflexivity |].
  exists (ca ++ cb). split; [rewrite B7, A7, app_assoc; reflexivity |].
  intros c Hc. apply in_app_iff in Hc as [Hc | Hc]; auto.
Qed.

Ltac only_attempted_here :=
  unfold only_attempted; cbn;
  repeat (split; [rewrite ?app_nil_r; reflexivity |]);
  rewrite <- ?app_assoc;
  first [ eexists; split; [reflexivity |]; cbn; intuition (subst; auto)
        | exists []; split; [rewrite app_nil_r; reflexivity | intros c []] ].

Lemma hasFileChanged_only_attempted filePath dbRecord s :
  only_attempted filePath [] s
    (snd (hasFileChanged sha256_hex w filePath dbRecord s)).
Proof.
  unfold hasFileChanged, fs_stat, calculateChecksum, fs_readFile. run.
  destruct (stat (filesystem w) filePath) as [stats |]; cbn;
    [| only_attempted_here].
  destruct (negb (st_size stats =? size dbRecord)%Z
            || negb (st_mtime_ms stats / 1000 =? modified_time dbRecord)%Z);
    cbn; [only_attempted_here |].
  destruct (readFile (filesystem w) filePath); cbn; only_attempted_here.
Qed.

Lemma syncFile_stat_fails dbRecords filePath s :
  stat (filesystem w) filePath = None ->
  exists s',
    syncFile sha256_hex w dbRecords filePath s
    = (Throw (FsError (Stat filePath)), s')
    /\ only_attempted filePath [] s s'.
Proof.
  intros Hstat. unfold syncFile.
  destruct (map_get dbRecords filePath) as [dbRecord |].
  - unfold bind at 1. rewrite (hasFileChanged_stat_fails _ _ _ _ _ Hstat).
    cbv beta iota. unfold bind at 1.
    rewrite (createFileRecord_stat_fails _ _ _ _ Hstat).
    eexists. split; [reflexivity |]. only_attempted_here.
  - unfold bind at 1. rewrite (createFileRecord_stat_fails _ _ _ _ Hstat).
    eexists. split; [reflexivity |]. only_attempted_here.
Qed.

Lemma syncFile_read_fails dbRecords filePath stats s :
  stat (filesystem w) filePath = Some stats ->
  readFile (filesystem w) filePath = None ->
  exists s',
    syncFile sha256_hex w dbRecords filePath s
    = (Throw (FsError (ReadFile filePath)), s')
    /\ only_attempted filePath [] s s'.
Proof.
  intros Hstat Hread. unfold syncFile.
  destruct (map_get dbRecords filePath) as [dbRecord |].
  - unfold bind at 1.
    pose proof (hasFileChanged_only_attempted filePath dbRecord s) as Hone.
    destruct (hasFileChanged_spec filePath dbRecord s)
      as (changed & s1 & Hrun & _ & Hiff).
    rewrite Hrun in *. cbn [snd] in Hone.
    destruct changed.
    + cbv beta iota. unfold bind at 1.
      rewrite (createFileRecord_read_fails _ _ _ _ _ Hstat Hread).
      eexists. split; [reflexivity |].
      apply (only_attempted_trans filePath [] [] _ _ _ Hone).
      only_attempted_here.
    + destruct (proj1 Hiff eq_refl) as (stats' & data & _ & Hdata & _).
      congruence.
  - unfold bind at 1.
    rewrite (createFileRecord_read_fails _ _ _ _ _ Hstat Hread).
    eexists. split; [reflexivity |]. only_attempted_here.
Qed.

Lemma syncFile_insert_fails dbRecords filePath stats data s :
  db s = true ->
  stat (filesystem w) filePath = Some stats ->
  readFile (filesystem w) filePath = Some data ->
  map_get dbRecords filePath = None ->
  db_fault w (InsertInto filePath) = true ->
  exists s',
    syncFile sha256_hex w dbRecords filePath s
    = (Throw (SqliteError (InsertInto filePath)), s')
    /\ only_attempted filePath [InsertInto filePath] s s'.
Proof.
  intros Hdb Hstat Hread Hget Hfault. unfold syncFile. rewrite Hget.
  unfold bind at 1. rewrite (createFileRecord_ok _ _ _ _ _ _ Hstat Hread).
  rewrite insertFileRecord_fault by (cbn; assumption).
  eexists. split; [reflexivity |]. only_attempted_here.
Qed.

Lemma syncFile_update_fails dbRecords filePath stats data dbRecord s :
  db s = true ->
  stat (filesystem w) filePath = Some stats ->
  readFile (filesystem w) filePath = Some data ->
  map_get dbRecords filePath = Some dbRecord ->
  ~ file_matches sha256_hex w filePath dbRecord ->
  db_fault w (UpdateWhere filePath) = true ->
  exists s',
    syncFile sha256_hex w dbRecords filePath s
    = (Throw (SqliteError (UpdateWhere filePath)), s')
    /\ only_attempted filePath [UpdateWhere filePath] s s'.
Proof.
  intros Hdb Hstat Hread Hget Hstale Hfault. unfold syncFile. rewrite Hget.
  unfold bind at 1.
  pose proof (hasFileChanged_only_attempted filePath dbRecord s) as Hone.
  destruct (hasFileChanged_spec filePath dbRecord s)
    as (changed & s1 & Hrun & _ & Hiff).
  rewrite Hrun in *. cbn [snd] in Hone.
  destruct changed; [| exfalso; apply Hstale, Hiff; reflexivity].
  cbv beta iota. unfold bind at 1.
  rewrite (createFileRecord_ok _ _ _ _ _ _ Hstat Hread).
  cbv beta iota. unfold bind at 1.
  assert (Hdb1 : db s1 = true) by (destruct Hone as (-> & _); exact Hdb).
  rewrite updateFileRecord_fault by (cbn; assumption).
  eexists. split; [reflexivity |].
  apply (only_attempted_trans filePath [] [UpdateWhere filePath] _ _ _ Hone).
  only_attempted_here.
Qed.

Lemma syncFile_file_failure dbRecords filePath e stmts s :
  db s = true ->
  file_failure sha256_hex w dbRecords filePath e stmts ->
  exists s',
    syncFile sha256_hex w dbRecords filePath s = (Throw e, s')
    /\ only_attempted filePath stmts s s'.
Proof.
  intros Hdb [Hstat | stats Hstat Hread | stats data Hstat Hread Hget Hfault
             | stats data dbRecord Hstat Hread Hget Hstale Hfault].
  - apply syncFile_stat_fails. assumption.
  - apply (syncFile_read_fails _ _ stats); assumption.
  - apply (syncFile_insert_fails _ _ stats data); assumption.
  - apply (syncFile_update_fails _ _ stats data dbRecord); assumption.
Qed.

(** The loops stop at the step that throws. *)
Lemma syncFiles_app dbRecords before rest :
  forall processedFiles s processed sb,
    syncFiles sha256_hex w before dbRecords processedFiles s
    = (Ok processed, sb) ->
    syncFiles sha256_hex w (before ++ rest) dbRecords processedFiles s
    = syncFiles sha256_hex w rest dbRecords processed sb.
Proof.
  induction before as [| filePath before IH];
    intros processedFiles s processed sb; cbn [syncFiles app].
  - intros Heq. injection Heq as <- <-. reflexivity.
  - unfold bind.
    destruct (syncFile sha256_hex w dbRecords filePath s) as [[[] | e] s1];
      [apply IH | discriminate].
Qed.

Lemma removeStale_app (before rest : JsMap FileRecord) processedFiles :
  forall s sb,
    removeStale w before processedFiles s = (Ok tt, sb) ->
    removeStale w (before ++ rest) processedFiles s
    = removeStale w rest processedFiles sb.
Proof.
  induction before as [| [k v] before IH]; intros s sb;
    cbn [removeStale app].
  - intros Heq. injection Heq as <-. reflexivity.
  - unfold bind.
    destruct ((if negb (set_has processedFiles k)
               then removeFileRecord w k else ret tt) s) as [[[] | e] s1];
      [apply IH | discriminate].
Qed.

(** C6.  The initial pass is all or nothing, and it stops where it
    fails.
    (1) A directory that cannot be read, anywhere below the watch
        folder, makes the scan throw the error of that [readdir]: no
        list of files is returned, the pass throws the same error, logs
        it as the failure of the pass, and the store is untouched.
    (2) With the scan done and the rows fetched, let [p] be a scanned
        file and let the files before it have been handled without a
        failure.  If [p] cannot be inspected, or is new and its INSERT is
        rejected, or has changed and its UPDATE is rejected, the pass
        throws exactly that error: of [stat], of [readFile], of the
        INSERT or of the UPDATE for [p].  It stops there: after the
        files before [p] the only statement issued is the rejected one,
        the only file inspected is [p], the table and the events are as
        the files before [p] left them, so no later file is handled and
        nothing is deleted.
    (3) With all scanned files handled, let [q] be a stale row whose
        DELETE is rejected, the stale rows before it having been
        removed.  The pass throws the error of that DELETE and stops:
        the rejected DELETE is its last statement and no later row is
        removed.
    (4) One such failure anywhere is enough to make the pass throw.
    (5) Whenever the pass throws, the error is logged as the failure of
        the pass, and either nothing was deleted or the last statement
        issued is the DELETE that was rejected. *)
Theorem performInitialSync_fails_fast s :
  (unreadable_below (root (filesystem w)) ->
   exists dirPath s1,
     scanDirectory (watchFolder w) (root (filesystem w)) s
     = (Throw (FsError (Readdir dirPath)), s1)
     /\ performInitialSync sha256_hex w s
        = (Throw (FsError (Readdir dirPath)),
           add_console_error (InitialSyncFailed, FsError (Readdir dirPath)) s1)
     /\ same_store s s1)
  /\
  (forall before p after s1 dbRecords s2 processedFiles sb e stmts,
     scanDirectory (watchFolder w) (root (filesystem w)) s
     = (Ok (before ++ p :: after), s1) ->
     getAllFileRecords w s1 = (Ok dbRecords, s2) ->
     syncFiles sha256_hex w before dbRecords [] s2 = (Ok processedFiles, sb) ->
     file_failure sha256_hex w dbRecords p e stmts ->
     exists s',
       performInitialSync sha256_hex w s = (Throw e, s')
       /\ only_attempted p stmts sb s'
       /\ In (InitialSyncFailed, e) (console_error s')
       /\ no_delete s s')
  /\
  (forall currentFiles s1 before q dbRecord after s2 processedFiles s3 sb,
     scanDirectory (watchFolder w) (root (filesystem w)) s
     = (Ok currentFiles, s1) ->
     getAllFileRecords w s1 = (Ok (before ++ (q, dbRecord) :: after), s2) ->
     syncFiles sha256_hex w currentFiles (before ++ (q, dbRecord) :: after) [] s2
     = (Ok processedFiles, s3) ->
     removeStale w before processedFiles s3 = (Ok tt, sb) ->
     ~ In q currentFiles ->
     db_fault w (DeleteWhere q) = true ->
     exists s',
       performInitialSync sha256_hex w s
       = (Throw (SqliteError (DeleteWhere q)), s')
       /\ only_attempted q [DeleteWhere q] sb s'
       /\ In (InitialSyncFailed, SqliteError (DeleteWhere q)) (console_error s'))
  /\
  (forall currentFiles,
     fst (scanDirectory (watchFolder w) (root (filesystem w)) s) = Ok currentFiles ->
     table_wf (files s) ->
     (forall p,
        In p currentFiles ->
        (stat (filesystem w) p = None \/ readFile (filesystem w) p = None)
        \/ (~ In p (paths s) /\ db_fault w (InsertInto p) = true)
        \/ (exists row, In row (files s) /\ file_path row = p
                        /\ ~ in_sync sha256_hex w row
                        /\ db_fault w (UpdateWhere p) = true) ->
        exists e s',
          performInitialSync sha256_hex w s = (Throw e, s')
          /\ no_delete s s')
     /\
     (forall q,
        In q (paths s) -> ~ In q currentFiles ->
        db_fault w (DeleteWhere q) = true ->
        exists e s', performInitialSync sha256_hex w s = (Throw e, s')))
  /\
  (forall e s',
     performInitialSync sha256_hex w s = (Throw e, s') ->
     In (InitialSyncFailed, e) (console_error s')
     /\ (no_delete s s'
         \/ exists q before,
              db_calls s' = before ++ [DeleteWhere q]
              /\ db_fault w (DeleteWhere q) = true)).
Proof.
  destruct (performInitialSync_throws s) as (_ & Hany & Hlogged).
  split; [| split; [| split; [| split; [exact Hany | exact Hlogged]]]].
  - intros Hbad.
    destruct (scanDirectory_result (root (filesystem w)) (watchFolder w) s)
      as [Hres Hsame].
    destruct (scan_result_unreadable _ Hbad (watchFolder w)) as [e He].
    destruct (scan_result_readdir _ _ _ He) as [dirPath ->].
    rewrite performInitialSync_stages.
    destruct (scanDirectory (watchFolder w) (root (filesystem w)) s)
      as [[found | e'] s1]; cbn [fst snd] in Hres, Hsame;
      rewrite He in Hres; [discriminate |].
    injection Hres as ->. exists dirPath, s1. auto.
  - intros before p after s1 dbRecords s2 processedFiles sb e stmts
      Hscan Hget Hloop Hfail.
    pose proof (scanDirectory_result (root (filesystem w)) (watchFolder w) s)
      as [_ Hsame].
    rewrite Hscan in Hsame. cbn [snd] in Hsame.
    pose proof (getAllFileRecords_spec s1) as Hspec. rewrite Hget in Hspec.
    destruct Hspec as (Hdb1 & _ & _ & ->).
    pose proof (syncFiles_no_delete dbRecords before []
                  (add_db_call SelectAll s1)) as Hnd.
    rewrite Hloop in Hnd. cbn [snd] in Hnd.
    assert (Hdbb : db sb = true)
      by (destruct Hnd as (-> & _); cbn; exact Hdb1).
    destruct (syncFile_file_failure dbRecords p e stmts sb Hdbb Hfail)
      as (sp & Hfile & Hone).
    pose proof (syncFile_no_delete dbRecords p sb) as Hndp.
    rewrite Hfile in Hndp. cbn [snd] in Hndp.
    rewrite performInitialSync_stages, Hscan, Hget,
      (syncFiles_app _ _ _ _ _ _ _ Hloop).
    cbn [syncFiles]. unfold bind at 1. rewrite Hfile.
    eexists. split; [reflexivity |]. split; [| split].
    + destruct Hone as (A1 & A2 & A3 & A4 & A5 & A6 & A7).
      unfold only_attempted. cbn. auto 10.
    + cbn. apply in_or_app. right. left. reflexivity.
    + eapply no_delete_trans; [apply same_store_no_delete; exact Hsame |].
      eapply no_delete_trans; [apply no_delete_select |].
      eapply no_delete_trans; [exact Hnd |].
      eapply no_delete_trans; [exact Hndp | apply no_delete_console].
  - intros currentFiles s1 before q dbRecord after s2 processedFiles s3 sb
      Hscan Hget Hloop Hrm Hstale Hfault.
    pose proof (getAllFileRecords_spec s1) as Hspec. rewrite Hget in Hspec.
    destruct Hspec as (Hdb1 & _ & _ & ->).
    pose proof (syncFiles_no_delete (before ++ (q, dbRecord) :: after)
                  currentFiles [] (add_db_call SelectAll s1)) as Hnd.
    rewrite Hloop in Hnd. cbn [snd] in Hnd.
    destruct (removeStale_ok _ _ _ _ Hrm) as (_ & _ & Hdbb).
    assert (Hdb : db sb = true)
      by (rewrite Hdbb; destruct Hnd as (-> & _); cbn; exact Hdb1).
    assert (Hhas : set_has processedFiles q = false).
    { destruct (set_has processedFiles q) eqn:Hq; [| reflexivity].
      apply (syncFiles_processed _ _ _ _ _ _ Hloop) in Hq as [Hq | Hq];
        [discriminate | contradiction]. }
    rewrite performInitialSync_stages, Hscan, Hget, Hloop,
      (removeStale_app _ _ _ _ _ Hrm).
    cbn [removeStale]. unfold bind at 1. rewrite Hhas. cbn [negb].
    rewrite (removeFileRecord_fault _ _ _ Hdb Hfault).
    eexists. split; [reflexivity |]. split.
    + only_attempted_here.
    + cbn. apply in_or_app. right. left. reflexivity.
Qed.

End Reconciliation.

(** ** Dot-files: scanned at startup, ignored by the watcher *)

Section DotFiles.

Variable sha256_hex : string -> string.
Variable w : World.

Lemma start_ok s s1 :
  start sha256_hex w s = (Ok tt, s1) ->
  exists s0 s2,
    files s0 = files s
    /\ performInitialSync sha256_hex w s0 = (Ok tt, s2)
    /\ s1 = set_watcher
              (Some (spread (spread defaultOptions (watchOptions w))
                            (mkChokidarOptions None (Some true) (Some true))))
              s2.
Proof.
  unfold start, logged at 1, try_catch at 1. unfold bind at 1.
  destruct (initializeDatabase w s) as [[[] | e] s0] eqn:Hinit;
    [| discriminate].
  unfold bind at 1.
  destruct (performInitialSync sha256_hex w s0) as [[[] | e] s2] eqn:Hsync;
    [| discriminate].
  unfold startWatching, modify. intros Heq. injection Heq as <-.
  exists s0, s2. split; [| auto].
  revert Hinit. unfold initializeDatabase. run.
  destruct (db_fault w OpenDatabase); cbn; [discriminate |].
  destruct (db_fault w CreateTables); cbn; [discriminate |].
  intros Heq. injection Heq as <-. reflexivity.
Qed.

(** X19.  Take a regular file below the watch folder whose name is a
    dot followed by a character other than a line terminator.  When
    [start()] succeeds the table has a row for it.  With no
    [ignored] option given, a change or an unlink event for it is not
    delivered: the state is left as it is.  With an [ignored] option
    that does not match its path, the same events reach the handlers. *)
Theorem dotfile_recorded_but_not_watched name p s s1 :
  dot_and_one_more name = true ->
  file_in (watchFolder w) (root (filesystem w)) name p ->
  table_wf (files s) ->
  start sha256_hex w s = (Ok tt, s1) ->
  In p (paths s1)
  /\ (ignored (watchOptions w) = None ->
      deliver sha256_hex w (on_change p) s1 = (Ok tt, s1)
      /\ deliver sha256_hex w (on_unlink p) s1 = (Ok tt, s1))
  /\ (forall matcher,
        ignored (watchOptions w) = Some matcher -> matcher p = false ->
        deliver sha256_hex w (on_change p) s1
        = handleFileAddOrChange sha256_hex w p s1
        /\ deliver sha256_hex w (on_unlink p) s1 = removeFileRecord w p s1).
Proof.
  intros Hdot Hfile Hwf Hstart.
  destruct (start_ok _ _ Hstart) as (s0 & s2 & Hfiles0 & Hsync & ->).
  rewrite <- Hfiles0 in Hwf.
  destruct (performInitialSync_result sha256_hex w s0 s2 Hwf Hsync)
    as (currentFiles & Hscan & _ & Hpaths & _).
  split; [| split].
  - change (In p (paths s2)). apply Hpaths.
    apply (scan_result_complete _ _ _ _ Hfile _ Hscan).
  - intros Hdefault. unfold deliver, is_ignored. cbn. rewrite Hdefault. cbn.
    destruct (file_in_path_join _ _ _ _ Hfile) as [d ->].
    rewrite ignore_dotfiles_path_join by assumption. split; reflexivity.
  - intros matcher Hgiven Hmiss. unfold deliver, is_ignored. cbn.
    rewrite Hgiven. cbn. rewrite Hmiss. split; reflexivity.
Qed.

End DotFiles.

(** * The theorems at work on the small world *)

Lemma hasFileChanged_cheap_first_witness :
  stat (filesystem demo_world) "/w/a.txt" = Some (mkStats 5 1700000000123)
  /\ (exists s',
        hasFileChanged demo_digest demo_world "/w/a.txt" demo_other_row
          empty_store = (Ok true, s')
        /\ fs_calls s' = [Stat "/w/a.txt"]
        /\ console_error s' = [])
  /\ exists changed s',
       hasFileChanged demo_digest demo_world "/w/a.txt" demo_old_row empty_store
       = (Ok changed, s')
       /\ fs_calls s' = [Stat "/w/a.txt"; ReadFile "/w/a.txt"]
       /\ (changed = true <-> demo_digest "AAAAA" <> checksum demo_old_row).
Proof.
  split; [reflexivity |]. split.
  - apply (hasFileChanged_cheap_first demo_digest demo_world "/w/a.txt"
             demo_other_row (mkStats 5 1700000000123) empty_store eq_refl).
    left. cbn. lia.
  - apply (hasFileChanged_cheap_first demo_digest demo_world "/w/a.txt"
             demo_old_row (mkStats 5 1700000000123) empty_store eq_refl);
      reflexivity.
Defined.

Lemma hasFileChanged_conservative_witness :
  (stat (filesystem demo_world) "/w/gone.txt" = None
   \/ readFile (filesystem demo_world) "/w/gone.txt" = None)
  /\ exists s',
       hasFileChanged demo_digest demo_world "/w/gone.txt" demo_other_row
         demo_store = (Ok true, s')
       /\ files s' = files demo_store /\ emitted s' = emitted demo_store.
Proof.
  split; [left; reflexivity |].
  apply (hasFileChanged_conservative demo_digest demo_world "/w/gone.txt"
           demo_other_row demo_store).
  left. reflexivity.
Defined.

Lemma removeFileRecord_idempotent_witness :
  db demo_store = true
  /\ db_fault demo_world (DeleteWhere "/w/gone.txt") = false
  /\ exists s1 s2,
       removeFileRecord demo_world "/w/gone.txt" demo_store = (Ok tt, s1)
       /\ (forall row,
             In row (files s1)
             <-> In row (files demo_store) /\ file_path row <> "/w/gone.txt")
       /\ (~ In "/w/gone.txt" (map file_path (files demo_store)) ->
           files s1 = files demo_store)
       /\ removeFileRecord demo_world "/w/gone.txt" s1 = (Ok tt, s2)
       /\ files s2 = files s1.
Proof.
  split; [reflexivity |]. split; [reflexivity |].
  apply (removeFileRecord_idempotent demo_world "/w/gone.txt" demo_store);
    reflexivity.
Defined.

Lemma updateFileRecord_frame_witness :
  updateFileRecord demo_world demo_fresh_record demo_store
  = (Ok demo_fresh_record,
     snd (updateFileRecord demo_world demo_fresh_record demo_store))
  /\ nth_error
       (files (snd (updateFileRecord demo_world demo_fresh_record demo_store))) 1
     = Some demo_other_row
  /\ exists row',
       nth_error
         (files (snd (updateFileRecord demo_world demo_fresh_record demo_store)))
         0 = Some row'
       /\ id row' = Some 1%Z /\ created_at row' = "2025-06-01T08:00:00Z"
       /\ checksum row' = "sha256(AAAAA)".
Proof.
  assert (Hrun : updateFileRecord demo_world demo_fresh_record demo_store
                 = (Ok demo_fresh_record,
                    snd (updateFileRecord demo_world demo_fresh_record
                           demo_store))) by reflexivity.
  destruct (updateFileRecord_frame demo_world demo_fresh_record demo_store
              _ _ Hrun) as [_ Hrows].
  split; [exact Hrun |]. split.
  - destruct (Hrows 1%nat demo_other_row eq_refl)
      as (row' & Hnth & _ & _ & _ & Hsame & _).
    rewrite Hnth. f_equal. apply Hsame. cbn. discriminate.
  - destruct (Hrows 0%nat demo_old_row eq_refl)
      as (row' & Hnth & Hid & _ & Hcreated & _ & Hnew).
    exists row'. split; [exact Hnth |].
    destruct (Hnew eq_refl) as (_ & _ & Hsum & _).
    split; [exact Hid |]. split; [exact Hcreated | exact Hsum].
Defined.

Lemma add_event_for_untracked_path_inserts_nothing_witness :
  db empty_store = true
  /\ ~ In "/w/a.txt" (map file_path (files empty_store))
  /\ exists s',
       handleFileAddOrChange demo_digest demo_world "/w/a.txt" empty_store
       = (Ok tt, s')
       /\ db_calls s' = [UpdateWhere "/w/a.txt"]
       /\ files s' = []
       /\ emitted s' = [file_updated demo_fresh_record].
Proof.
  split; [reflexivity |]. split; [intros [] |].
  destruct (add_event_for_untracked_path_inserts_nothing demo_digest demo_world
              "/w/a.txt" (mkStats 5 1700000000123) "AAAAA" empty_store
              eq_refl eq_refl eq_refl eq_refl (fun H : False => H))
    as (s' & Hrun & Hcalls & Hfiles & _ & Hemitted & _).
  exists s'. auto.
Defined.

Lemma unlink_failure_escapes_listener_witness :
  watcher demo_watching = Some demo_watch_options
  /\ is_ignored demo_watch_options "/w/a.txt" = false
  /\ db demo_watching = true
  /\ db_fault demo_world_delete_fails (DeleteWhere "/w/a.txt") = true
  /\ exists s',
       watch_loop demo_digest demo_world_delete_fails
         [on_unlink "/w/a.txt"; on_unlink "/w/gone.txt"] demo_watching
       = (Exited 0, s')
       /\ files s' = [demo_old_row; demo_other_row].
Proof.
  repeat (split; [reflexivity |]).
  destruct (unlink_failure_escapes_listener demo_digest demo_world_delete_fails
              "/w/a.txt" [on_unlink "/w/gone.txt"] demo_watch_options
              demo_watching eq_refl eq_refl eq_refl eq_refl)
    as (_ & code & s' & Hloop & Hfiles & _ & Hclosed & _).
  destruct (Hclosed eq_refl eq_refl) as [-> _].
  exists s'. auto.
Defined.

Lemma demo_store_wf : table_wf (files demo_store).
Proof.
  unfold table_wf. cbn.
  repeat constructor; cbn; intuition discriminate.
Qed.

Lemma performInitialSync_complete_witness :
  table_wf (files demo_store)
  /\ performInitialSync demo_digest demo_world demo_store
     = (Ok tt, snd (performInitialSync demo_digest demo_world demo_store))
  /\ exists currentFiles,
       fst (scanDirectory (watchFolder demo_world)
              (root (filesystem demo_world)) demo_store) = Ok currentFiles
       /\ (forall p, In p currentFiles ->
             exists row,
               filter (has_path p)
                 (files (snd (performInitialSync demo_digest demo_world
                                demo_store))) = [row]
               /\ file_path row = p)
       /\ (forall p, ~ In p currentFiles ->
             filter (has_path p)
               (files (snd (performInitialSync demo_digest demo_world
                              demo_store))) = []).
Proof.
  assert (Hrun : performInitialSync demo_digest demo_world demo_store
                 = (Ok tt,
                    snd (performInitialSync demo_digest demo_world demo_store)))
    by (vm_compute; reflexivity).
  split; [exact demo_store_wf |]. split; [exact Hrun |].
  apply (performInitialSync_complete demo_digest demo_world demo_store _
           demo_store_wf Hrun).
Defined.

Lemma performInitialSync_twice_witness :
  table_wf (files demo_store)
  /\ performInitialSync demo_digest demo_world demo_store
     = (Ok tt, snd (performInitialSync demo_digest demo_world demo_store))
  /\ exists s2,
       performInitialSync demo_digest demo_world
         (snd (performInitialSync demo_digest demo_world demo_store))
       = (Ok tt, s2)
       /\ db_calls s2
          = db_calls (snd (performInitialSync demo_digest demo_world demo_store))
            ++ [SelectAll].
Proof.
  assert (Hfirst : performInitialSync demo_digest demo_world demo_store
                   = (Ok tt,
                      snd (performInitialSync demo_digest demo_world
                             demo_store)))
    by (vm_compute; reflexivity).
  split; [exact demo_store_wf |]. split; [exact Hfirst |].
  destruct (performInitialSync_twice demo_digest demo_world demo_store _
              demo_store_wf Hfirst) as (s2 & Hrun & Hcalls & _).
  exists s2. auto.
Defined.

Lemma demo_locked_unreadable :
  unreadable_below (root (filesystem demo_world_locked)).
Proof.
  apply (unreadable_sub _ "private" IsUnreadableDirectory).
  - right. left. reflexivity.
  - right. reflexivity.
  - constructor.
Qed.

Lemma demo_old_row_stale :
  ~ file_matches demo_digest demo_world_update_fails "/w/a.txt" demo_old_row.
Proof.
  intros (stats & data & _ & Hread & _ & _ & Hsum).
  vm_compute in Hread. injection Hread as <-. vm_compute in Hsum.
  discriminate Hsum.
Qed.

Lemma performInitialSync_fails_fast_witness :
  (unreadable_below (root (filesystem demo_world_locked))
   /\ exists dirPath s1,
        scanDirectory (watchFolder demo_world_locked)
          (root (filesystem demo_world_locked)) demo_store
        = (Throw (FsError (Readdir dirPath)), s1)
        /\ performInitialSync demo_digest demo_world_locked demo_store
           = (Throw (FsError (Readdir dirPath)),
              add_console_error
                (InitialSyncFailed, FsError (Readdir dirPath)) s1)
        /\ same_store demo_store s1)
  /\ (stat (filesystem demo_world_ghost) "/w/ghost.txt" = None
      /\ exists s',
           performInitialSync demo_digest demo_world_ghost demo_store
           = (Throw (FsError (Stat "/w/ghost.txt")), s')
           /\ db_calls s' = [SelectAll; UpdateWhere "/w/a.txt"]
           /\ emitted s' = [file_updated
                              (mkFileRecord (Some 1%Z) "/w/a.txt" 5 1700000000
                                 "sha256(AAAAA)" "2025-06-15T10:00:00Z"
                                 "2025-06-15T10:00:00Z")])
  /\ (db_fault demo_world_insert_fails (InsertInto "/w/.env") = true
      /\ exists s',
           performInitialSync demo_digest demo_world_insert_fails demo_store
           = (Throw (SqliteError (InsertInto "/w/.env")), s')
           /\ db_calls s'
              = [SelectAll; UpdateWhere "/w/a.txt"; InsertInto "/w/.env"]
           /\ map file_path (files s') = ["/w/a.txt"; "/w/gone.txt"])
  /\ (db_fault demo_world_update_fails (UpdateWhere "/w/a.txt") = true
      /\ exists s',
           performInitialSync demo_digest demo_world_update_fails demo_store
           = (Throw (SqliteError (UpdateWhere "/w/a.txt")), s')
           /\ db_calls s' = [SelectAll; UpdateWhere "/w/a.txt"]
           /\ files s' = files demo_store
           /\ fs_calls s'
              = [Readdir "/w"; Readdir "/w/sub"; Stat "/w/a.txt";
                 ReadFile "/w/a.txt"; Stat "/w/a.txt"; ReadFile "/w/a.txt"])
  /\ (db_fault demo_world_delete_fails (DeleteWhere "/w/gone.txt") = true
      /\ exists s',
           performInitialSync demo_digest demo_world_delete_fails demo_store
           = (Throw (SqliteError (DeleteWhere "/w/gone.txt")), s')
           /\ In "/w/gone.txt" (map file_path (files s'))
           /\ In (InitialSyncFailed, SqliteError (DeleteWhere "/w/gone.txt"))
                 (console_error s')).
Proof.
  split; [| split; [| split; [| split]]].
  - split; [exact demo_locked_unreadable |].
    apply (performInitialSync_fails_fast demo_digest demo_world_locked
             demo_store).
    exact demo_locked_unreadable.
  - split; [reflexivity |].
    destruct (performInitialSync_fails_fast demo_digest demo_world_ghost
                demo_store) as (_ & Hfile & _).
    destruct (Hfile ["/w/a.txt"] "/w/ghost.txt" ["/w/.env"]
                (snd (scanDirectory (watchFolder demo_world_ghost)
                        (root (filesystem demo_world_ghost)) demo_store))
                [("/w/a.txt", demo_old_row); ("/w/gone.txt", demo_other_row)]
                (add_db_call SelectAll
                   (snd (scanDirectory (watchFolder demo_world_ghost)
                           (root (filesystem demo_world_ghost)) demo_store)))
                ["/w/a.txt"]
                (snd (syncFiles demo_digest demo_world_ghost ["/w/a.txt"]
                        [("/w/a.txt", demo_old_row);
                         ("/w/gone.txt", demo_other_row)] []
                        (add_db_call SelectAll
                           (snd (scanDirectory (watchFolder demo_world_ghost)
                                   (root (filesystem demo_world_ghost))
                                   demo_store)))))
                (FsError (Stat "/w/ghost.txt")) [])
      as (s' & Hrun & Hone & _);
      [vm_compute; reflexivity | vm_compute; reflexivity
       | vm_compute; reflexivity | apply stat_rejects; reflexivity |].
    destruct Hone as (_ & _ & _ & _ & Hemit & Hcalls & _).
    exists s'. split; [exact Hrun |].
    split; [rewrite Hcalls | rewrite Hemit]; vm_compute; reflexivity.
  - split; [reflexivity |].
    destruct (performInitialSync_fails_fast demo_digest demo_world_insert_fails
                demo_store) as (_ & Hfile & _).
    destruct (Hfile ["/w/a.txt"] "/w/.env"
                [path_join "/w" newline_dotfile; "/w/sub/nested.txt"]
                (snd (scanDirectory (watchFolder demo_world_insert_fails)
                        (root (filesystem demo_world_insert_fails)) demo_store))
                [("/w/a.txt", demo_old_row); ("/w/gone.txt", demo_other_row)]
                (add_db_call SelectAll
                   (snd (scanDirectory (watchFolder demo_world_insert_fails)
                           (root (filesystem demo_world_insert_fails))
                           demo_store)))
                ["/w/a.txt"]
                (snd (syncFiles demo_digest demo_world_insert_fails ["/w/a.txt"]
                        [("/w/a.txt", demo_old_row);
                         ("/w/gone.txt", demo_other_row)] []
                        (add_db_call SelectAll
                           (snd (scanDirectory
                                   (watchFolder demo_world_insert_fails)
                                   (root (filesystem demo_world_insert_fails))
                                   demo_store)))))
                (SqliteError (InsertInto "/w/.env")) [InsertInto "/w/.env"])
      as (s' & Hrun & Hone & _);
      [vm_compute; reflexivity | vm_compute; reflexivity
       | vm_compute; reflexivity
       | apply (insert_rejected _ _ _ _ (mkStats 5 1700000000123) "KEY=1");
         reflexivity |].
    destruct Hone as (_ & _ & Hfiles & _ & _ & Hcalls & _).
    exists s'. split; [exact Hrun |].
    split; [rewrite Hcalls | rewrite Hfiles]; vm_compute; reflexivity.
  - split; [reflexivity |].
    destruct (performInitialSync_fails_fast demo_digest demo_world_update_fails
                demo_store) as (_ & Hfile & _).
    destruct (Hfile [] "/w/a.txt"
                ["/w/.env"; path_join "/w" newline_dotfile; "/w/sub/nested.txt"]
                (snd (scanDirectory (watchFolder demo_world_update_fails)
                        (root (filesystem demo_world_update_fails)) demo_store))
                [("/w/a.txt", demo_old_row); ("/w/gone.txt", demo_other_row)]
                (add_db_call SelectAll
                   (snd (scanDirectory (watchFolder demo_world_update_fails)
                           (root (filesystem demo_world_update_fails))
                           demo_store)))
                []
                (add_db_call SelectAll
                   (snd (scanDirectory (watchFolder demo_world_update_fails)
                           (root (filesystem demo_world_update_fails))
                           demo_store)))
                (SqliteError (UpdateWhere "/w/a.txt")) [UpdateWhere "/w/a.txt"])
      as (s' & Hrun & Hone & _);
      [vm_compute; reflexivity | vm_compute; reflexivity | reflexivity
       | apply (update_rejected _ _ _ _ (mkStats 5 1700000000123) "AAAAA"
                  demo_old_row);
         [reflexivity | reflexivity | reflexivity | exact demo_old_row_stale
          | reflexivity] |].
    assert (Hfs : fs_calls s'
                  = [Readdir "/w"; Readdir "/w/sub"; Stat "/w/a.txt";
                     ReadFile "/w/a.txt"; Stat "/w/a.txt"; ReadFile "/w/a.txt"])
      by (apply (f_equal (fun r => fs_calls (snd r))) in Hrun;
          cbn [snd] in Hrun; rewrite <- Hrun; vm_compute; reflexivity).
    destruct Hone as (_ & _ & Hfiles & _ & _ & Hcalls & _).
    exists s'. split; [exact Hrun |].
    split; [rewrite Hcalls; vm_compute; reflexivity |].
    split; [rewrite Hfiles; reflexivity | exact Hfs].
  - split; [reflexivity |].
    destruct (performInitialSync_fails_fast demo_digest demo_world_delete_fails
                demo_store) as (_ & _ & Hrow & _).
    destruct (Hrow ["/w/a.txt"; "/w/.env"; path_join "/w" newline_dotfile;
                    "/w/sub/nested.txt"]
                (snd (scanDirectory (watchFolder demo_world_delete_fails)
                        (root (filesystem demo_world_delete_fails)) demo_store))
                [("/w/a.txt", demo_old_row)] "/w/gone.txt" demo_other_row []
                (add_db_call SelectAll
                   (snd (scanDirectory (watchFolder demo_world_delete_fails)
                           (root (filesystem demo_world_delete_fails))
                           demo_store)))
                ["/w/a.txt"; "/w/.env"; path_join "/w" newline_dotfile;
                 "/w/sub/nested.txt"]
                (snd (syncFiles demo_digest demo_world_delete_fails
                        ["/w/a.txt"; "/w/.env"; path_join "/w" newline_dotfile;
                         "/w/sub/nested.txt"]
                        [("/w/a.txt", demo_old_row);
                         ("/w/gone.txt", demo_other_row)] []
                        (add_db_call SelectAll
                           (snd (scanDirectory
                                   (watchFolder demo_world_delete_fails)
                                   (root (filesystem demo_world_delete_fails))
                                   demo_store)))))
                (snd (syncFiles demo_digest demo_world_delete_fails
                        ["/w/a.txt"; "/w/.env"; path_join "/w" newline_dotfile;
                         "/w/sub/nested.txt"]
                        [("/w/a.txt", demo_old_row);
                         ("/w/gone.txt", demo_other_row)] []
                        (add_db_call SelectAll
                           (snd (scanDirectory
                                   (watchFolder demo_world_delete_fails)
                                   (root (filesystem demo_world_delete_fails))
                                   demo_store))))))
      as (s' & Hrun & Hone & Hlog);
      [vm_compute; reflexivity | vm_compute; reflexivity
       | vm_compute; reflexivity | vm_compute; reflexivity
       | vm_compute; intuition discriminate | reflexivity |].
    destruct Hone as (_ & _ & Hfiles & _).
    exists s'. split; [exact Hrun |].
    split; [rewrite Hfiles; vm_compute; auto | exact Hlog].
Defined.

Lemma demo_env_file :
  file_in (watchFolder demo_world) (root (filesystem demo_world)) ".env"
          "/w/.env".
Proof.
  apply (file_here "/w" _ ".env"). right. left. reflexivity.
Qed.

Lemma dotfile_recorded_but_not_watched_witness :
  dot_and_one_more ".env" = true
  /\ file_in (watchFolder demo_world) (root (filesystem demo_world)) ".env"
             "/w/.env"
  /\ table_wf (files initial_state)
  /\ start demo_digest demo_world initial_state = (Ok tt, demo_started)
  /\ In "/w/.env" (paths demo_started)
  /\ deliver demo_digest demo_world (on_change "/w/.env") demo_started
     = (Ok tt, demo_started)
  /\ deliver demo_digest demo_world (on_unlink "/w/.env") demo_started
     = (Ok tt, demo_started)
  /\ deliver demo_digest demo_world_watch_all (on_unlink "/w/.env")
       (snd (start demo_digest demo_world_watch_all initial_state))
     = removeFileRecord demo_world_watch_all "/w/.env"
         (snd (start demo_digest demo_world_watch_all initial_state)).
Proof.
  assert (Hwf : table_wf (files initial_state)) by constructor.
  assert (Hstart : start demo_digest demo_world initial_state
                   = (Ok tt, demo_started)) by (vm_compute; reflexivity).
  assert (Hstart' : start demo_digest demo_world_watch_all initial_state
                    = (Ok tt,
                       snd (start demo_digest demo_world_watch_all
                              initial_state)))
    by (vm_compute; reflexivity).
  destruct (dotfile_recorded_but_not_watched demo_digest demo_world ".env"
              "/w/.env" initial_state demo_started eq_refl demo_env_file Hwf
              Hstart) as (Hrow & Hdefault & _).
  destruct (dotfile_recorded_but_not_watched demo_digest demo_world_watch_all
              ".env" "/w/.env" initial_state _ eq_refl demo_env_file Hwf
              Hstart') as (_ & _ & Hgiven).
  destruct (Hdefault eq_refl) as [Hchange Hunlink].
  destruct (Hgiven (fun _ => false) eq_refl eq_refl) as [_ Hunlink'].
  split; [reflexivity |].
  exact (conj demo_env_file
           (conj Hwf
              (conj Hstart
                 (conj Hrow (conj Hchange (conj Hunlink Hunlink')))))).
Defined.

(** C10 (as the code behaves).  The default pattern carries the comment
    "ignore dotfiles", but it asks for a character after the dot that
    is not a line terminator.  A dot-file whose second character is a
    line feed gets its row at startup like every other file, and with
    the default options a change event for it is delivered and handled:
    [file.updated] is emitted for it.  The pattern misses a dot-file
    whose second character is U+2028 in the same way, and it matches an
    ordinary dot-file. *)
Lemma newline_dotfile_is_watched :
  String.prefix "." newline_dotfile = true
  /\ In (newline_dotfile, IsFile)
        match root (filesystem demo_world) with
        | IsDirectory entries => entries
        | _ => []
        end
  /\ ignored (watchOptions demo_world) = None
  /\ start demo_digest demo_world initial_state = (Ok tt, demo_started)
  /\ In (path_join "/w" newline_dotfile) (paths demo_started)
  /\ deliver demo_digest demo_world
       (on_change (path_join "/w" newline_dotfile)) demo_started
     <> (Ok tt, demo_started)
  /\ (exists r,
       emitted (snd (deliver demo_digest demo_world
                       (on_change (path_join "/w" newline_dotfile))
                       demo_started))
       = emitted demo_started ++ [file_updated r]
       /\ file_path r = path_join "/w" newline_dotfile)
  /\ ignore_dotfiles (path_join "/w" newline_dotfile) = false
  /\ ignore_dotfiles (path_join "/w" separator_dotfile) = false
  /\ ignore_dotfiles "/w/.env" = true.
Proof.
  split; [reflexivity |].
  split; [right; right; left; reflexivity |].
  split; [reflexivity |]. split; [vm_compute; reflexivity |].
  split; [vm_compute; right; right; left; reflexivity |].
  split; [| split; [| repeat split; vm_compute; reflexivity]].
  - intros Heq. apply (f_equal (fun r => List.length (emitted (snd r)))) in Heq.
    vm_compute in Heq. discriminate Heq.
  - eexists. split; [vm_compute; reflexivity | reflexivity].
Qed.

(** * Further properties of the class *)

(** ** [#scanDirectory] returns the regular files, and only them *)

Lemma entries_result_sound dirPath entries :
  Forall (fun ne => forall d found,
            scan_result d (snd ne) = Ok found ->
            forall p, In p found -> exists name, file_in d (snd ne) name p)
         entries ->
  forall files found,
    entries_result scan_result dirPath entries files = Ok found ->
    forall p, In p found ->
      In p files
      \/ (exists name, In (name, IsFile) entries /\ p = path_join dirPath name)
      \/ (exists sub subdir name,
            In (sub, subdir) entries
            /\ file_in (path_join dirPath sub) subdir name p).
Proof.
  induction 1 as [| [name entry] rest Hentry _ IH]; intros files found Hres p Hp.
  - cbn in Hres. injection Hres as <-. left. assumption.
  - cbn [entries_result] in Hres. cbn [snd] in Hentry.
    assert (Hlater :
      forall files',
        entries_result scan_result dirPath rest files' = Ok found ->
        In p files'
        \/ (exists name0, In (name0, IsFile) ((name, entry) :: rest)
                          /\ p = path_join dirPath name0)
        \/ (exists sub subdir name0,
              In (sub, subdir) ((name, entry) :: rest)
              /\ file_in (path_join dirPath sub) subdir name0 p)).
    { intros files' Hrest.
      destruct (IH _ _ Hrest p Hp) as [H | [(n & Hin & Heq) | (a & b & n & Hin & Hf)]].
      - left. assumption.
      - right. left. exists n. split; [right |]; assumption.
      - right. right. exists a, b, n. split; [right |]; assumption. }
    destruct entry as [| l | |].
    + destruct (Hlater _ Hres) as [H | H]; [| right; exact H].
      apply in_app_iff in H as [H | [<- | []]]; [left; assumption |].
      right. left. exists name. split; [left |]; reflexivity.
    + destruct (scan_result (path_join dirPath name) (IsDirectory l))
        as [subFiles | e] eqn:Hsub; [| discriminate].
      destruct (Hlater _ Hres) as [H | H]; [| right; exact H].
      apply in_app_iff in H as [H | H]; [left; assumption |].
      destruct (Hentry _ _ Hsub p H) as [n Hfile].
      right. right. exists name, (IsDirectory l), n.
      split; [left; reflexivity | assumption].
    + cbn in Hres. discriminate.
    + destruct (Hlater _ Hres) as [H | H]; [left | right]; assumption.
Qed.

Lemma scan_result_sound dir :
  forall dirPath found,
    scan_result dirPath dir = Ok found ->
    forall p, In p found -> exists name, file_in dirPath dir name p.
Proof.
  induction dir as [| entries IH | |] using Entry_induction;
    intros dirPath found Hres p Hp; try discriminate.
  cbn [scan_result] in Hres.
  destruct (entries_result_sound dirPath entries IH _ _ Hres p Hp)
    as [[] | [(name & Hin & ->) | (sub & subdir & name & Hin & Hfile)]].
  - exists name. apply file_here. assumption.
  - exists name. eapply file_below; eassumption.
Qed.

(** X1.  When the scan succeeds, the paths it returns are exactly the
    paths of the regular files that lie below the directory through
    readable directories: directories themselves and entries that are
    neither file nor directory are never listed.  The scan leaves the
    store as it is. *)
Theorem scanDirectory_exact dirPath dir s found :
  fst (scanDirectory dirPath dir s) = Ok found ->
  (forall p, In p found <-> exists name, file_in dirPath dir name p)
  /\ same_store s (snd (scanDirectory dirPath dir s)).
Proof.
  intros Hscan. destruct (scanDirectory_result dir dirPath s) as [Hres Hsame].
  rewrite Hscan in Hres. symmetry in Hres.
  split; [| exact Hsame].
  intros p. split.
  - apply (scan_result_sound _ _ _ Hres).
  - intros [name Hfile]. apply (scan_result_complete _ _ _ _ Hfile _ Hres).
Qed.

(** ** [#createFileRecord] *)

Section Inspector.

Variable sha256_hex : string -> string.
Variable w : World.

(** X2.  [#createFileRecord] succeeds exactly when both the [stat] and
    the read succeed.  The record it returns has no id, the given path,
    the size, whole-second modification time and checksum of the file,
    and one reading of the clock as both [created_at] and [updated_at].
    When it throws, the error is the one of the call that failed, it is
    written to the console, and the clock is not read.  In both cases
    the store is left as it is. *)
Theorem createFileRecord_snapshot filePath s :
  (forall record s',
     createFileRecord sha256_hex w filePath s = (Ok record, s') ->
     id record = None /\ file_path record = filePath
     /\ created_at record = clock w (ticks s)
     /\ updated_at record = created_at record
     /\ file_matches sha256_hex w filePath record
     /\ same_store s s' /\ ticks s' = S (ticks s))
  /\ (forall e s',
        createFileRecord sha256_hex w filePath s = (Throw e, s') ->
        ((e = FsError (Stat filePath)
          /\ stat (filesystem w) filePath = None)
         \/ (e = FsError (ReadFile filePath)
             /\ readFile (filesystem w) filePath = None))
        /\ In (FailedCreateRecord filePath, e) (console_error s')
        /\ same_store s s' /\ ticks s' = ticks s).
Proof.
  destruct (stat (filesystem w) filePath) as [stats |] eqn:Hstat.
  - destruct (readFile (filesystem w) filePath) as [data |] eqn:Hread.
    + rewrite (createFileRecord_ok _ _ _ _ _ _ Hstat Hread). split.
      * intros record s' Heq. injection Heq as <- <-. cbn.
        repeat split. exists stats, data. repeat split; assumption.
      * intros e s' Heq. discriminate.
    + rewrite (createFileRecord_read_fails _ _ _ _ _ Hstat Hread). split.
      * intros record s' Heq. discriminate.
      * intros e s' Heq. injection Heq as <- <-. cbn.
        split; [right; auto |]. split; [| repeat split].
        apply in_or_app. right. left. reflexivity.
  - rewrite (createFileRecord_stat_fails _ _ _ _ Hstat). split.
    + intros record s' Heq. discriminate.
    + intros e s' Heq. injection Heq as <- <-. cbn.
      split; [left; auto |]. split; [| repeat split].
      apply in_or_app. right. left. reflexivity.
Qed.

(** X7.  [#hasFileChanged] never throws and never touches the store or
    the clock, whatever the file system does; it answers [false] exactly
    when the file can be inspected and its size, whole-second
    modification time and checksum are those of the record. *)
Theorem hasFileChanged_false_iff_unchanged filePath dbRecord s :
  exists changed s',
    hasFileChanged sha256_hex w filePath dbRecord s = (Ok changed, s')
    /\ same_store s s' /\ ticks s' = ticks s
    /\ (changed = false <-> file_matches sha256_hex w filePath dbRecord).
Proof.
  destruct (hasFileChanged_spec sha256_hex w filePath dbRecord s)
    as (changed & s' & Hrun & Hsame & Hiff).
  exists changed, s'. split; [exact Hrun |]. split; [exact Hsame |].
  split; [| exact Hiff].
  revert Hrun. unfold hasFileChanged, fs_stat, calculateChecksum, fs_readFile.
  run.
  destruct (stat (filesystem w) filePath) as [stats |]; cbn.
  - destruct (negb (st_size stats =? size dbRecord)%Z
              || negb (st_mtime_ms stats / 1000 =? modified_time dbRecord)%Z);
      cbn.
    + intros Heq. injection Heq as _ <-. reflexivity.
    + destruct (readFile (filesystem w) filePath); cbn;
        intros Heq; injection Heq as _ <-; reflexivity.
  - intros Heq. injection Heq as _ <-. reflexivity.
Qed.

End Inspector.

(** ** The methods on the table *)

Section Table.

Variable sha256_hex : string -> string.
Variable w : World.

Lemma map_set_fresh {V} (m : JsMap V) k v :
  ~ In k (map fst m) -> map_set m k v = m ++ [(k, v)].
Proof.
  induction m as [| [k0 v0] rest IH]; cbn; intros Hfresh; [reflexivity |].
  destruct (String.eqb_spec k0 k) as [Heq | Hne]; [tauto |].
  rewrite IH by tauto. reflexivity.
Qed.

Lemma records_in_row_order rows :
  forall acc : JsMap FileRecord,
    NoDup (map fst acc ++ map file_path rows) ->
    fold_left (fun m row => map_set m (file_path row) row) rows acc
    = acc ++ map (fun row => (file_path row, row)) rows.
Proof.
  induction rows as [| row rows IH]; intros acc Hnd; cbn.
  - symmetry. apply app_nil_r.
  - assert (Hfresh : ~ In (file_path row) (map fst acc)).
    { intros Hin. apply NoDup_remove_2 in Hnd. apply Hnd.
      apply in_or_app. left. assumption. }
    rewrite (map_set_fresh _ _ _ Hfresh), IH.
    + rewrite <- app_assoc. reflexivity.
    + rewrite map_app. cbn. rewrite <- app_assoc. exact Hnd.
Qed.

Lemma map_get_pairs rows p :
  map_get (map (fun row => (file_path row, row)) rows) p
  = find (has_path p) rows.
Proof.
  induction rows as [| row rows IH]; cbn; [reflexivity |].
  unfold has_path at 1. destruct (String.eqb (file_path row) p); auto.
Qed.

Lemma find_after_untracked p rows rest :
  ~ In p (map file_path rows) ->
  find (has_path p) (rows ++ rest) = find (has_path p) rest.
Proof.
  induction rows as [| row rows IH]; cbn; intros Hnot; [reflexivity |].
  unfold has_path at 1.
  destruct (String.eqb_spec (file_path row) p) as [Heq | Hne]; [tauto |].
  apply IH. tauto.
Qed.

Lemma getAllFileRecords_rows s dbRecords s' :
  table_wf (files s) ->
  getAllFileRecords w s = (Ok dbRecords, s') ->
  dbRecords = map (fun row => (file_path row, row)) (files s)
  /\ (forall p, map_get dbRecords p = find (has_path p) (files s))
  /\ (forall p, map_get dbRecords p = None <-> ~ In p (paths s))
  /\ s' = add_db_call SelectAll s.
Proof.
  intros Hwf Hrun. pose proof (getAllFileRecords_spec sha256_hex w s) as Hspec.
  rewrite Hrun in Hspec. destruct Hspec as (_ & _ & Hsnap & Hs').
  assert (Hmap : dbRecords = map (fun row => (file_path row, row)) (files s)).
  { revert Hrun. unfold getAllFileRecords, sql_select_all. run.
    destruct (db s); cbn; [| discriminate].
    destruct (db_fault w SelectAll); cbn; [discriminate |].
    intros Heq. injection Heq as <- _.
    apply (records_in_row_order (files s) []). exact Hwf. }
  split; [exact Hmap |]. split; [| split; [| exact Hs']].
  - intros p. rewrite Hmap. apply map_get_pairs.
  - intros p. destruct Hsnap as (Hnone & Hsome & _). split; [apply Hnone |].
    intros Hnot. destruct (map_get dbRecords p) as [r |] eqn:Hg; [| reflexivity].
    exfalso. apply Hnot. destruct (Hsome _ _ Hg) as [Hin <-].
    apply in_map. assumption.
Qed.

(** X6.  On a table with unique paths [#getAllFileRecords] returns a map
    with one entry per row, in row order, each row under its own path;
    looking a path up gives the row of that path, and nothing for a path
    without a row.  The only statement issued is the SELECT and the
    table is not changed. *)
Theorem getAllFileRecords_lookup s dbRecords s' :
  table_wf (files s) ->
  getAllFileRecords w s = (Ok dbRecords, s') ->
  dbRecords = map (fun row => (file_path row, row)) (files s)
  /\ (forall p, map_get dbRecords p = find (has_path p) (files s))
  /\ (forall p, map_get dbRecords p = None <-> ~ In p (paths s))
  /\ s' = add_db_call SelectAll s.
Proof. exact (getAllFileRecords_rows s dbRecords s'). Qed.

(** X3.  A successful [#insertFileRecord] appends one row that carries
    the record's values under the next id, advances the id counter by
    one, emits [file.added] with exactly the row that was stored, and
    keeps the paths of the table unique; reading the table back finds
    that row under the record's path. *)
Theorem insertFileRecord_round_trip record s s' :
  table_wf (files s) ->
  db_fault w SelectAll = false ->
  insertFileRecord w record s = (Ok tt, s') ->
  exists row,
    row = mkFileRecord (Some (sqlite_sequence s + 1)%Z) (file_path record)
            (size record) (modified_time record) (checksum record)
            (created_at record) (updated_at record)
    /\ files s' = files s ++ [row]
    /\ sqlite_sequence s' = (sqlite_sequence s + 1)%Z
    /\ emitted s' = emitted s ++ [file_added row]
    /\ table_wf (files s')
    /\ exists dbRecords s'',
         getAllFileRecords w s' = (Ok dbRecords, s'')
         /\ map_get dbRecords (file_path record) = Some row.
Proof.
  intros Hwf Hsel Hrun.
  assert (Hshape :
    db s = true /\ ~ In (file_path record) (paths s)
    /\ s' = add_emitted
              (file_added
                 (mkFileRecord (Some (sqlite_sequence s + 1)%Z)
                    (file_path record) (size record) (modified_time record)
                    (checksum record) (created_at record) (updated_at record)))
              (set_table
                 (files s ++
                  [mkFileRecord (Some (sqlite_sequence s + 1)%Z)
                     (file_path record) (size record) (modified_time record)
                     (checksum record) (created_at record) (updated_at record)])
                 (sqlite_sequence s + 1)%Z
                 (add_db_call (InsertInto (file_path record)) s))).
  { revert Hrun. unfold insertFileRecord, sql_insert. run.
    destruct (db s); cbn; [| discriminate].
    destruct (db_fault w (InsertInto (file_path record))); cbn; [discriminate |].
    destruct (existsb (has_path (file_path record)) (files s)) eqn:Hex; cbn;
      [discriminate |].
    intros Heq. injection Heq as <-.
    split; [reflexivity |]. split; [| reflexivity].
    apply (existsb_has_path sha256_hex). assumption. }
  destruct Hshape as (Hdb & Hfresh & ->).
  eexists. split; [reflexivity |]. cbn.
  split; [reflexivity |]. split; [reflexivity |]. split; [reflexivity |].
  assert (Hwf' : table_wf
                   (files s ++
                    [mkFileRecord (Some (sqlite_sequence s + 1)%Z)
                       (file_path record) (size record) (modified_time record)
                       (checksum record) (created_at record)
                       (updated_at record)])).
  { unfold table_wf. rewrite map_app. cbn.
    apply NoDup_app; [exact Hwf | constructor; [intros [] | constructor] |].
    intros a Ha [<- | []]. contradiction. }
  split; [exact Hwf' |].
  match goal with
  | |- exists D s2, getAllFileRecords w ?st = _ /\ _ => set (s1 := st)
  end.
  change (table_wf (files s1)) in Hwf'.
  pose proof (getAllFileRecords_spec sha256_hex w s1) as Hget.
  destruct (getAllFileRecords w s1) as [[dbRecords | e] s2] eqn:Hall.
  - destruct (getAllFileRecords_rows s1 _ _ Hwf' Hall) as (_ & Hfind & _).
    exists dbRecords, s2. split; [reflexivity |].
    rewrite Hfind. subst s1. cbn [files add_emitted set_table].
    rewrite (find_after_untracked _ _ _ Hfresh).
    cbn. unfold has_path. cbn. rewrite String.eqb_refl. reflexivity.
  - subst s1. cbn in Hget.
    destruct Hget as (_ & _ & [Hclosed | Hfault]); congruence.
Qed.

(** X4.  An [#insertFileRecord] for a path that already has a row is
    rejected: it throws, writes the failure to the console, and leaves
    the table, the id counter and the emitted events as they were.
    When SQLite accepts the statement otherwise, the error is the
    violation of the UNIQUE constraint. *)
Theorem insertFileRecord_duplicate record s :
  db s = true ->
  In (file_path record) (paths s) ->
  exists e s',
    insertFileRecord w record s = (Throw e, s')
    /\ files s' = files s
    /\ sqlite_sequence s' = sqlite_sequence s
    /\ emitted s' = emitted s
    /\ console_error s' = console_error s ++ [(FailedInsert (file_path record), e)]
    /\ (db_fault w (InsertInto (file_path record)) = false ->
        e = SqliteConstraintUnique (file_path record)).
Proof.
  intros Hdb Htracked. unfold insertFileRecord, sql_insert. run.
  rewrite Hdb. cbn.
  destruct (db_fault w (InsertInto (file_path record))); cbn.
  - do 2 eexists. split; [reflexivity |]. cbn. repeat split. discriminate.
  - destruct (existsb (has_path (file_path record)) (files s)) eqn:Hex; cbn.
    + do 2 eexists. split; [reflexivity |]. cbn. repeat split.
    + apply (existsb_has_path sha256_hex) in Hex. contradiction.
Qed.

(** X5.  With the database not open (before [start()], or after
    [shutdown()]), the four methods on the table throw
    "Database not initialized" and do nothing else: no statement, no
    event, no line on the console.  The public [performInitialSync]
    still scans the directory, then throws and leaves the store as it
    was; the handler of add and change events still inspects the file,
    then logs the error and returns. *)
Theorem database_not_initialized record filePath s :
  db s = false ->
  insertFileRecord w record s = (Throw DatabaseNotInitialized, s)
  /\ updateFileRecord w record s = (Throw DatabaseNotInitialized, s)
  /\ removeFileRecord w filePath s = (Throw DatabaseNotInitialized, s)
  /\ getAllFileRecords w s = (Throw DatabaseNotInitialized, s)
  /\ (exists e s',
        performInitialSync sha256_hex w s = (Throw e, s')
        /\ same_store s s'
        /\ (forall found,
              fst (scanDirectory (watchFolder w) (root (filesystem w)) s)
              = Ok found ->
              e = DatabaseNotInitialized))
  /\ (exists s',
        handleFileAddOrChange sha256_hex w filePath s = (Ok tt, s')
        /\ same_store s s'
        /\ (forall stats data,
              stat (filesystem w) filePath = Some stats ->
              readFile (filesystem w) filePath = Some data ->
              In (FailedAddOrChange filePath, DatabaseNotInitialized)
                 (console_error s'))).
Proof.
  intros Hdb.
  assert (Hins : insertFileRecord w record s = (Throw DatabaseNotInitialized, s))
    by (unfold insertFileRecord; run; rewrite Hdb; reflexivity).
  assert (Hupd : updateFileRecord w record s = (Throw DatabaseNotInitialized, s))
    by (unfold updateFileRecord; run; rewrite Hdb; reflexivity).
  assert (Hrem : removeFileRecord w filePath s = (Throw DatabaseNotInitialized, s))
    by (unfold removeFileRecord; run; rewrite Hdb; reflexivity).
  assert (Hall : forall s0, db s0 = false ->
                   getAllFileRecords w s0 = (Throw DatabaseNotInitialized, s0)).
  { intros s0 H0. unfold getAllFileRecords. run. rewrite H0. reflexivity. }
  split; [exact Hins |]. split; [exact Hupd |]. split; [exact Hrem |].
  split; [apply Hall; exact Hdb |]. split.
  - rewrite performInitialSync_stages.
    destruct (scanDirectory_result (root (filesystem w)) (watchFolder w) s)
      as [_ Hsame].
    destruct (scanDirectory (watchFolder w) (root (filesystem w)) s)
      as [[found | e] s1]; cbn [fst snd] in *.
    + rewrite Hall by (destruct Hsame as (H1 & _); congruence).
      do 2 eexists. split; [reflexivity |]. split; [exact Hsame | reflexivity].
    + do 2 eexists. split; [reflexivity |]. split; [exact Hsame |].
      intros found Heq. discriminate.
  - unfold handleFileAddOrChange. unfold try_catch at 1. unfold bind at 1.
    pose proof (createFileRecord_spec sha256_hex w filePath s) as Hcreate.
    destruct (createFileRecord sha256_hex w filePath s) as [[rec | e] s1].
    + destruct Hcreate as (Hsame & _).
      unfold bind at 1, require_db.
      assert (Hdb1 : db s1 = false) by (destruct Hsame as (H1 & _); congruence).
      rewrite Hdb1. eexists. split; [reflexivity |].
      split; [exact Hsame |]. intros _ _ _ _. cbn.
      apply in_or_app. right. left. reflexivity.
    + destruct Hcreate as (Hsame & Hwhy).
      eexists. split; [reflexivity |]. split; [exact Hsame |].
      intros stats data Hstat Hread. destruct Hwhy; congruence.
Qed.

End Table.

(** ** The handlers of the watch events *)

Section Handlers.

Variable sha256_hex : string -> string.
Variable w : World.

(** X8.  A change (or add) event for a path that has a row, with the
    file readable and the UPDATE accepted, issues that one UPDATE and
    nothing else.  The paths of the table stay the same; the row of the
    path keeps its id and creation time, takes the update time from the
    clock and agrees with the file afterwards; rows of other paths are
    untouched.  The [file.updated] event carries the freshly built
    record, which has no id. *)
Theorem change_event_updates_tracked_row filePath stats data row s :
  db s = true ->
  In row (files s) ->
  file_path row = filePath ->
  stat (filesystem w) filePath = Some stats ->
  readFile (filesystem w) filePath = Some data ->
  db_fault w (UpdateWhere filePath) = false ->
  exists s' row',
    handleFileAddOrChange sha256_hex w filePath s = (Ok tt, s')
    /\ db_calls s' = db_calls s ++ [UpdateWhere filePath]
    /\ paths s' = paths s
    /\ In row' (files s')
    /\ file_path row' = filePath /\ id row' = id row
    /\ created_at row' = created_at row
    /\ updated_at row' = clock w (ticks s)
    /\ in_sync sha256_hex w row'
    /\ (forall other, In other (files s) -> file_path other <> filePath ->
                      In other (files s'))
    /\ emitted s'
       = emitted s
         ++ [file_updated
               (mkFileRecord None filePath (st_size stats)
                  (st_mtime_ms stats / 1000)%Z (sha256_hex data)
                  (clock w (ticks s)) (clock w (ticks s)))].
Proof.
  intros Hdb Hin Hpath Hstat Hread Hfault.
  unfold handleFileAddOrChange. unfold try_catch at 1. unfold bind at 1.
  rewrite (createFileRecord_ok _ _ _ _ _ _ Hstat Hread).
  unfold bind at 1, require_db. cbn [db tick add_fs_call]. rewrite Hdb.
  unfold try_catch at 1, bind at 1.
  rewrite updateFileRecord_ok by (cbn; assumption).
  set (rec := mkFileRecord None filePath (st_size stats)
                (st_mtime_ms stats / 1000)%Z (sha256_hex data)
                (clock w (ticks s)) (clock w (ticks s))).
  exists (add_emitted (file_updated rec)
            (set_table (map (sql_update_row rec) (files s)) (sqlite_sequence s)
               (add_db_call (UpdateWhere filePath)
                  (tick (add_fs_call (ReadFile filePath)
                           (add_fs_call (Stat filePath) s)))))),
         (sql_update_row rec row).
  split; [reflexivity |]. cbn.
  assert (Hrow : sql_update_row rec row
                 = mkFileRecord (id row) (file_path row) (st_size stats)
                     (st_mtime_ms stats / 1000)%Z (sha256_hex data)
                     (created_at row) (clock w (ticks s))).
  { unfold sql_update_row, has_path. cbn. rewrite Hpath, String.eqb_refl.
    reflexivity. }
  split; [reflexivity |].
  split; [unfold paths; cbn; apply paths_update |].
  split; [apply in_map; assumption |].
  rewrite Hrow. cbn.
  split; [assumption |]. split; [reflexivity |]. split; [reflexivity |].
  split; [reflexivity |]. split.
  - exists stats, data. cbn. rewrite Hpath. repeat split; assumption.
  - split; [| reflexivity].
    intros other Hother Hne.
    rewrite <- (sql_update_row_other rec other) by (cbn; assumption).
    apply in_map. assumption.
Qed.

(** X9.  The INSERT of the handler runs only when the UPDATE itself is
    rejected by SQLite.  Then, for a path without a row, the fresh
    record is inserted after all; for a path that has a row the INSERT
    breaks the UNIQUE constraint, the event is dropped with the errors
    on the console, and the table and the emitted events are as before. *)
Theorem rejected_update_falls_back_to_insert filePath stats data s :
  db s = true ->
  stat (filesystem w) filePath = Some stats ->
  readFile (filesystem w) filePath = Some data ->
  db_fault w (UpdateWhere filePath) = true ->
  db_fault w (InsertInto filePath) = false ->
  exists s',
    handleFileAddOrChange sha256_hex w filePath s = (Ok tt, s')
    /\ db_calls s' = db_calls s ++ [UpdateWhere filePath; InsertInto filePath]
    /\ In (FailedUpdate filePath, SqliteError (UpdateWhere filePath))
          (console_error s')
    /\ (~ In filePath (paths s) ->
        exists row,
          files s' = files s ++ [row]
          /\ file_path row = filePath
          /\ id row = Some (sqlite_sequence s + 1)%Z
          /\ in_sync sha256_hex w row
          /\ emitted s' = emitted s ++ [file_added row])
    /\ (In filePath (paths s) ->
        files s' = files s /\ emitted s' = emitted s
        /\ In (FailedAddOrChange filePath, SqliteConstraintUnique filePath)
              (console_error s')).
Proof.
  intros Hdb Hstat Hread Hupd Hins.
  unfold handleFileAddOrChange. unfold try_catch at 1. unfold bind at 1.
  rewrite (createFileRecord_ok _ _ _ _ _ _ Hstat Hread).
  unfold bind at 1, require_db. cbn [db tick add_fs_call]. rewrite Hdb.
  unfold try_catch at 1, bind at 1.
  rewrite updateFileRecord_fault by (cbn; assumption).
  unfold insertFileRecord, sql_insert. run. rewrite Hdb, Hins. cbn.
  destruct (existsb (has_path filePath) (files s)) eqn:Hex; cbn.
  - eexists. split; [reflexivity |]. cbn.
    split; [rewrite <- app_assoc; reflexivity |].
    split; [rewrite !in_app_iff; cbn; auto |].
    split.
    + intros Hnot. apply (existsb_has_path sha256_hex) in Hnot.
      unfold paths in Hnot. congruence.
    + intros _. split; [reflexivity |]. split; [reflexivity |].
      rewrite !in_app_iff. cbn. auto.
  - eexists. split; [reflexivity |]. cbn.
    split; [rewrite <- app_assoc; reflexivity |].
    split; [rewrite !in_app_iff; cbn; auto |].
    split.
    + intros _. eexists. split; [reflexivity |]. cbn.
      split; [reflexivity |]. split; [reflexivity |].
      split; [| reflexivity].
      exists stats, data. cbn. repeat split; assumption.
    + intros Hin. apply (existsb_has_path sha256_hex) in Hex. contradiction.
Qed.

Lemma handleFileAddOrChange_no_delete filePath s :
  exists s',
    handleFileAddOrChange sha256_hex w filePath s = (Ok tt, s')
    /\ no_delete s s'.
Proof.
  unfold handleFileAddOrChange. unfold try_catch at 1. unfold bind at 1.
  pose proof (createFileRecord_spec sha256_hex w filePath s) as Hcreate.
  destruct (createFileRecord sha256_hex w filePath s) as [[rec | e] s1].
  - destruct Hcreate as (Hsame & _).
    apply same_store_no_delete in Hsame.
    unfold bind at 1, require_db.
    destruct (db s1).
    + unfold try_catch at 1, bind at 1.
      pose proof (updateFileRecord_spec w rec s1) as Hupd.
      destruct (updateFileRecord w rec s1) as [[r | e] s2].
      * eexists. split; [reflexivity |].
        eapply no_delete_trans; [exact Hsame | apply Hupd].
      * destruct Hupd as (_ & Hnd2 & _).
        pose proof (insertFileRecord_spec sha256_hex w rec s2) as Hins.
        destruct (insertFileRecord w rec s2) as [[[] | e'] s3].
        -- eexists. split; [reflexivity |].
           eapply no_delete_trans; [exact Hsame |].
           eapply no_delete_trans; [exact Hnd2 | apply Hins].
        -- eexists. split; [reflexivity |].
           eapply no_delete_trans; [exact Hsame |].
           eapply no_delete_trans; [exact Hnd2 |].
           eapply no_delete_trans; [apply Hins | apply no_delete_console].
    + eexists. split; [reflexivity |].
      eapply no_delete_trans; [exact Hsame | apply no_delete_console].
  - destruct Hcreate as (Hsame & _). eexists. split; [reflexivity |].
    eapply no_delete_trans;
      [apply same_store_no_delete; exact Hsame | apply no_delete_console].
Qed.

(** X10.  The handler of add and change events returns normally on
    every input and never deletes: every path that had a row still has
    one, no DELETE is issued and no [file.removed] is emitted.  When the
    file cannot be inspected the store is left as it was and the
    failure is on the console. *)
Theorem handleFileAddOrChange_isolated filePath s :
  exists s',
    handleFileAddOrChange sha256_hex w filePath s = (Ok tt, s')
    /\ no_delete s s'
    /\ (stat (filesystem w) filePath = None
        \/ readFile (filesystem w) filePath = None ->
        same_store s s'
        /\ exists e, In (FailedAddOrChange filePath, e) (console_error s')).
Proof.
  destruct (handleFileAddOrChange_no_delete filePath s) as (s' & Hrun & Hnd).
  exists s'. split; [exact Hrun |]. split; [exact Hnd |].
  intros Hfail.
  destruct (handleFileAddOrChange_reports_failure sha256_hex w filePath s Hfail)
    as (e & s'' & Hrun' & Hlog & Hsame).
  rewrite Hrun in Hrun'. injection Hrun' as <-.
  split; [exact Hsame | exists e; exact Hlog].
Qed.

Lemma handleFileAddOrChange_frame filePath row s :
  In row (files s) -> file_path row <> filePath ->
  In row (files (snd (handleFileAddOrChange sha256_hex w filePath s))).
Proof.
  intros Hin Hne.
  unfold handleFileAddOrChange. unfold try_catch at 1. unfold bind at 1.
  pose proof (createFileRecord_spec sha256_hex w filePath s) as Hcreate.
  destruct (createFileRecord sha256_hex w filePath s) as [[rec | e] s1].
  - destruct Hcreate as ((_ & _ & Hfiles1 & _) & Hrecpath & _).
    rewrite <- Hfiles1 in Hin.
    unfold bind at 1, require_db.
    destruct (db s1); [| cbn; exact Hin].
    unfold try_catch at 1, bind at 1.
    pose proof (updateFileRecord_spec w rec s1) as Hupd.
    destruct (updateFileRecord w rec s1) as [[r | e] s2].
    + destruct Hupd as (_ & _ & Hfiles2 & _). cbn. rewrite Hfiles2.
      rewrite <- (sql_update_row_other rec row) by congruence.
      apply in_map. exact Hin.
    + destruct Hupd as (Hfiles2 & _). rewrite <- Hfiles2 in Hin.
      pose proof (insertFileRecord_spec sha256_hex w rec s2) as Hins.
      destruct (insertFileRecord w rec s2) as [[[] | e'] s3].
      * destruct Hins as (_ & _ & _ & (row' & Hfiles3 & _) & _). cbn.
        rewrite Hfiles3. apply in_or_app. left. exact Hin.
      * destruct Hins as (Hfiles3 & _). cbn. rewrite Hfiles3. exact Hin.
  - destruct Hcreate as ((_ & _ & Hfiles1 & _) & _). cbn.
    rewrite Hfiles1. exact Hin.
Qed.

Lemma removeFileRecord_frame filePath row s :
  In row (files s) -> file_path row <> filePath ->
  In row (files (snd (removeFileRecord w filePath s))).
Proof.
  intros Hin Hne. pose proof (removeFileRecord_spec w filePath s) as Hrm.
  destruct (removeFileRecord w filePath s) as [[[] | e] s1]; cbn.
  - destruct Hrm as (_ & _ & Hfiles & _). rewrite Hfiles.
    apply filter_In. split; [exact Hin |]. unfold has_path.
    destruct (String.eqb_spec (file_path row) filePath); [contradiction |].
    reflexivity.
  - destruct Hrm as (Hfiles & _). rewrite Hfiles. exact Hin.
Qed.

Lemma deliver_frame ev row s :
  In row (files s) -> event_path ev <> Some (file_path row) ->
  In row (files (snd (deliver sha256_hex w ev s))).
Proof.
  intros Hin Hne. unfold deliver.
  destruct (watcher s) as [o |]; [| exact Hin].
  destruct ev as [p | p | p | e]; cbn [event_path] in Hne.
  - destruct (is_ignored o p); [exact Hin |].
    apply handleFileAddOrChange_frame; [exact Hin | congruence].
  - destruct (is_ignored o p); [exact Hin |].
    apply handleFileAddOrChange_frame; [exact Hin | congruence].
  - destruct (is_ignored o p); [exact Hin |].
    apply removeFileRecord_frame; [exact Hin | congruence].
  - exact Hin.
Qed.

Lemma closeDatabase_stages s :
  closeDatabase w s
  = if db s
    then if db_fault w CloseDatabase
         then (Throw (SqliteError CloseDatabase), add_db_call CloseDatabase s)
         else (Ok tt, set_db false (add_db_call CloseDatabase s))
    else (Ok tt, s).
Proof.
  unfold closeDatabase, bind, db_call, modify.
  destruct (db s); [| reflexivity].
  destruct (db_fault w CloseDatabase); reflexivity.
Qed.

Lemma shutdown_stages s :
  shutdown w s
  = match watcher s with
    | Some _ =>
        if watcher_close_fault w
        then (Throw WatcherCloseError, s)
        else closeDatabase w (set_watcher None s)
    | None => closeDatabase w s
    end.
Proof.
  unfold shutdown, bind, stopWatching.
  destruct (watcher s); [| reflexivity].
  destruct (watcher_close_fault w); reflexivity.
Qed.

Lemma shutdown_rows s :
  files (snd (shutdown w s)) = files s
  /\ sqlite_sequence (snd (shutdown w s)) = sqlite_sequence s
  /\ emitted (snd (shutdown w s)) = emitted s.
Proof.
  rewrite shutdown_stages.
  destruct (watcher s); [destruct (watcher_close_fault w) |];
    rewrite ?closeDatabase_stages; cbn;
    try destruct (db s); try destruct (db_fault w CloseDatabase);
    repeat split.
Qed.

Lemma gracefulShutdown_files s : files (snd (gracefulShutdown w s)) = files s.
Proof.
  unfold gracefulShutdown. destruct (shutdown_rows s) as (Hfiles & _).
  destruct (shutdown w s) as [[u | e] s1]; exact Hfiles.
Qed.

(** X12.  Whatever the watch service reports and however the handlers
    end, a row whose path none of the events is about is still in the
    table afterwards, unchanged. *)
Theorem watch_loop_frame events row s :
  In row (files s) ->
  (forall ev, In ev events -> event_path ev <> Some (file_path row)) ->
  In row (files (snd (watch_loop sha256_hex w events s))).
Proof.
  revert s. induction events as [| ev rest IH]; intros s Hin Hother;
    [exact Hin |].
  cbn [watch_loop].
  pose proof (deliver_frame ev row s Hin (Hother ev (or_introl eq_refl)))
    as Hstep.
  destruct (deliver sha256_hex w ev s) as [[[] | reason] s1]; cbn [snd] in Hstep.
  - apply IH; [exact Hstep |]. intros ev' Hev'. apply Hother. right. exact Hev'.
  - rewrite gracefulShutdown_files. exact Hstep.
Qed.

Lemma deliver_ok ev s :
  db s = true ->
  (forall p, ev = on_unlink p -> db_fault w (DeleteWhere p) = false) ->
  exists s',
    deliver sha256_hex w ev s = (Ok tt, s')
    /\ db s' = true /\ watcher s' = watcher s.
Proof.
  intros Hdb Hunlink. unfold deliver.
  destruct (watcher s) as [o |] eqn:Hwatch;
    [| exists s; split; [reflexivity | split; assumption]].
  assert (Hhandle : forall p,
            exists s',
              handleFileAddOrChange sha256_hex w p s = (Ok tt, s')
              /\ db s' = true /\ watcher s' = Some o).
  { intros p. destruct (handleFileAddOrChange_no_delete p s)
      as (s' & Hrun & Hd & Hw & _).
    exists s'. split; [exact Hrun |]. split; congruence. }
  destruct ev as [p | p | p | e]; cbn [listener].
  - destruct (is_ignored o p); [exists s; auto | apply Hhandle].
  - destruct (is_ignored o p); [exists s; auto | apply Hhandle].
  - destruct (is_ignored o p); [exists s; auto |].
    rewrite (removeFileRecord_ok w p s Hdb (Hunlink p eq_refl)).
    eexists. split; [reflexivity |]. cbn. auto.
  - unfold log_error, modify. eexists. split; [reflexivity |]. cbn. auto.
Qed.

(** X11.  With the database open, the watch loop goes through all the
    events it is given and the process stays up, unless SQLite rejects
    the DELETE of an unlink event: failures of add and change events
    never end the loop.  The database stays open and the watcher on. *)
Theorem watch_loop_keeps_running events s :
  db s = true ->
  (forall p, In (on_unlink p) events -> db_fault w (DeleteWhere p) = false) ->
  exists s',
    watch_loop sha256_hex w events s = (Running, s')
    /\ db s' = true /\ watcher s' = watcher s.
Proof.
  revert s. induction events as [| ev rest IH]; intros s Hdb Hunlink.
  - exists s. auto.
  - cbn [watch_loop].
    destruct (deliver_ok ev s Hdb) as (s1 & -> & Hdb1 & Hw1).
    { intros p ->. apply Hunlink. left. reflexivity. }
    destruct (IH s1 Hdb1) as (s' & Hrun & Hdb' & Hw').
    { intros p Hp. apply Hunlink. right. exact Hp. }
    exists s'. split; [exact Hrun |]. split; congruence.
Qed.

(** X13.  [shutdown()] stops the watcher and then closes the database;
    however it ends, the rows, the id counter and the emitted events
    are left alone.  When neither close rejects it succeeds with the
    watcher off and the database closed, the process exits with code 0,
    a second [shutdown()] changes nothing and no watch event is
    delivered any more.  When [watcher.close()] rejects, [shutdown()]
    throws at once: the database is not closed, nothing changes, and
    the process logs the error and exits with code 1.  When the watcher
    is stopped and [db.close()] rejects, [shutdown()] throws with the
    watcher off and the database still open, and the exit code is 1. *)
Theorem shutdown_idempotent s :
  (files (snd (shutdown w s)) = files s
   /\ sqlite_sequence (snd (shutdown w s)) = sqlite_sequence s
   /\ emitted (snd (shutdown w s)) = emitted s)
  /\ ((watcher s = None \/ watcher_close_fault w = false) ->
      (db s = false \/ db_fault w CloseDatabase = false) ->
      exists s1,
        shutdown w s = (Ok tt, s1)
        /\ watcher s1 = None /\ db s1 = false
        /\ gracefulShutdown w s = (Exited 0, s1)
        /\ shutdown w s1 = (Ok tt, s1)
        /\ forall ev, deliver sha256_hex w ev s1 = (Ok tt, s1))
  /\ (watcher s <> None -> watcher_close_fault w = true ->
      shutdown w s = (Throw WatcherCloseError, s)
      /\ gracefulShutdown w s
         = (Exited 1,
            add_console_error (ErrorDuringShutdown, WatcherCloseError) s))
  /\ ((watcher s = None \/ watcher_close_fault w = false) ->
      db s = true -> db_fault w CloseDatabase = true ->
      exists s1,
        shutdown w s = (Throw (SqliteError CloseDatabase), s1)
        /\ watcher s1 = None /\ db s1 = true
        /\ gracefulShutdown w s
           = (Exited 1,
              add_console_error
                (ErrorDuringShutdown, SqliteError CloseDatabase) s1)).
Proof.
  split; [apply shutdown_rows |].
  unfold gracefulShutdown. rewrite shutdown_stages.
  split; [| split].
  - intros Hwatcher Hdatabase.
    assert (Hdone : forall s1,
              watcher s1 = None -> db s1 = false ->
              shutdown w s1 = (Ok tt, s1)
              /\ forall ev, deliver sha256_hex w ev s1 = (Ok tt, s1)).
    { intros s1 Hw1 Hd1. rewrite shutdown_stages, Hw1, closeDatabase_stages, Hd1.
      split; [reflexivity |]. intros ev. unfold deliver. rewrite Hw1.
      reflexivity. }
    destruct (watcher s) as [o |] eqn:Hw.
    + destruct Hwatcher as [Hnone | ->]; [discriminate |].
      rewrite closeDatabase_stages. cbn [db set_watcher].
      destruct (db s) eqn:Hd.
      * destruct Hdatabase as [Hclosed | ->]; [discriminate |].
        eexists. split; [reflexivity |].
        split; [reflexivity |]. split; [reflexivity |].
        split; [reflexivity |]. apply Hdone; reflexivity.
      * eexists. split; [reflexivity |].
        split; [reflexivity |]. split; [exact Hd |].
        split; [reflexivity |]. apply Hdone; [reflexivity | exact Hd].
    + rewrite closeDatabase_stages.
      destruct (db s) eqn:Hd.
      * destruct Hdatabase as [Hclosed | ->]; [discriminate |].
        eexists. split; [reflexivity |].
        split; [exact Hw |]. split; [reflexivity |].
        split; [reflexivity |]. apply Hdone; [exact Hw | reflexivity].
      * exists s. split; [reflexivity |].
        split; [exact Hw |]. split; [exact Hd |].
        split; [reflexivity |]. apply Hdone; assumption.
  - intros Hon Hfault.
    destruct (watcher s) as [o |]; [| contradiction].
    rewrite Hfault. split; reflexivity.
  - intros Hwatcher Hd Hfault.
    destruct (watcher s) as [o |] eqn:Hw.
    + destruct Hwatcher as [Hnone | ->]; [discriminate |].
      rewrite closeDatabase_stages. cbn [db set_watcher]. rewrite Hd, Hfault.
      eexists. split; [reflexivity |]. cbn. auto.
    + rewrite closeDatabase_stages, Hd, Hfault.
      eexists. split; [reflexivity |]. cbn. auto.
Qed.

End Handlers.

(** ** [start()], and a restart *)

Section Lifecycle.

Variable sha256_hex : string -> string.
Variable w : World.

Lemma initializeDatabase_ok s :
  db_fault w OpenDatabase = false ->
  db_fault w CreateTables = false ->
  initializeDatabase w s
  = (Ok tt, add_db_call CreateTables (set_db true (add_db_call OpenDatabase s))).
Proof.
  intros Hopen Hcreate. unfold initializeDatabase. run.
  rewrite Hopen. cbn. rewrite Hcreate. reflexivity.
Qed.

Lemma initializeDatabase_open_fails s :
  db_fault w OpenDatabase = true ->
  initializeDatabase w s
  = (Throw (SqliteError OpenDatabase),
     add_console_error (FailedInitializeDatabase, SqliteError OpenDatabase)
       (add_db_call OpenDatabase s)).
Proof.
  intros Hopen. unfold initializeDatabase. run. rewrite Hopen. reflexivity.
Qed.

Lemma initializeDatabase_create_fails s :
  db_fault w OpenDatabase = false ->
  db_fault w CreateTables = true ->
  initializeDatabase w s
  = (Throw (SqliteError CreateTables),
     add_console_error (FailedInitializeDatabase, SqliteError CreateTables)
       (add_db_call CreateTables (set_db true (add_db_call OpenDatabase s)))).
Proof.
  intros Hopen Hcreate. unfold initializeDatabase. run.
  rewrite Hopen. cbn. rewrite Hcreate. reflexivity.
Qed.

Lemma start_stages s :
  start sha256_hex w s
  = match initializeDatabase w s with
    | (Ok _, s0) =>
        match performInitialSync sha256_hex w s0 with
        | (Ok _, s2) =>
            (Ok tt,
             set_watcher
               (Some (spread (spread defaultOptions (watchOptions w))
                             (mkChokidarOptions None (Some true) (Some true))))
               s2)
        | (Throw e, s2) => (Throw e, add_console_error (FailedStart, e) s2)
        end
    | (Throw e, s0) => (Throw e, add_console_error (FailedStart, e) s0)
    end.
Proof.
  unfold start, logged at 1, try_catch at 1. unfold bind at 1.
  destruct (initializeDatabase w s) as [[[] | e] s0]; [| reflexivity].
  unfold bind at 1.
  destruct (performInitialSync sha256_hex w s0) as [[[] | e] s2]; reflexivity.
Qed.

Lemma start_inversion s s1 :
  start sha256_hex w s = (Ok tt, s1) ->
  db_fault w OpenDatabase = false /\ db_fault w CreateTables = false
  /\ exists s2,
       performInitialSync sha256_hex w
         (add_db_call CreateTables (set_db true (add_db_call OpenDatabase s)))
       = (Ok tt, s2)
       /\ s1 = set_watcher
                 (Some (spread (spread defaultOptions (watchOptions w))
                               (mkChokidarOptions None (Some true) (Some true))))
                 s2.
Proof.
  rewrite start_stages.
  destruct (db_fault w OpenDatabase) eqn:Hopen;
    [rewrite (initializeDatabase_open_fails _ Hopen); discriminate |].
  destruct (db_fault w CreateTables) eqn:Hcreate;
    [rewrite (initializeDatabase_create_fails _ Hopen Hcreate); discriminate |].
  rewrite (initializeDatabase_ok _ Hopen Hcreate).
  destruct (performInitialSync sha256_hex w _) as [[[] | e] s2] eqn:Hsync;
    [| discriminate].
  intros Heq. injection Heq as <-.
  split; [reflexivity |]. split; [reflexivity |]. exists s2. auto.
Qed.

Lemma removeFileRecord_handles filePath s :
  db (snd (removeFileRecord w filePath s)) = db s
  /\ watcher (snd (removeFileRecord w filePath s)) = watcher s.
Proof.
  unfold removeFileRecord, sql_delete. run.
  destruct (db s) eqn:Hdb; cbn; [| auto].
  destruct (db_fault w (DeleteWhere filePath)); cbn; auto.
Qed.

Lemma removeStale_handles (dbRecords : JsMap FileRecord) processedFiles :
  forall s r s',
    removeStale w dbRecords processedFiles s = (r, s') ->
    db s' = db s /\ watcher s' = watcher s.
Proof.
  induction dbRecords as [| [k v] rest IH]; intros s r s'; cbn [removeStale].
  - intros Heq. injection Heq as _ <-. split; reflexivity.
  - unfold bind at 1.
    destruct (set_has processedFiles k); cbn [negb].
    + cbn. apply IH.
    + pose proof (removeFileRecord_handles k s) as [Hd Hw].
      destruct (removeFileRecord w k s) as [[[] | e] s1]; cbn [snd] in *.
      * intros Hrest. destruct (IH _ _ _ Hrest) as [Hd' Hw'].
        split; congruence.
      * intros Heq. injection Heq as _ <-. split; assumption.
Qed.

Lemma performInitialSync_handles s :
  db (snd (performInitialSync sha256_hex w s)) = db s
  /\ watcher (snd (performInitialSync sha256_hex w s)) = watcher s.
Proof.
  rewrite performInitialSync_stages.
  destruct (scanDirectory_result (root (filesystem w)) (watchFolder w) s)
    as [_ (Hd1 & Hw1 & _)].
  destruct (scanDirectory (watchFolder w) (root (filesystem w)) s)
    as [[found | e] s1]; cbn [snd] in *; [| split; assumption].
  pose proof (getAllFileRecords_spec sha256_hex w s1) as Hget.
  destruct (getAllFileRecords w s1) as [[dbRecords | e] s2].
  - destruct Hget as (_ & _ & _ & ->).
    pose proof (syncFiles_no_delete sha256_hex w dbRecords found []
                  (add_db_call SelectAll s1)) as (Hd3 & Hw3 & _).
    destruct (syncFiles sha256_hex w found dbRecords []
                (add_db_call SelectAll s1)) as [[processedFiles | e] s3];
      cbn [snd] in *; [| cbn in *; split; congruence].
    destruct (removeStale w dbRecords processedFiles s3) as [[u | e] s4] eqn:Hrm;
      destruct (removeStale_handles _ _ _ _ _ Hrm) as [Hd4 Hw4];
      cbn in *; split; congruence.
  - destruct Hget as (_ & (Hd2 & Hw2 & _) & _). cbn. split; congruence.
Qed.

(** X14.  After a successful [start()] on a table with unique paths the
    database is open and the watcher runs with [ignoreInitial] and
    [persistent] set to true whatever options were given, and with the
    given [ignored] option or, without one, the dot-file pattern.  The
    table then has exactly one row per regular file below the watch
    folder, and every row agrees with its file. *)
Theorem start_postcondition s s1 :
  table_wf (files s) ->
  start sha256_hex w s = (Ok tt, s1) ->
  db s1 = true
  /\ watcher s1
     = Some (mkChokidarOptions
               (Some match ignored (watchOptions w) with
                     | Some matcher => matcher
                     | None => ignore_dotfiles
                     end)
               (Some true) (Some true))
  /\ NoDup (paths s1)
  /\ (forall p, In p (paths s1)
                <-> exists name,
                      file_in (watchFolder w) (root (filesystem w)) name p)
  /\ (forall row, In row (files s1) -> in_sync sha256_hex w row).
Proof.
  intros Hwf Hstart.
  destruct (start_inversion _ _ Hstart) as (_ & _ & s2 & Hsync & ->).
  destruct (performInitialSync_result sha256_hex w
              (add_db_call CreateTables
                 (set_db true (add_db_call OpenDatabase s))) s2 Hwf Hsync)
    as (found & Hscan & Hnodup & Hpaths & Hrows & Hdb & _).
  split; [exact Hdb |]. split.
  - cbn. unfold spread, or_else. cbn.
    destruct (ignored (watchOptions w)); reflexivity.
  - split; [exact Hnodup |]. split; [| exact Hrows].
    intros p. change (paths (set_watcher _ s2)) with (paths s2).
    rewrite Hpaths. split.
    + apply (scan_result_sound _ _ _ Hscan).
    + intros [name Hfile]. apply (scan_result_complete _ _ _ _ Hfile _ Hscan).
Qed.

(** X15.  When [start()] throws, the watcher is not started and the
    failure is on the console as the failure of the start.  If the
    database cannot be opened the error is that one, the directory is
    not scanned and the table is not touched; if it was opened, it is
    left open. *)
Theorem start_failure s e s' :
  start sha256_hex w s = (Throw e, s') ->
  watcher s' = watcher s
  /\ In (FailedStart, e) (console_error s')
  /\ (db_fault w OpenDatabase = true ->
      e = SqliteError OpenDatabase
      /\ fs_calls s' = fs_calls s /\ files s' = files s /\ db s' = db s)
  /\ (db_fault w OpenDatabase = false -> db s' = true).
Proof.
  rewrite start_stages.
  destruct (db_fault w OpenDatabase) eqn:Hopen.
  - rewrite (initializeDatabase_open_fails _ Hopen).
    intros Heq. injection Heq as <- <-. cbn.
    split; [reflexivity |].
    split; [apply in_or_app; right; left; reflexivity |].
    split; [auto | discriminate].
  - destruct (db_fault w CreateTables) eqn:Hcreate.
    + rewrite (initializeDatabase_create_fails _ Hopen Hcreate).
      intros Heq. injection Heq as <- <-. cbn.
      split; [reflexivity |].
      split; [apply in_or_app; right; left; reflexivity |].
      split; [discriminate | reflexivity].
    + rewrite (initializeDatabase_ok _ Hopen Hcreate).
      pose proof (performInitialSync_handles
                    (add_db_call CreateTables
                       (set_db true (add_db_call OpenDatabase s))))
        as [Hd Hw].
      destruct (performInitialSync sha256_hex w _) as [[[] | e2] s2];
        [discriminate |].
      cbn in Hd, Hw.
      intros Heq. injection Heq as <- <-. cbn.
      split; [exact Hw |].
      split; [apply in_or_app; right; left; reflexivity |].
      split; [discriminate | intros _; exact Hd].
Qed.

(** A pass over a table that is already in step with the file system. *)
Lemma performInitialSync_settled s found :
  scan_result (watchFolder w) (root (filesystem w)) = Ok found ->
  db s = true ->
  db_fault w SelectAll = false ->
  (forall q, In q (paths s) <-> In q found) ->
  (forall row, In row (files s) -> in_sync sha256_hex w row) ->
  exists s',
    performInitialSync sha256_hex w s = (Ok tt, s')
    /\ same_store (add_db_call SelectAll s) s'.
Proof.
  intros Hscan Hdb Hsel Hpaths Hsync.
  rewrite performInitialSync_stages.
  destruct (scanDirectory_result (root (filesystem w)) (watchFolder w) s)
    as [Hres Hsame].
  destruct (scanDirectory (watchFolder w) (root (filesystem w)) s)
    as [[found' | e] sA]; cbn [fst snd] in Hres, Hsame;
    rewrite Hscan in Hres; [| discriminate].
  injection Hres as ->.
  pose proof Hsame as (HdbA & HwA & HfilesA & HseqA & HcallsA & HemitA).
  pose proof (getAllFileRecords_spec sha256_hex w sA) as Hget.
  destruct (getAllFileRecords w sA) as [[dbRecords | e] sB].
  - destruct Hget as (_ & _ & (Hnone & Hsome & Hkeys) & ->).
    rewrite HfilesA in Hnone, Hsome, Hkeys.
    assert (Hall : forall p, In p found ->
                     exists r, map_get dbRecords p = Some r
                               /\ file_matches sha256_hex w p r).
    { intros p Hp. apply Hpaths in Hp.
      destruct (map_get dbRecords p) as [r |] eqn:Hg;
        [| exfalso; exact (Hnone _ Hg Hp)].
      exists r. split; [reflexivity |].
      destruct (Hsome _ _ Hg) as [Hin <-]. apply Hsync. assumption. }
    destruct (syncFiles_unchanged sha256_hex w dbRecords found Hall []
                (add_db_call SelectAll sA))
      as (processedFiles & sC & Hloop & HsameC).
    rewrite Hloop.
    pose proof (syncFiles_processed _ _ _ _ _ _ _ _ Hloop) as Hproc.
    rewrite removeStale_unchanged.
    + exists sC. split; [reflexivity |].
      destruct HsameC as (C1 & C2 & C3 & C4 & C5 & C6). cbn in *.
      repeat split; cbn; congruence.
    + intros q Hq. apply Hproc. right. apply Hpaths, Hkeys. assumption.
  - destruct Hget as (_ & _ & [Hclosed | Hfault]); congruence.
Qed.

(** X16.  A restart is quiet.  After a successful [start()] on a table
    with unique paths and a [shutdown()] that succeeded, a second
    [start()] over the same file system succeeds, and between the two
    starts only the closing and the opening of the database, the schema
    script and the SELECT are issued: no INSERT, UPDATE or DELETE.  The
    rows, the id counter and the emitted events are those of the first
    start, and the watcher runs with the same options. *)
Theorem restart_is_quiet s s1 s2 :
  table_wf (files s) ->
  start sha256_hex w s = (Ok tt, s1) ->
  shutdown w s1 = (Ok tt, s2) ->
  exists s3,
    start sha256_hex w s2 = (Ok tt, s3)
    /\ db_calls s3
       = db_calls s1 ++ [CloseDatabase; OpenDatabase; CreateTables; SelectAll]
    /\ files s3 = files s1
    /\ sqlite_sequence s3 = sqlite_sequence s1
    /\ emitted s3 = emitted s1
    /\ watcher s3 = watcher s1 /\ db s3 = true.
Proof.
  intros Hwf Hstart Hdown.
  destruct (start_inversion _ _ Hstart) as (Hopen & Hcreate & sy & Hsync & ->).
  destruct (performInitialSync_result sha256_hex w
              (add_db_call CreateTables
                 (set_db true (add_db_call OpenDatabase s))) sy Hwf Hsync)
    as (found & Hscan & _ & Hpaths & Hrows & Hdb & Hsel).
  set (o := Some (spread (spread defaultOptions (watchOptions w))
                         (mkChokidarOptions None (Some true) (Some true)))) in *.
  unfold shutdown, stopWatching, closeDatabase, bind, db_call, modify in Hdown.
  cbn in Hdown.
  destruct (watcher_close_fault w); [discriminate |]. cbn in Hdown.
  rewrite Hdb in Hdown.
  destruct (db_fault w CloseDatabase); [discriminate |].
  injection Hdown as <-.
  rewrite start_stages, (initializeDatabase_ok _ Hopen Hcreate).
  destruct (performInitialSync_settled
              (add_db_call CreateTables
                 (set_db true
                    (add_db_call OpenDatabase
                       (set_db false
                          (add_db_call CloseDatabase
                             (set_watcher None (set_watcher o sy)))))))
              found Hscan eq_refl Hsel Hpaths Hrows)
    as (sz & -> & (Z1 & Z2 & Z3 & Z4 & Z5 & Z6)).
  cbn in Z1, Z2, Z3, Z4, Z5, Z6.
  eexists. split; [reflexivity |]. cbn.
  split; [rewrite Z5, <- !app_assoc; reflexivity |].
  repeat split; assumption.
Qed.

End Lifecycle.

(** ** What a pass keeps of the rows it finds *)

Section Identity.

Variable sha256_hex : string -> string.
Variable w : World.

Lemma syncFiles_preserves dbRecords (Q : State -> Prop) :
  (forall p s s',
     Q s -> syncFile sha256_hex w dbRecords p s = (Ok tt, s') -> Q s') ->
  forall currentFiles processedFiles s processed' s',
    Q s ->
    syncFiles sha256_hex w currentFiles dbRecords processedFiles s
    = (Ok processed', s') ->
    Q s'.
Proof.
  intros Hstep currentFiles.
  induction currentFiles as [| filePath rest IH];
    intros processedFiles s processed' s' HQ; cbn [syncFiles].
  - intros Heq. injection Heq as _ <-. exact HQ.
  - unfold bind at 1.
    destruct (syncFile sha256_hex w dbRecords filePath s) as [[[] | e] s1] eqn:Hone;
      [| discriminate].
    apply IH. apply (Hstep _ _ _ HQ Hone).
Qed.

Lemma sql_update_row_identity record row :
  id (sql_update_row record row) = id row
  /\ created_at (sql_update_row record row) = created_at row.
Proof.
  unfold sql_update_row. destruct (has_path _ _); split; reflexivity.
Qed.

Section OnePassMore.

Variable rows0 : list FileRecord.
Variable dbRecords : JsMap FileRecord.
Hypothesis rows0_wf : table_wf rows0.
Hypothesis dbRecords_snapshot : snapshot_of dbRecords rows0.

Lemma syncFile_identity filePath s s' :
  keeps_identity rows0 s ->
  syncFile sha256_hex w dbRecords filePath s = (Ok tt, s') ->
  keeps_identity rows0 s'.
Proof.
  intros HQ. unfold syncFile.
  destruct dbRecords_snapshot as (Hnone & _ & _).
  destruct (map_get dbRecords filePath) as [dbRecord |] eqn:Hget.
  - unfold bind at 1.
    destruct (hasFileChanged_spec sha256_hex w filePath dbRecord s)
      as (changed & s1 & -> & (_ & _ & Hfiles1 & _) & _).
    destruct changed.
    + unfold bind at 1.
      pose proof (createFileRecord_spec sha256_hex w filePath s1) as Hcreate.
      destruct (createFileRecord sha256_hex w filePath s1) as [[rec | e] s2];
        [| discriminate].
      destruct Hcreate as ((_ & _ & Hfiles2 & _) & _).
      unfold bind at 1.
      match goal with
      | |- context [updateFileRecord w ?r s2] =>
          pose proof (updateFileRecord_spec w r s2) as Hupd;
          destruct (updateFileRecord w r s2) as [[r' | e] s3]
      end; [| discriminate].
      destruct Hupd as (_ & _ & Hfiles3 & _).
      intros Heq. injection Heq as <-.
      intros row' Hin' Htracked. rewrite Hfiles3, Hfiles2, Hfiles1 in Hin'.
      apply in_map_iff in Hin' as (row & <- & Hin).
      rewrite sql_update_row_path in Htracked.
      destruct (HQ row Hin Htracked) as (r0 & H0 & Hp & Hi & Hc).
      destruct (sql_update_row_identity
                  (mkFileRecord (id dbRecord) (file_path rec) (size rec)
                     (modified_time rec) (checksum rec) (created_at rec)
                     (updated_at rec)) row) as [Hi' Hc'].
      exists r0. rewrite sql_update_row_path. repeat split; congruence.
    + intros Heq. injection Heq as <-.
      intros row' Hin'. rewrite Hfiles1 in Hin'. apply HQ. exact Hin'.
  - unfold bind at 1.
    pose proof (createFileRecord_spec sha256_hex w filePath s) as Hcreate.
    destruct (createFileRecord sha256_hex w filePath s) as [[rec | e] s1];
      [| discriminate].
    destruct Hcreate as ((_ & _ & Hfiles1 & _) & Hrecpath & _).
    pose proof (insertFileRecord_spec sha256_hex w rec s1) as Hins.
    destruct (insertFileRecord w rec s1) as [[u | e] s2]; [| discriminate].
    destruct Hins as (_ & _ & _ & (row & Hfiles2 & Hp & _) & _).
    intros Heq. injection Heq as _ <-.
    intros row' Hin' Htracked. rewrite Hfiles2, Hfiles1 in Hin'.
    apply in_app_iff in Hin' as [Hin | [<- | []]]; [apply HQ; assumption |].
    exfalso. apply (Hnone _ Hget). congruence.
Qed.

Lemma syncFile_untouched row filePath s s' :
  In row rows0 -> in_sync sha256_hex w row ->
  In row (files s) ->
  syncFile sha256_hex w dbRecords filePath s = (Ok tt, s') ->
  In row (files s').
Proof.
  intros Hrow0 Hsync Hin. unfold syncFile.
  destruct dbRecords_snapshot as (_ & Hsome & _).
  destruct (map_get dbRecords filePath) as [dbRecord |] eqn:Hget.
  - destruct (Hsome _ _ Hget) as [Hin0 Hpath0].
    unfold bind at 1.
    destruct (hasFileChanged_spec sha256_hex w filePath dbRecord s)
      as (changed & s1 & -> & (_ & _ & Hfiles1 & _) & Hchanged).
    destruct changed.
    + unfold bind at 1.
      pose proof (createFileRecord_spec sha256_hex w filePath s1) as Hcreate.
      destruct (createFileRecord sha256_hex w filePath s1) as [[rec | e] s2];
        [| discriminate].
      destruct Hcreate as ((_ & _ & Hfiles2 & _) & Hrecpath & _).
      unfold bind at 1.
      match goal with
      | |- context [updateFileRecord w ?r s2] =>
          pose proof (updateFileRecord_spec w r s2) as Hupd;
          destruct (updateFileRecord w r s2) as [[r' | e] s3]
      end; [| discriminate].
      destruct Hupd as (_ & _ & Hfiles3 & _).
      intros Heq. injection Heq as <-.
      rewrite Hfiles3, Hfiles2, Hfiles1.
      assert (Hother : file_path row <> filePath).
      { intros Heq.
        assert (dbRecord = row)
          by (apply (unique_row rows0); auto; congruence).
        subst dbRecord. unfold in_sync in Hsync. rewrite Heq in Hsync.
        apply Hchanged in Hsync. discriminate. }
      match goal with
      | |- In row (map (sql_update_row ?r) _) =>
          rewrite <- (sql_update_row_other r row) by (cbn; congruence)
      end.
      apply in_map. exact Hin.
    + intros Heq. injection Heq as <-. rewrite Hfiles1. exact Hin.
  - unfold bind at 1.
    pose proof (createFileRecord_spec sha256_hex w filePath s) as Hcreate.
    destruct (createFileRecord sha256_hex w filePath s) as [[rec | e] s1];
      [| discriminate].
    destruct Hcreate as ((_ & _ & Hfiles1 & _) & _).
    pose proof (insertFileRecord_spec sha256_hex w rec s1) as Hins.
    destruct (insertFileRecord w rec s1) as [[u | e] s2]; [| discriminate].
    destruct Hins as (_ & _ & _ & (row' & Hfiles2 & _) & _).
    intros Heq. injection Heq as _ <-.
    rewrite Hfiles2, Hfiles1. apply in_or_app. left. exact Hin.
Qed.

End OnePassMore.

(** X17.  A pass that completes on a table with unique paths keeps the
    identity of the rows it does not delete: a row whose path was
    already in the table has the id and the creation time that path had
    before.  A row that agreed with its file before the pass and whose
    path is still in the table is there unchanged.  And every row of the
    table agrees with its file afterwards. *)
Theorem performInitialSync_keeps_identity s s' :
  table_wf (files s) ->
  performInitialSync sha256_hex w s = (Ok tt, s') ->
  (forall row', In row' (files s') -> in_sync sha256_hex w row')
  /\ (forall row', In row' (files s') -> In (file_path row') (paths s) ->
        exists row, In row (files s) /\ file_path row = file_path row'
                    /\ id row = id row' /\ created_at row = created_at row')
  /\ (forall row, In row (files s) -> in_sync sha256_hex w row ->
                  In (file_path row) (paths s') -> In row (files s')).
Proof.
  intros Hwf Hrun.
  destruct (performInitialSync_result sha256_hex w s s' Hwf Hrun)
    as (_ & _ & _ & _ & Hrows & _).
  split; [exact Hrows |].
  destruct (performInitialSync_ok sha256_hex w _ _ Hrun)
    as (currentFiles & s1 & dbRecords & processedFiles & s3
        & Hscan & _ & _ & Hsnap & Hsync & Hrm).
  destruct (scanDirectory_result (root (filesystem w)) (watchFolder w) s)
    as [_ Hsame].
  rewrite Hscan in Hsame. cbn [snd] in Hsame.
  destruct Hsame as (_ & _ & Hfiles1 & _). rewrite Hfiles1 in Hsnap.
  destruct (removeStale_ok sha256_hex w _ _ _ _ Hrm) as (Hkept & _ & _).
  split.
  - assert (HQ : keeps_identity (files s) s3).
    { apply (syncFiles_preserves dbRecords (keeps_identity (files s))
               (fun p a b => syncFile_identity (files s) dbRecords Hsnap p a b)
               _ _ _ _ _) with (2 := Hsync).
      intros row' Hin' _. cbn in Hin'. rewrite Hfiles1 in Hin'.
      exists row'. auto. }
    intros row' Hin' Htracked. apply Hkept in Hin' as [Hin3 _].
    apply (HQ row' Hin3 Htracked).
  - intros row Hin Hrowsync Hstill.
    assert (Hin3 : In row (files s3)).
    { apply (syncFiles_preserves dbRecords (fun st => In row (files st))
               (fun p a b =>
                  syncFile_untouched (files s) dbRecords Hwf Hsnap row p a b
                    Hin Hrowsync) _ _ _ _ _) with (2 := Hsync).
      cbn. rewrite Hfiles1. exact Hin. }
    apply Hkept. split; [exact Hin3 |].
    apply in_map_iff in Hstill as (other & Hp & Hother).
    apply Hkept in Hother as [_ Hcond]. rewrite Hp in Hcond. exact Hcond.
Qed.

End Identity.

(** ** A watch folder below a dot-directory *)

Lemma string_app_assoc (a b c : string) : ((a ++ b) ++ c = a ++ (b ++ c))%string.
Proof. induction a as [| x a IH]; cbn; [reflexivity | rewrite IH; reflexivity]. Qed.

Ltac case_bytes :=
  cbn [append dot_and_one_more starts_with_line_terminator];
  repeat match goal with
         | |- context [Ascii.eqb ?c ?k] => is_var c; destruct (Ascii.eqb c k)
         end;
  cbn; auto.

Lemma dot_and_one_more_slash d :
  dot_and_one_more d = true -> dot_and_one_more (d ++ "/") = true.
Proof.
  destruct d as [| c [| c' [| c2 [| c3 rest]]]]; try discriminate; case_bytes.
Qed.

Lemma dot_and_one_more_after_slash d x :
  ends_with_slash d = true ->
  dot_and_one_more d = true -> dot_and_one_more (d ++ x) = true.
Proof.
  destruct d as [| c [| c' [| c2 [| c3 rest]]]]; try discriminate.
  - cbn [ends_with_slash]. intros Hslash. apply Ascii.eqb_eq in Hslash.
    subst c'. destruct x as [| x1 [| x2 x]]; case_bytes.
  - cbn [ends_with_slash]. intros Hslash. apply Ascii.eqb_eq in Hslash.
    subst c2. destruct x as [| x1 x]; case_bytes.
  - intros _. case_bytes.
Qed.

Lemma separator_dot_and_one_more_slash d :
  separator_dot_and_one_more d = true ->
  separator_dot_and_one_more (d ++ "/") = true.
Proof.
  induction d as [| c rest IH]; [discriminate |].
  change (String c rest ++ "/")%string with (String c (rest ++ "/")).
  cbn [separator_dot_and_one_more]. rewrite !orb_true_iff, !andb_true_iff.
  intros [[Hsep Hdot] | Hrest].
  - left. split; [exact Hsep | apply dot_and_one_more_slash; exact Hdot].
  - right. apply IH. exact Hrest.
Qed.

Lemma separator_dot_and_one_more_after_slash d x :
  ends_with_slash d = true ->
  separator_dot_and_one_more d = true ->
  separator_dot_and_one_more (d ++ x) = true.
Proof.
  induction d as [| c rest IH]; [discriminate |].
  change (String c rest ++ x)%string with (String c (rest ++ x)).
  cbn [separator_dot_and_one_more]. rewrite !orb_true_iff, !andb_true_iff.
  intros Hslash [[Hsep Hdot] | Hrest];
    (destruct rest as [| c' rest']; [discriminate |]).
  - left. split; [exact Hsep |].
    apply dot_and_one_more_after_slash; assumption.
  - right. apply IH; assumption.
Qed.

Lemma ends_with_slash_app d : ends_with_slash (d ++ "/") = true.
Proof.
  induction d as [| c [| c' rest] IH]; [reflexivity | reflexivity |].
  exact IH.
Qed.

(** A path below a directory that the default pattern matches is
    matched as well. *)
Lemma ignore_dotfiles_slash d :
  ignore_dotfiles d = true -> ignore_dotfiles (d ++ "/") = true.
Proof.
  unfold ignore_dotfiles. rewrite !orb_true_iff. intros [H | H].
  - left. apply dot_and_one_more_slash. exact H.
  - right. apply separator_dot_and_one_more_slash. exact H.
Qed.

Lemma ignore_dotfiles_after_slash d x :
  ends_with_slash d = true ->
  ignore_dotfiles d = true -> ignore_dotfiles (d ++ x) = true.
Proof.
  unfold ignore_dotfiles. rewrite !orb_true_iff. intros Hslash [H | H].
  - left. apply dot_and_one_more_after_slash; assumption.
  - right. apply separator_dot_and_one_more_after_slash; assumption.
Qed.

Lemma ignore_dotfiles_below d rest :
  ignore_dotfiles d = true -> ignore_dotfiles (d ++ "/" ++ rest) = true.
Proof.
  intros Hdot. rewrite <- string_app_assoc.
  apply ignore_dotfiles_after_slash;
    [apply ends_with_slash_app | apply ignore_dotfiles_slash; exact Hdot].
Qed.

Lemma ignore_dotfiles_entry d name :
  ignore_dotfiles d = true -> ignore_dotfiles (path_join d name) = true.
Proof.
  intros Hdot. unfold path_join.
  destruct d as [| c d']; [discriminate |].
  destruct (ends_with_slash (String c d')) eqn:Hslash.
  - apply ignore_dotfiles_after_slash; assumption.
  - apply ignore_dotfiles_below. exact Hdot.
Qed.

Lemma ignore_dotfiles_file_in dirPath dir name p :
  file_in dirPath dir name p ->
  ignore_dotfiles dirPath = true -> ignore_dotfiles p = true.
Proof.
  induction 1 as [dirPath entries name Hin
                 | dirPath entries sub subdir name p Hin Hfile IH];
    intros Hdot.
  - apply ignore_dotfiles_entry. exact Hdot.
  - apply IH. apply ignore_dotfiles_entry. exact Hdot.
Qed.

(** X18.  The default pattern is tried on the whole path.  When the
    watch folder itself lies below a directory whose name starts with a
    dot (followed by a character that is not a line terminator) and no
    [ignored] option is given, no add, change or unlink event for any
    path below the watch folder is delivered after [start()]; this holds
    in particular for every file found by the scan. *)
Theorem watch_folder_below_dot_directory sha256_hex w s s1 :
  ignore_dotfiles (watchFolder w) = true ->
  ignored (watchOptions w) = None ->
  start sha256_hex w s = (Ok tt, s1) ->
  (forall p,
     (exists rest, p = (watchFolder w ++ "/" ++ rest)%string)
     \/ (exists name, file_in (watchFolder w) (root (filesystem w)) name p) ->
     deliver sha256_hex w (on_add p) s1 = (Ok tt, s1)
     /\ deliver sha256_hex w (on_change p) s1 = (Ok tt, s1)
     /\ deliver sha256_hex w (on_unlink p) s1 = (Ok tt, s1))
  /\ watcher s1
     = Some (mkChokidarOptions (Some ignore_dotfiles) (Some true) (Some true)).
Proof.
  intros Hdot Hdefault Hstart.
  destruct (start_inversion _ _ _ _ Hstart) as (_ & _ & s2 & _ & ->).
  split.
  - intros p Hbelow.
    assert (Hp : ignore_dotfiles p = true).
    { destruct Hbelow as [[rest ->] | [name Hfile]].
      - apply ignore_dotfiles_below. exact Hdot.
      - apply (ignore_dotfiles_file_in _ _ _ _ Hfile Hdot). }
    unfold deliver, is_ignored. cbn. rewrite Hdefault. cbn. rewrite Hp.
    repeat split.
  - cbn. unfold spread, or_else. rewrite Hdefault. reflexivity.
Qed.

(** ** The further properties at work on the small world *)

Lemma scanDirectory_exact_witness :
  fst (scanDirectory "/w" demo_tree empty_store)
  = Ok ["/w/a.txt"; "/w/.env"; path_join "/w" newline_dotfile;
        "/w/sub/nested.txt"]
  /\ (exists name, file_in "/w" demo_tree name "/w/sub/nested.txt")
  /\ ~ (exists name, file_in "/w" demo_tree name "/w/link")
  /\ ~ (exists name, file_in "/w" demo_tree name "/w/sub").
Proof.
  assert (Hscan : fst (scanDirectory "/w" demo_tree empty_store)
                  = Ok ["/w/a.txt"; "/w/.env"; path_join "/w" newline_dotfile;
                        "/w/sub/nested.txt"]) by (vm_compute; reflexivity).
  destruct (scanDirectory_exact "/w" demo_tree empty_store _ Hscan)
    as [Hiff _].
  split; [exact Hscan |]. split; [| split].
  - apply Hiff. right. right. right. left. reflexivity.
  - intros H. apply Hiff in H. vm_compute in H. intuition discriminate.
  - intros H. apply Hiff in H. vm_compute in H. intuition discriminate.
Defined.

Lemma createFileRecord_snapshot_witness :
  createFileRecord demo_digest demo_world "/w/a.txt" empty_store
  = (Ok demo_fresh_record,
     snd (createFileRecord demo_digest demo_world "/w/a.txt" empty_store))
  /\ file_matches demo_digest demo_world "/w/a.txt" demo_fresh_record
  /\ same_store empty_store
       (snd (createFileRecord demo_digest demo_world "/w/a.txt" empty_store)).
Proof.
  assert (Hrun : createFileRecord demo_digest demo_world "/w/a.txt" empty_store
                 = (Ok demo_fresh_record,
                    snd (createFileRecord demo_digest demo_world "/w/a.txt"
                           empty_store))) by (vm_compute; reflexivity).
  destruct (createFileRecord_snapshot demo_digest demo_world "/w/a.txt"
              empty_store) as [Hok _].
  destruct (Hok _ _ Hrun) as (_ & _ & _ & _ & Hmatch & Hsame & _).
  exact (conj Hrun (conj Hmatch Hsame)).
Defined.

Lemma hasFileChanged_false_iff_unchanged_witness :
  exists changed s',
    hasFileChanged demo_digest demo_world "/w/a.txt" demo_fresh_record
      empty_store = (Ok changed, s')
    /\ same_store empty_store s'
    /\ (changed = false
        <-> file_matches demo_digest demo_world "/w/a.txt" demo_fresh_record).
Proof.
  destruct (hasFileChanged_false_iff_unchanged demo_digest demo_world
              "/w/a.txt" demo_fresh_record empty_store)
    as (changed & s' & Hrun & Hsame & _ & Hiff).
  exists changed, s'. exact (conj Hrun (conj Hsame Hiff)).
Defined.

Lemma getAllFileRecords_lookup_witness :
  table_wf (files demo_store)
  /\ getAllFileRecords demo_world demo_store
     = (Ok [("/w/a.txt", demo_old_row); ("/w/gone.txt", demo_other_row)],
        add_db_call SelectAll demo_store)
  /\ map_get [("/w/a.txt", demo_old_row); ("/w/gone.txt", demo_other_row)]
       "/w/gone.txt"
     = find (has_path "/w/gone.txt") (files demo_store).
Proof.
  assert (Hrun : getAllFileRecords demo_world demo_store
                 = (Ok [("/w/a.txt", demo_old_row);
                        ("/w/gone.txt", demo_other_row)],
                    add_db_call SelectAll demo_store))
    by (vm_compute; reflexivity).
  destruct (getAllFileRecords_lookup demo_digest demo_world demo_store _ _
              demo_store_wf Hrun) as (_ & Hfind & _).
  exact (conj demo_store_wf (conj Hrun (Hfind "/w/gone.txt"))).
Defined.

Lemma insertFileRecord_round_trip_witness :
  table_wf (files demo_store)
  /\ db_fault demo_world SelectAll = false
  /\ insertFileRecord demo_world demo_env_record demo_store
     = (Ok tt, snd (insertFileRecord demo_world demo_env_record demo_store))
  /\ exists row,
       id row = Some 3%Z /\ file_path row = "/w/.env"
       /\ files (snd (insertFileRecord demo_world demo_env_record demo_store))
          = [demo_old_row; demo_other_row; row]
       /\ exists dbRecords s'',
            getAllFileRecords demo_world
              (snd (insertFileRecord demo_world demo_env_record demo_store))
            = (Ok dbRecords, s'')
            /\ map_get dbRecords "/w/.env" = Some row.
Proof.
  assert (Hrun : insertFileRecord demo_world demo_env_record demo_store
                 = (Ok tt,
                    snd (insertFileRecord demo_world demo_env_record
                           demo_store))) by (vm_compute; reflexivity).
  destruct (insertFileRecord_round_trip demo_digest demo_world demo_env_record
              demo_store _ demo_store_wf eq_refl Hrun)
    as (row & Hrow & Hfiles & _ & _ & _ & Hback).
  split; [exact demo_store_wf |]. split; [reflexivity |].
  split; [exact Hrun |].
  exists row. split; [rewrite Hrow; reflexivity |].
  split; [rewrite Hrow; reflexivity |].
  split; [exact Hfiles | exact Hback].
Defined.

Lemma insertFileRecord_duplicate_witness :
  db demo_store = true
  /\ In (file_path demo_fresh_record) (paths demo_store)
  /\ exists s',
       insertFileRecord demo_world demo_fresh_record demo_store
       = (Throw (SqliteConstraintUnique "/w/a.txt"), s')
       /\ files s' = files demo_store /\ emitted s' = emitted demo_store.
Proof.
  assert (Htracked : In (file_path demo_fresh_record) (paths demo_store))
    by (left; reflexivity).
  destruct (insertFileRecord_duplicate demo_digest demo_world demo_fresh_record
              demo_store eq_refl Htracked)
    as (e & s' & Hrun & Hfiles & _ & Hemit & _ & Hwhy).
  rewrite (Hwhy eq_refl) in Hrun.
  split; [reflexivity |]. split; [exact Htracked |].
  exists s'. exact (conj Hrun (conj Hfiles Hemit)).
Defined.

Lemma database_not_initialized_witness :
  db initial_state = false
  /\ removeFileRecord demo_world "/w/a.txt" initial_state
     = (Throw DatabaseNotInitialized, initial_state)
  /\ exists e s',
       performInitialSync demo_digest demo_world initial_state = (Throw e, s')
       /\ same_store initial_state s'.
Proof.
  destruct (database_not_initialized demo_digest demo_world demo_fresh_record
              "/w/a.txt" initial_state eq_refl)
    as (_ & _ & Hremove & _ & (e & s' & Hsync & Hsame & _) & _).
  split; [reflexivity |]. split; [exact Hremove |].
  exists e, s'. exact (conj Hsync Hsame).
Defined.

Lemma change_event_updates_tracked_row_witness :
  db demo_store = true
  /\ In demo_old_row (files demo_store)
  /\ stat (filesystem demo_world) "/w/a.txt" = Some (mkStats 5 1700000000123)
  /\ readFile (filesystem demo_world) "/w/a.txt" = Some "AAAAA"
  /\ exists s' row',
       handleFileAddOrChange demo_digest demo_world "/w/a.txt" demo_store
       = (Ok tt, s')
       /\ db_calls s' = [UpdateWhere "/w/a.txt"]
       /\ In row' (files s')
       /\ id row' = Some 1%Z
       /\ created_at row' = "2025-06-01T08:00:00Z"
       /\ in_sync demo_digest demo_world row'
       /\ In demo_other_row (files s').
Proof.
  assert (Hin : In demo_old_row (files demo_store)) by (left; reflexivity).
  destruct (change_event_updates_tracked_row demo_digest demo_world "/w/a.txt"
              (mkStats 5 1700000000123) "AAAAA" demo_old_row demo_store
              eq_refl Hin eq_refl eq_refl eq_refl eq_refl)
    as (s' & row' & Hrun & Hcalls & _ & Hrow & _ & Hid & Hcreated & _ & Hsync
        & Hothers & _).
  split; [reflexivity |]. split; [exact Hin |].
  split; [reflexivity |]. split; [reflexivity |].
  exists s', row'.
  refine (conj Hrun (conj Hcalls (conj Hrow (conj Hid (conj Hcreated
            (conj Hsync _)))))).
  apply Hothers; [right; left; reflexivity | cbn; discriminate].
Defined.

Lemma rejected_update_falls_back_to_insert_witness :
  db empty_store = true
  /\ db_fault demo_world_update_fails (UpdateWhere "/w/a.txt") = true
  /\ db_fault demo_world_update_fails (InsertInto "/w/a.txt") = false
  /\ ~ In "/w/a.txt" (paths empty_store)
  /\ exists s' row,
       handleFileAddOrChange demo_digest demo_world_update_fails "/w/a.txt"
         empty_store = (Ok tt, s')
       /\ db_calls s' = [UpdateWhere "/w/a.txt"; InsertInto "/w/a.txt"]
       /\ files s' = [row] /\ file_path row = "/w/a.txt"
       /\ id row = Some 1%Z.
Proof.
  destruct (rejected_update_falls_back_to_insert demo_digest
              demo_world_update_fails "/w/a.txt" (mkStats 5 1700000000123)
              "AAAAA" empty_store eq_refl eq_refl eq_refl eq_refl eq_refl)
    as (s' & Hrun & Hcalls & _ & Hnew & _).
  destruct (Hnew (fun H : False => H)) as (row & Hfiles & Hpath & Hid & _).
  split; [reflexivity |]. split; [reflexivity |]. split; [reflexivity |].
  split; [intros [] |].
  exists s', row.
  exact (conj Hrun (conj Hcalls (conj Hfiles (conj Hpath Hid)))).
Defined.

Lemma handleFileAddOrChange_isolated_witness :
  stat (filesystem demo_world) "/w/gone.txt" = None
  /\ exists s' e,
       handleFileAddOrChange demo_digest demo_world "/w/gone.txt" demo_store
       = (Ok tt, s')
       /\ no_delete demo_store s' /\ same_store demo_store s'
       /\ In (FailedAddOrChange "/w/gone.txt", e) (console_error s').
Proof.
  destruct (handleFileAddOrChange_isolated demo_digest demo_world "/w/gone.txt"
              demo_store) as (s' & Hrun & Hnd & Hfail).
  destruct (Hfail (or_introl eq_refl)) as (Hsame & e & Hlog).
  split; [reflexivity |]. exists s', e.
  exact (conj Hrun (conj Hnd (conj Hsame Hlog))).
Defined.

Lemma watch_loop_keeps_running_witness :
  db demo_watching = true
  /\ exists s',
       watch_loop demo_digest demo_world
         [on_add "/w/gone.txt"; on_unlink "/w/a.txt"; on_change "/w/missing"]
         demo_watching = (Running, s')
       /\ db s' = true /\ watcher s' = watcher demo_watching.
Proof.
  split; [reflexivity |].
  apply (watch_loop_keeps_running demo_digest demo_world
           [on_add "/w/gone.txt"; on_unlink "/w/a.txt"; on_change "/w/missing"]
           demo_watching eq_refl).
  intros p _. reflexivity.
Defined.

Lemma watch_loop_frame_witness :
  In demo_other_row (files demo_watching)
  /\ fst (watch_loop demo_digest demo_world_delete_fails
            [on_change "/w/a.txt"; on_unlink "/w/a.txt"; on_add "/w/a.txt"]
            demo_watching) = Exited 0
  /\ In demo_other_row
       (files (snd (watch_loop demo_digest demo_world_delete_fails
                      [on_change "/w/a.txt"; on_unlink "/w/a.txt";
                       on_add "/w/a.txt"] demo_watching))).
Proof.
  assert (Hin : In demo_other_row (files demo_watching))
    by (right; left; reflexivity).
  split; [exact Hin |]. split; [vm_compute; reflexivity |].
  apply (watch_loop_frame demo_digest demo_world_delete_fails _ demo_other_row
           demo_watching Hin).
  intros ev [<- | [<- | [<- | []]]]; cbn; discriminate.
Defined.

Lemma shutdown_idempotent_witness :
  (watcher_close_fault demo_world = false
   /\ db_fault demo_world CloseDatabase = false
   /\ exists s1,
        shutdown demo_world demo_watching = (Ok tt, s1)
        /\ watcher s1 = None /\ db s1 = false
        /\ files s1 = [demo_old_row; demo_other_row]
        /\ shutdown demo_world s1 = (Ok tt, s1))
  /\ (watcher demo_watching <> None
      /\ watcher_close_fault demo_world_watcher_stuck = true
      /\ shutdown demo_world_watcher_stuck demo_watching
         = (Throw WatcherCloseError, demo_watching)
      /\ db demo_watching = true
      /\ fst (gracefulShutdown demo_world_watcher_stuck demo_watching)
         = Exited 1)
  /\ (db demo_watching = true
      /\ db_fault demo_world_close_fails CloseDatabase = true
      /\ exists s1,
           gracefulShutdown demo_world_close_fails demo_watching
           = (Exited 1, s1)
           /\ watcher s1 = None /\ db s1 = true
           /\ files s1 = [demo_old_row; demo_other_row]).
Proof.
  split; [| split].
  - destruct (shutdown_idempotent demo_digest demo_world demo_watching)
      as ((Hfiles & _) & Hok & _).
    destruct (Hok (or_intror eq_refl) (or_intror eq_refl))
      as (s1 & Hrun & Hw & Hd & _ & Hagain & _).
    split; [reflexivity |]. split; [reflexivity |].
    exists s1. rewrite Hrun in Hfiles.
    exact (conj Hrun (conj Hw (conj Hd (conj Hfiles Hagain)))).
  - assert (Hon : watcher demo_watching <> None) by discriminate.
    destruct (shutdown_idempotent demo_digest demo_world_watcher_stuck
                demo_watching) as (_ & _ & Hstuck & _).
    destruct (Hstuck Hon eq_refl) as [Hrun Hexit].
    split; [exact Hon |]. split; [reflexivity |]. split; [exact Hrun |].
    split; [reflexivity |]. rewrite Hexit. reflexivity.
  - destruct (shutdown_idempotent demo_digest demo_world_close_fails
                demo_watching) as ((Hfiles & _) & _ & _ & Hclose).
    destruct (Hclose (or_intror eq_refl) eq_refl eq_refl)
      as (s1 & Hrun & Hw & Hd & Hexit).
    split; [reflexivity |]. split; [reflexivity |].
    rewrite Hrun in Hfiles.
    eexists. split; [exact Hexit |]. cbn [watcher db files add_console_error].
    exact (conj Hw (conj Hd Hfiles)).
Defined.

Lemma start_postcondition_witness :
  table_wf (files initial_state)
  /\ start demo_digest demo_world initial_state = (Ok tt, demo_started)
  /\ db demo_started = true
  /\ watcher demo_started
     = Some (mkChokidarOptions (Some ignore_dotfiles) (Some true) (Some true))
  /\ NoDup (paths demo_started).
Proof.
  assert (Hwf : table_wf (files initial_state)) by constructor.
  assert (Hstart : start demo_digest demo_world initial_state
                   = (Ok tt, demo_started)) by (vm_compute; reflexivity).
  destruct (start_postcondition demo_digest demo_world initial_state
              demo_started Hwf Hstart) as (Hdb & Hwatch & Hnodup & _).
  exact (conj Hwf (conj Hstart (conj Hdb (conj Hwatch Hnodup)))).
Defined.

Lemma start_failure_witness :
  start demo_digest demo_world_locked initial_state
  = (Throw (FsError (Readdir "/w/private")),
     snd (start demo_digest demo_world_locked initial_state))
  /\ watcher (snd (start demo_digest demo_world_locked initial_state)) = None
  /\ In (FailedStart, FsError (Readdir "/w/private"))
        (console_error (snd (start demo_digest demo_world_locked initial_state)))
  /\ db (snd (start demo_digest demo_world_locked initial_state)) = true.
Proof.
  assert (Hstart : start demo_digest demo_world_locked initial_state
                   = (Throw (FsError (Readdir "/w/private")),
                      snd (start demo_digest demo_world_locked initial_state)))
    by (vm_compute; reflexivity).
  destruct (start_failure demo_digest demo_world_locked initial_state _ _
              Hstart) as (Hwatch & Hlog & _ & Hopen).
  exact (conj Hstart (conj Hwatch (conj Hlog (Hopen eq_refl)))).
Defined.

Lemma restart_is_quiet_witness :
  table_wf (files initial_state)
  /\ start demo_digest demo_world initial_state = (Ok tt, demo_started)
  /\ shutdown demo_world demo_started
     = (Ok tt, snd (shutdown demo_world demo_started))
  /\ exists s3,
       start demo_digest demo_world (snd (shutdown demo_world demo_started))
       = (Ok tt, s3)
       /\ db_calls s3
          = db_calls demo_started
            ++ [CloseDatabase; OpenDatabase; CreateTables; SelectAll]
       /\ files s3 = files demo_started.
Proof.
  assert (Hwf : table_wf (files initial_state)) by constructor.
  assert (Hstart : start demo_digest demo_world initial_state
                   = (Ok tt, demo_started)) by (vm_compute; reflexivity).
  assert (Hdown : shutdown demo_world demo_started
                  = (Ok tt, snd (shutdown demo_world demo_started)))
    by (vm_compute; reflexivity).
  destruct (restart_is_quiet demo_digest demo_world initial_state demo_started
              _ Hwf Hstart Hdown) as (s3 & Hagain & Hcalls & Hfiles & _).
  split; [exact Hwf |]. split; [exact Hstart |]. split; [exact Hdown |].
  exists s3. exact (conj Hagain (conj Hcalls Hfiles)).
Defined.

Lemma performInitialSync_keeps_identity_witness :
  table_wf (files demo_store)
  /\ performInitialSync demo_digest demo_world demo_store
     = (Ok tt, snd (performInitialSync demo_digest demo_world demo_store))
  /\ exists row',
       In row'
          (files (snd (performInitialSync demo_digest demo_world demo_store)))
       /\ file_path row' = "/w/a.txt"
       /\ exists row,
            In row (files demo_store) /\ file_path row = file_path row'
            /\ id row = id row' /\ created_at row = created_at row'.
Proof.
  assert (Hrun : performInitialSync demo_digest demo_world demo_store
                 = (Ok tt,
                    snd (performInitialSync demo_digest demo_world demo_store)))
    by (vm_compute; reflexivity).
  destruct (performInitialSync_keeps_identity demo_digest demo_world demo_store
              _ demo_store_wf Hrun) as (_ & Hident & _).
  split; [exact demo_store_wf |]. split; [exact Hrun |].
  assert (Hrow : In (mkFileRecord (Some 1%Z) "/w/a.txt" 5 1700000000
                       "sha256(AAAAA)" "2025-06-01T08:00:00Z"
                       "2025-06-15T10:00:00Z")
                    (files (snd (performInitialSync demo_digest demo_world
                                   demo_store))))
    by (vm_compute; left; reflexivity).
  eexists. split; [exact Hrow |]. split; [reflexivity |].
  apply (Hident _ Hrow). left. reflexivity.
Defined.

Lemma watch_folder_below_dot_directory_witness :
  ignore_dotfiles (watchFolder demo_world_dot_folder) = true
  /\ ignored (watchOptions demo_world_dot_folder) = None
  /\ start demo_digest demo_world_dot_folder initial_state
     = (Ok tt, snd (start demo_digest demo_world_dot_folder initial_state))
  /\ In "/home/u/.sync/w/a.txt"
        (paths (snd (start demo_digest demo_world_dot_folder initial_state)))
  /\ deliver demo_digest demo_world_dot_folder
       (on_change "/home/u/.sync/w/a.txt")
       (snd (start demo_digest demo_world_dot_folder initial_state))
     = (Ok tt, snd (start demo_digest demo_world_dot_folder initial_state)).
Proof.
  assert (Hstart : start demo_digest demo_world_dot_folder initial_state
                   = (Ok tt,
                      snd (start demo_digest demo_world_dot_folder
                             initial_state))) by (vm_compute; reflexivity).
  destruct (watch_folder_below_dot_directory demo_digest demo_world_dot_folder
              initial_state _ eq_refl eq_refl Hstart) as [Hall _].
  destruct (Hall "/home/u/.sync/w/a.txt"
              (or_introl (ex_intro _ "a.txt" eq_refl)))
    as (_ & Hchange & _).
  split; [reflexivity |]. split; [reflexivity |]. split; [exact Hstart |].
  split; [vm_compute; left; reflexivity | exact Hchange].
Defined.
